(** * Go-tools/internal/tools/shell.go: command execution and its safety policy

    A shallow embedding of the command/script execution tools of
    [shell.go] (run_command, run_script, set_env, get_env) together with the
    deny list, the output cap, the shell resolver and the redaction of
    sensitive environment values, followed by the properties the
    specification states about them.

    Go strings are byte sequences: they are modelled by [string], whose
    characters are the 256 values of [ascii].  A Go [map] is a [gmap]; the
    order in which [range] visits it is chosen by the host.

    Every tool is modelled twice: [Execute] is the body of the Go method
    between [json.Unmarshal] and [json.Marshal], on the decoded request
    and the answer's struct; the functions of [Module Tool] are the whole
    method, from the raw input to the answer as JSON carries it. *)

From Stdlib Require Import ZArith Lia Bool List Ascii String.
From stdpp Require Import gmap strings list.

Import ListNotations.
Local Open Scope string_scope.
Local Open Scope Z_scope.

(** ** The [strings] package: the functions [shell.go] calls *)

Module Strings.

(** [strings.Join(elems, sep)] *)
Fixpoint Join (elems : list string) (sep : string) : string :=
  match elems with
  | [] => ""
  | [e] => e
  | e :: rest => e ++ sep ++ Join rest sep
  end.

(** [strings.HasPrefix(s, prefix)] *)
Fixpoint HasPrefix (s prefix : string) : bool :=
  match prefix, s with
  | EmptyString, _ => true
  | String _ _, EmptyString => false
  | String a p', String b s' => Ascii.eqb a b && HasPrefix s' p'
  end.

(** [strings.Contains(s, substr)] *)
Fixpoint Contains (s substr : string) : bool :=
  HasPrefix s substr ||
  match s with
  | EmptyString => false
  | String _ s' => Contains s' substr
  end.

(** [strings.Repeat(string(c), n)] for a one-byte string. *)
Fixpoint Repeat (c : ascii) (n : nat) : string :=
  match n with
  | O => ""
  | S n' => String c (Repeat c n')
  end.

(** [strings.Split(s, string(sep))] for a one-byte separator: the pieces
    between the separators, in order; always at least one piece. *)
Fixpoint Split (s : string) (sep : ascii) : list string :=
  match s with
  | EmptyString => [""]
  | String a s' =>
      if Ascii.eqb a sep then "" :: Split s' sep
      else match Split s' sep with
           | [] => [String a ""]
           | piece :: rest => String a piece :: rest
           end
  end.

(** [strings.SplitN(s, string(sep), 2)]: cut at the first separator, or
    the whole string as the only piece when there is none. *)
Fixpoint SplitN2 (s : string) (sep : ascii) : list string :=
  match s with
  | EmptyString => [""]
  | String a s' =>
      if Ascii.eqb a sep then [""; s']
      else match SplitN2 s' sep with
           | [k; v] => [String a k; v]
           | _ => [s]
           end
  end.

(** The six ASCII white-space bytes of [unicode.IsSpace]. *)
Definition asciiSpace (a : ascii) : bool :=
  match a with
  | "009" | "010" | "011" | "012" | "013" | " " => true
  | _ => false
  end%char.

(** The UTF-8 encodings of the other white-space runes of
    [unicode.IsSpace]: U+0085, U+00A0, U+1680, U+2000..U+200A, U+2028,
    U+2029, U+202F, U+205F, U+3000. *)
Definition space2 (a b : ascii) : bool :=
  match a, b with
  | "194", "133" | "194", "160" => true
  | _, _ => false
  end%char.

Definition space3 (a b c : ascii) : bool :=
  match a, b, c with
  | "225", "154", "128" => true
  | "226", "128", c =>
      (N.leb 128 (N_of_ascii c) && N.leb (N_of_ascii c) 138)
      || Ascii.eqb c "168" || Ascii.eqb c "169" || Ascii.eqb c "175"
  | "226", "129", "159" => true
  | "227", "128", "128" => true
  | _, _, _ => false
  end%char.

(** [strings.TrimLeftFunc(s, unicode.IsSpace)] *)
Fixpoint TrimLeft (s : string) : string :=
  match s with
  | String a s1 =>
      if asciiSpace a then TrimLeft s1
      else match s1 with
           | String b s2 =>
               if space2 a b then TrimLeft s2
               else match s2 with
                    | String c s3 => if space3 a b c then TrimLeft s3 else s
                    | EmptyString => s
                    end
           | EmptyString => s
           end
  | EmptyString => s
  end.

(** The same scan from the end, on the reversed bytes. *)
Fixpoint TrimLeftRev (s : string) : string :=
  match s with
  | String a s1 =>
      if asciiSpace a then TrimLeftRev s1
      else match s1 with
           | String b s2 =>
               if space2 b a then TrimLeftRev s2
               else match s2 with
                    | String c s3 => if space3 c b a then TrimLeftRev s3 else s
                    | EmptyString => s
                    end
           | EmptyString => s
           end
  | EmptyString => s
  end.

Fixpoint rev_append (s acc : string) : string :=
  match s with
  | EmptyString => acc
  | String a s' => rev_append s' (String a acc)
  end.

Definition rev (s : string) : string := rev_append s "".

(** [strings.TrimSpace(s)] *)
Definition TrimSpace (s : string) : string :=
  rev (TrimLeftRev (rev (TrimLeft s))).

End Strings.

(** ** [unicode/utf8] and the strings of [encoding/json] *)

Module Utf8.

Definition inRange (lo hi : N) (a : ascii) : bool :=
  N.leb lo (N_of_ascii a) && N.leb (N_of_ascii a) hi.

(** [utf8.DecodeRuneInString(s)]: the width of the rune at the head of
    [s], and [false] for the answer [(RuneError, 1)] (or [(RuneError, 0)]
    on the empty string).  The lead byte gives the width and the range of
    the second byte; the other bytes are continuation bytes. *)
Definition DecodeRuneInString (s : string) : nat * bool :=
  match s with
  | EmptyString => (0%nat, false)
  | String a s1 =>
      let n := N_of_ascii a in
      if N.ltb n 128%N then (1%nat, true)
      else if N.ltb n 194%N || N.ltb 244%N n then (1%nat, false)
      else
        let lo := (if N.eqb n 224 then 160 else if N.eqb n 240 then 144 else 128)%N in
        let hi := (if N.eqb n 237 then 159 else if N.eqb n 244 then 143 else 191)%N in
        match s1 with
        | String b s2 =>
            if inRange lo hi b then
              if N.ltb n 224%N then (2%nat, true)
              else
                match s2 with
                | String c s3 =>
                    if inRange 128%N 191%N c then
                      if N.ltb n 240%N then (3%nat, true)
                      else
                        match s3 with
                        | String d _ =>
                            if inRange 128%N 191%N d then (4%nat, true)
                            else (1%nat, false)
                        | EmptyString => (1%nat, false)
                        end
                    else (1%nat, false)
                | EmptyString => (1%nat, false)
                end
            else (1%nat, false)
        | EmptyString => (1%nat, false)
        end
  end.

(** The scan of [utf8.ValidString]; [skip] bytes of the current rune are
    still to be passed over. *)
Fixpoint validFrom (skip : nat) (s : string) : bool :=
  match s with
  | EmptyString => true
  | String a s' =>
      match skip with
      | S k => validFrom k s'
      | O =>
          match DecodeRuneInString s with
          | (size, true) => validFrom (size - 1) s'
          | (_, false) => false
          end
      end
  end.

(** [utf8.ValidString(s)] *)
Definition ValidString (s : string) : bool := validFrom 0 s.

End Utf8.

Module Json.

(** U+FFFD, the replacement character, in UTF-8. *)
Definition replacement : string := String "239" (String "191" (String "189" "")).

Fixpoint textFrom (skip : nat) (s : string) : string :=
  match s with
  | EmptyString => ""
  | String a s' =>
      match skip with
      | S k => String a (textFrom k s')
      | O =>
          match Utf8.DecodeRuneInString s with
          | (size, true) => String a (textFrom (size - 1) s')
          | (_, false) => replacement ++ textFrom 0 s'
          end
      end
  end.

(** The string a reader of [json.Marshal]'s output gets for the Go string
    [s]: the encoder walks [s] rune by rune and writes [\ufffd] for every
    byte at which [utf8.DecodeRuneInString] answers [(RuneError, 1)]; all
    its other escapes decode to the bytes they stand for. *)
Definition text (s : string) : string := textFrom 0 s.

End Json.

(** ** The [regexp] package: the fragment of RE2 syntax the deny list uses

    The syntax tree follows Go's [regexp/syntax] grammar: alternation binds
    loosest, then concatenation, then repetition of a single-character
    atom.  [render] prints a tree back to its pattern text.

    The matcher threads the byte before the current position (needed by
    [\b]) and the bytes that remain.  Every pattern of the deny list is
    ASCII and [.] stands for any rune but a new line, so matching by bytes
    agrees with matching by UTF-8 runes. *)

Module Regexp.

(** One-character atoms. *)
Inductive cset : Type :=
| CByte (a : ascii)          (* a literal *)
| CSpace                     (* \s : [\t\n\f\r ] *)
| CAny                       (* .  : anything but \n *)
| CRange (lo hi : ascii).    (* [lo-hi] *)

Inductive re : Type :=
| Eps                        (* the empty group body *)
| Chr (c : cset)
| Star (c : cset)            (* c* *)
| Plus (c : cset)            (* c+ *)
| WordB                      (* \b *)
| EndText                    (* $, without the m flag *)
| Cat (r1 r2 : re)
| Alt (r1 r2 : re)
| Group (r : re).            (* ( r ) *)

Definition cmem (c : cset) (a : ascii) : bool :=
  match c with
  | CByte b => Ascii.eqb a b
  | CSpace =>
      match a with
      | "009" | "010" | "012" | "013" | " " => true
      | _ => false
      end%char
  | CAny => negb (Ascii.eqb a "010")
  | CRange lo hi =>
      N.leb (N_of_ascii lo) (N_of_ascii a) && N.leb (N_of_ascii a) (N_of_ascii hi)
  end.

(** [\w] : [0-9A-Za-z_] *)
Definition isWordByte (a : ascii) : bool :=
  let n := N_of_ascii a in
  (N.leb 48 n && N.leb n 57) || (N.leb 65 n && N.leb n 90)
  || (N.leb 97 n && N.leb n 122) || N.eqb n 95.

Definition isWord (p : option ascii) : bool :=
  match p with
  | Some a => isWordByte a
  | None => false
  end.

Definition peek (s : string) : option ascii :=
  match s with
  | EmptyString => None
  | String a _ => Some a
  end.

(** A position in the text: the byte just before it and what follows. *)
Definition pos : Type := option ascii * string.

(** All the positions reached by zero or more bytes of [c]. *)
Fixpoint stars (c : cset) (p : option ascii) (s : string) : list pos :=
  (p, s) ::
  match s with
  | EmptyString => []
  | String a s' => if cmem c a then stars c (Some a) s' else []
  end.

(** All the positions at which a match of [r] starting at [(p, s)] can
    end. *)
Fixpoint run (r : re) (p : option ascii) (s : string) : list pos :=
  match r with
  | Eps => [(p, s)]
  | Chr c =>
      match s with
      | EmptyString => []
      | String a s' => if cmem c a then [(Some a, s')] else []
      end
  | Star c => stars c p s
  | Plus c =>
      match s with
      | EmptyString => []
      | String a s' => if cmem c a then stars c (Some a) s' else []
      end
  | WordB => if xorb (isWord p) (isWord (peek s)) then [(p, s)] else []
  | EndText =>
      match s with
      | EmptyString => [(p, s)]
      | String _ _ => []
      end
  | Cat r1 r2 => flat_map (fun q => run r2 (fst q) (snd q)) (run r1 p s)
  | Alt r1 r2 => run r1 p s ++ run r2 p s
  | Group r1 => run r1 p s
  end.

Definition matchesHere (r : re) (p : option ascii) (s : string) : bool :=
  match run r p s with
  | [] => false
  | _ :: _ => true
  end.

(** An unanchored search: some start position has a match. *)
Fixpoint search (r : re) (p : option ascii) (s : string) : bool :=
  matchesHere r p s ||
  match s with
  | EmptyString => false
  | String a s' => search r (Some a) s'
  end.

(** The literal bytes of [s], one after the other. *)
Fixpoint Lit (s : string) : re :=
  match s with
  | EmptyString => Eps
  | String a EmptyString => Chr (CByte a)
  | String a s' => Cat (Chr (CByte a)) (Lit s')
  end.

Definition render_cset (c : cset) : string :=
  match c with
  | CByte a => String a ""
  | CSpace => "\s"
  | CAny => "."
  | CRange lo hi => String "[" (String lo (String "-" (String hi "]")))
  end.

Fixpoint render (r : re) : string :=
  match r with
  | Eps => ""
  | Chr c => render_cset c
  | Star c => render_cset c ++ "*"
  | Plus c => render_cset c ++ "+"
  | WordB => "\b"
  | EndText => "$"
  | Cat r1 r2 => render r1 ++ render r2
  | Alt r1 r2 => render r1 ++ "|" ++ render r2
  | Group r1 => "(" ++ render r1 ++ ")"
  end.

(** The grammar's layering: an alternation only at the top or directly
    inside a group. *)
Fixpoint isConcat (r : re) : bool :=
  match r with
  | Alt _ _ => false
  | Cat r1 r2 => isConcat r1 && isConcat r2
  | Group r1 => isRegexp r1
  | _ => true
  end
with isRegexp (r : re) : bool :=
  match r with
  | Alt r1 r2 => isRegexp r1 && isRegexp r2
  | Cat r1 r2 => isConcat r1 && isConcat r2
  | Group r1 => isRegexp r1
  | _ => true
  end.

(** A compiled pattern: [String()] gives back the source text. *)
Record Regexp : Type := MustCompile { String_ : string; prog : re }.

(** [re.MatchString(s)] *)
Definition MatchString (r : Regexp) (s : string) : bool :=
  search (prog r) None s.

End Regexp.

(** ** Safety: the command deny list *)

Import Regexp.

(** A concatenation written as the list of its factors. *)
Fixpoint seq (rs : list re) : re :=
  match rs with
  | [] => Eps
  | [r] => r
  | r :: rest => Cat r (seq rest)
  end.

Definition re_rm_root : re :=
  seq [WordB; Lit "rm"; Plus CSpace; Lit "-rf"; Plus CSpace; Lit "/";
       Star CSpace; EndText].
Definition re_mkfs : re := seq [WordB; Lit "mkfs"; WordB].
Definition re_dd : re :=
  seq [WordB; Lit "dd"; Plus CSpace; Star CAny; Lit "of=/dev/"].
Definition re_redirect : re :=
  seq [Lit ">"; Star CSpace; Lit "/dev/sd"; Chr (CRange "a" "z")].
(** [{] starts no repetition here, so it and [}] are literals; the [|]
    outside any group splits the whole pattern in two alternatives. *)
Definition re_fork : re :=
  Alt (seq [WordB; Lit ":"; Group Eps; Lit "{ :"]) (Lit ":& };:").
Definition re_shutdown : re := seq [WordB; Lit "shutdown"; WordB].
Definition re_reboot : re := seq [WordB; Lit "reboot"; WordB].
Definition re_systemctl : re :=
  seq [WordB; Lit "systemctl"; Plus CSpace;
       Group (Alt (Lit "start") (Alt (Lit "stop") (Alt (Lit "disable")
             (Alt (Lit "enable") (Lit "mask")))));
       WordB].

Definition pat_rm_root : Regexp := MustCompile "\brm\s+-rf\s+/\s*$" re_rm_root.
Definition pat_mkfs : Regexp := MustCompile "\bmkfs\b" re_mkfs.
Definition pat_dd : Regexp := MustCompile "\bdd\s+.*of=/dev/" re_dd.
Definition pat_redirect : Regexp := MustCompile ">\s*/dev/sd[a-z]" re_redirect.
Definition pat_fork : Regexp := MustCompile "\b:(){ :|:& };:" re_fork.
Definition pat_shutdown : Regexp := MustCompile "\bshutdown\b" re_shutdown.
Definition pat_reboot : Regexp := MustCompile "\breboot\b" re_reboot.
Definition pat_systemctl : Regexp :=
  MustCompile "\bsystemctl\s+(start|stop|disable|enable|mask)\b" re_systemctl.

Definition defaultDenyPatterns : list Regexp :=
  [ pat_rm_root;     (* rm -rf / *)
    pat_mkfs;        (* format filesystems *)
    pat_dd;          (* raw disk writes *)
    pat_redirect;    (* redirect to disk *)
    pat_fork;        (* fork bomb *)
    pat_shutdown;    (* shutdown *)
    pat_reboot;      (* reboot *)
    pat_systemctl ]. (* service management *)

Definition defaultTimeoutMs : Z := 30000.
Definition maxOutputBytes : Z := 1 * 1024 * 1024.

Fixpoint firstMatch (res : list Regexp) (fullCmd : string) : bool * string :=
  match res with
  | [] => (false, "")
  | r :: rest =>
      if MatchString r fullCmd then (true, String_ r) else firstMatch rest fullCmd
  end.

Definition isDenied (fullCmd : string) : bool * string :=
  firstMatch defaultDenyPatterns fullCmd.

(** [capOutput]: the first [maxOutputBytes] bytes of a captured stream. *)
Definition capOutput (data : list Byte.byte) : string * bool :=
  if Z.of_nat (length data) >? maxOutputBytes
  then (string_of_list_byte (take (Z.to_nat maxOutputBytes) data), true)
  else (string_of_list_byte data, false).

(** ** The host: the Go runtime and the operating system under the tools *)

(** The signed 64-bit product behind [time.Duration(ms) * time.Millisecond]. *)
Definition wrap64 (z : Z) : Z := (z + 2 ^ 63) mod 2 ^ 64 - 2 ^ 63.

Module Exec.

(** The fields of [exec.Cmd] the tools set, and the deadline of the
    context the command was created with, in nanoseconds. *)
Record Cmd : Type := {
  Path : string;
  Args : list string;
  Dir : string;
  Env : option (list string);     (* nil: inherit the caller's environment *)
  Timeout : Z
}.

(** What [cmd.Run()] returned. *)
Inductive RunErr : Type :=
| Nil
| ExitError (exitCode : Z)        (* *exec.ExitError and its ExitCode() *)
| OtherError (msg : string).      (* the process could not be started *)

(** [cmdCtx.Err()] after the run. *)
Inductive CtxErr : Type := NoErr | Canceled | DeadlineExceeded.

Record Outcome : Type := {
  err : RunErr;
  ctxErr : CtxErr;
  stdout : list Byte.byte;
  stderr : list Byte.byte;
  duration : Z                    (* duration.Milliseconds() *)
}.

End Exec.

Record Host : Type := {
  GOOS : string;                               (* runtime.GOOS *)
  ToLower : string -> string;                  (* strings.ToLower *)
  ToUpper : string -> string;                  (* strings.ToUpper *)
  LookPath : string -> option string;          (* exec.LookPath, err == nil *)
  Abs : string -> string + string;             (* filepath.Abs: err.Error() or the path *)
  IsDir : string -> bool;                      (* os.Stat ok and info.IsDir() *)
  rangeOrder : gmap string string -> list (string * string);
                                               (* the order of "for k, v := range m" *)
  Run : Exec.Cmd -> Exec.Outcome               (* cmd.Run() *)
}.

(** [range] visits every key of the map once, in an order of its own. *)
Definition rangeSound (h : Host) : Prop :=
  forall m : gmap string string, rangeOrder h m ≡ₚ map_to_list m.

(** ** The process environment ([os.Environ], [os.LookupEnv], [os.Setenv])

    The environment block is the list of its ["key=value"] entries. *)

Module Os.

Definition hasByte (a : ascii) (s : string) : bool :=
  Strings.Contains s (String a "").

(** The value of the first entry for [key]. *)
Fixpoint LookupEnv (envs : list string) (key : string) : option string :=
  match envs with
  | [] => None
  | e :: rest =>
      match Strings.SplitN2 e "=" with
      | [k; v] =>
          if String.eqb k key && negb (String.eqb key "") then Some v
          else LookupEnv rest key
      | _ => LookupEnv rest key
      end
  end.

Fixpoint replaceEntry (envs : list string) (key kv : string) : list string :=
  match envs with
  | [] => [kv]
  | e :: rest =>
      match Strings.SplitN2 e "=" with
      | [k; _] => if String.eqb k key then kv :: rest
                  else e :: replaceEntry rest key kv
      | _ => e :: replaceEntry rest key kv
      end
  end.

(** [os.Setenv]: fails on an empty key and on a key with [=] or NUL or
    a value with NUL; otherwise the entry is replaced or appended. *)
Definition Setenv (envs : list string) (key value : string)
  : option (list string) :=
  if String.eqb key "" || hasByte "=" key || hasByte "000" key
     || hasByte "000" value
  then None
  else Some (replaceEntry envs key (key ++ "=" ++ value)).

(** What a child started with the environment list [env] reads for
    [key]: of several entries for one key, os/exec keeps the last. *)
Definition childGetenv (env : list string) (key : string) : option string :=
  LookupEnv (rev env) key.

End Os.

(** ** Events and failures of a tool call *)

Inductive Event : Type :=
| EAbs (path : string)              (* filepath.Abs *)
| EStat (path : string)             (* os.Stat *)
| EEnviron                          (* os.Environ *)
| ESpawn (c : Exec.Cmd).            (* cmd.Run: whether it gets as far
                                       as a process is the host's [Run] *)

(** The errors the tools return, one constructor per [return nil, ...]. *)
Inductive error : Type :=
| ErrCmdRequired
| ErrCommandBlocked (pattern : string)
| ErrScriptRequired
| ErrScriptBlocked (pattern line : string)
| ErrInvalidCwd (msg : string)
| ErrCwdNotDir (cwd : string)
| ErrFailedToRun (what msg : string)
| ErrKeyRequired
| ErrSetenv (key : string)
| ErrUnmarshal (msg : string).      (* the error of json.Unmarshal *)

(** [err.Error()] *)
Definition Error (e : error) : string :=
  match e with
  | ErrCmdRequired => "cmd required"
  | ErrCommandBlocked pattern =>
      "command blocked by safety denylist (matched: " ++ pattern ++ ")"
  | ErrScriptRequired => "script required"
  | ErrScriptBlocked pattern line =>
      "script line blocked by safety denylist (matched: " ++ pattern ++ "): " ++ line
  | ErrInvalidCwd msg => "invalid cwd: " ++ msg
  | ErrCwdNotDir cwd => "cwd does not exist or is not a directory: " ++ cwd
  | ErrFailedToRun what msg => "failed to run " ++ what ++ ": " ++ msg
  | ErrKeyRequired => "key required"
  | ErrSetenv _ => "setenv: invalid argument"
  | ErrUnmarshal msg => msg
  end.

(** The specification's PolicyViolation: a deny rule matched. *)
Definition PolicyViolation (e : error) (rule : string) : Prop :=
  e = ErrCommandBlocked rule \/ exists line, e = ErrScriptBlocked rule line.

(** A computation that logs the system calls it makes and may fail. *)
Definition M (A : Type) : Type := list Event * (error + A).

Definition ret {A : Type} (a : A) : M A := ([], inr a).
Definition fail {A : Type} (e : error) : M A := ([], inl e).
Definition emit (ev : Event) : M unit := ([ev], inr tt).
Definition bind {A B : Type} (m : M A) (k : A -> M B) : M B :=
  match m with
  | (t, inl e) => (t, inl e)
  | (t, inr a) => let '(t', r) := k a in ((t ++ t')%list, r)
  end.

Notation "x <- m ;; k" := (bind m (fun x => k))
  (at level 100, m at next level, right associativity).
Notation "m ;;; k" := (bind m (fun _ => k))
  (at level 100, right associativity).

Definition trace {A : Type} (m : M A) : list Event := fst m.
Definition result {A : Type} (m : M A) : error + A := snd m.

Definition spawned (t : list Event) : Prop := exists c, In (ESpawn c) t.

(** ** The steps [run_command] and [run_script] share, line for line *)

(** [timeoutMs := in.TimeoutMs; if timeoutMs <= 0 { timeoutMs = defaultTimeoutMs }] *)
Definition effectiveTimeoutMs (TimeoutMs : Z) : Z :=
  if TimeoutMs <=? 0 then defaultTimeoutMs else TimeoutMs.

(** [time.Duration(timeoutMs) * time.Millisecond], in nanoseconds. *)
Definition timeoutOf (TimeoutMs : Z) : Z :=
  wrap64 (effectiveTimeoutMs TimeoutMs * 1000000).

(** The working directory: [cmd.Dir], left empty without a [cwd]. *)
Definition workingDir (h : Host) (Cwd : string) : M string :=
  if String.eqb Cwd "" then ret ""
  else
    emit (EAbs Cwd) ;;;
    match Abs h Cwd with
    | inl msg => fail (ErrInvalidCwd msg)
    | inr absPath =>
        emit (EStat absPath) ;;;
        if IsDir h absPath then ret absPath else fail (ErrCwdNotDir Cwd)
    end.

(** [env = append(env, k+"="+v)] for every override, in [range] order. *)
Definition appendOverrides (env : list string) (kvs : list (string * string))
  : list string :=
  fold_left (fun env kv => (env ++ [(fst kv ++ "=" ++ snd kv)%string])%list) kvs env.

(** The environment: [cmd.Env], left nil without overrides. *)
Definition childEnv (h : Host) (envs : list string)
  (EnvOverrides : gmap string string) : M (option (list string)) :=
  if Nat.ltb 0 (size EnvOverrides)
  then emit EEnviron ;;;
       ret (Some (appendOverrides envs (rangeOrder h EnvOverrides)))
  else ret None.

(** [cmd.Run()] with both streams captured. *)
Definition runCmd (h : Host) (c : Exec.Cmd) : M Exec.Outcome :=
  emit (ESpawn c) ;;; ret (Run h c).

(** The exit code and the timed-out flag, or the failure to run. *)
Definition exitStatus (what : string) (o : Exec.Outcome) : M (Z * bool) :=
  match Exec.ctxErr o with
  | Exec.DeadlineExceeded => ret (-1, true)
  | _ =>
      match Exec.err o with
      | Exec.Nil => ret (0, false)
      | Exec.ExitError code => ret (code, false)
      | Exec.OtherError msg => fail (ErrFailedToRun what msg)
      end
  end.

(** ** run_command *)

Module RunCommandTool.

Record Input : Type := {
  Cmd : string;
  Args : list string;
  Cwd : string;
  EnvOverrides : gmap string string;
  TimeoutMs : Z
}.

Record Output : Type := {
  ExitCode : Z;
  Stdout : string;
  Stderr : string;
  Truncated : bool;
  TimedOut : bool;
  DurationMs : Z
}.

(** The line handed to the deny list. *)
Definition fullCmd (inp : Input) : string :=
  Cmd inp ++ " " ++ Strings.Join (Args inp) " ".

(** The body of [Execute], from the request decoded to the answer's
    struct; the whole method is [Tool.run_command]. *)
Definition Execute (h : Host) (envs : list string) (inp : Input) : M Output :=
  if String.eqb (Cmd inp) "" then fail ErrCmdRequired
  else
    (* Safety: check denylist *)
    let '(blocked, pattern) := isDenied (fullCmd inp) in
    if blocked then fail (ErrCommandBlocked pattern)
    else
      let timeout := timeoutOf (TimeoutMs inp) in
      dir <- workingDir h (Cwd inp) ;;
      env <- childEnv h envs (EnvOverrides inp) ;;
      o <- runCmd h {| Exec.Path := Cmd inp; Exec.Args := Args inp;
                       Exec.Dir := dir; Exec.Env := env;
                       Exec.Timeout := timeout |} ;;
      st <- exitStatus "command" o ;;
      let '(stdoutStr, stdoutTrunc) := capOutput (Exec.stdout o) in
      let '(stderrStr, stderrTrunc) := capOutput (Exec.stderr o) in
      ret {| ExitCode := fst st;
             Stdout := stdoutStr;
             Stderr := stderrStr;
             Truncated := if stderrTrunc then true else stdoutTrunc;
             TimedOut := snd st;
             DurationMs := Exec.duration o |}.

End RunCommandTool.

(** ** run_script *)

Definition firstFound (h : Host) (names : list string) : option string :=
  List.fold_right
    (fun name rest => match LookPath h name with Some p => Some p | None => rest end)
    None names.

(** The requested interpreter, when the [switch] returns from its case. *)
Definition requestedShell (h : Host) (requested : string)
  : option (string * string) :=
  let name := ToLower h requested in
  if String.eqb name "bash" then
    match LookPath h "bash" with Some p => Some (p, "-c") | None => None end
  else if String.eqb name "zsh" then
    match LookPath h "zsh" with Some p => Some (p, "-c") | None => None end
  else if String.eqb name "sh" then
    match LookPath h "sh" with Some p => Some (p, "-c") | None => None end
  else if String.eqb name "pwsh" || String.eqb name "powershell" then
    match LookPath h "pwsh" with
    | Some p => Some (p, "-Command")
    | None =>
        match LookPath h "powershell" with
        | Some p => Some (p, "-Command")
        | None => None
        end
    end
  else if String.eqb name "fish" then
    match LookPath h "fish" with Some p => Some (p, "-c") | None => None end
  else None.

(** Default: the best available shell for the platform. *)
Definition defaultShell (h : Host) : string * string :=
  if String.eqb (GOOS h) "windows" then
    match LookPath h "pwsh" with
    | Some p => (p, "-Command")
    | None =>
        match LookPath h "powershell" with
        | Some p => (p, "-Command")
        | None => ("cmd", "/C")
        end
    end
  else
    match firstFound h ["bash"; "zsh"; "sh"] with
    | Some p => (p, "-c")
    | None => ("/bin/sh", "-c")
    end.

Definition resolveShell (h : Host) (requested : string) : string * string :=
  match requestedShell h requested with
  | Some binding => binding
  | None => defaultShell h
  end.

Module RunScriptTool.

Record Input : Type := {
  Script : string;
  Shell : string;
  Cwd : string;
  EnvOverrides : gmap string string;
  TimeoutMs : Z
}.

Record Output : Type := {
  ExitCode : Z;
  Stdout : string;
  Stderr : string;
  Truncated : bool;
  TimedOut : bool;
  DurationMs : Z;
  ShellUsed : string
}.

(** A line the loop skips: blank or a comment once trimmed. *)
Definition skipped (line : string) : bool :=
  String.eqb line "" || Strings.HasPrefix line "#".

(** The loop over the lines: the first denied line and its pattern. *)
Fixpoint checkLines (lines : list string) : option (string * string) :=
  match lines with
  | [] => None
  | raw :: rest =>
      let line := Strings.TrimSpace raw in
      if skipped line then checkLines rest
      else
        let '(blocked, pattern) := isDenied line in
        if blocked then Some (pattern, line) else checkLines rest
  end.

(** The body of [Execute], from the request decoded to the answer's
    struct; the whole method is [Tool.run_script]. *)
Definition Execute (h : Host) (envs : list string) (inp : Input) : M Output :=
  if String.eqb (Script inp) "" then fail ErrScriptRequired
  else
    (* Safety: check each line of the script against denylist *)
    match checkLines (Strings.Split (Script inp) "010") with
    | Some (pattern, line) => fail (ErrScriptBlocked pattern line)
    | None =>
        let '(shell, shellArg) := resolveShell h (Shell inp) in
        let timeout := timeoutOf (TimeoutMs inp) in
        dir <- workingDir h (Cwd inp) ;;
        env <- childEnv h envs (EnvOverrides inp) ;;
        o <- runCmd h {| Exec.Path := shell;
                         Exec.Args := [shellArg; Script inp];
                         Exec.Dir := dir; Exec.Env := env;
                         Exec.Timeout := timeout |} ;;
        st <- exitStatus "script" o ;;
        let '(stdoutStr, stdoutTrunc) := capOutput (Exec.stdout o) in
        let '(stderrStr, stderrTrunc) := capOutput (Exec.stderr o) in
        ret {| ExitCode := fst st;
               Stdout := stdoutStr;
               Stderr := stderrStr;
               Truncated := if stderrTrunc then true else stdoutTrunc;
               TimedOut := snd st;
               DurationMs := Exec.duration o;
               ShellUsed := shell |}
    end.

End RunScriptTool.

(** ** set_env and get_env *)

(** [sensitiveEnvKeys] are redacted from get_env by default. *)
Definition sensitiveEnvKeys : gmap string bool :=
  list_to_map
    [ ("AWS_SECRET_ACCESS_KEY", true);
      ("AWS_SESSION_TOKEN", true);
      ("GITHUB_TOKEN", true);
      ("GH_TOKEN", true);
      ("OPENAI_API_KEY", true);
      ("ANTHROPIC_API_KEY", true);
      ("DATABASE_URL", true);
      ("DB_PASSWORD", true);
      ("SECRET_KEY", true);
      ("PRIVATE_KEY", true);
      ("API_KEY", true);
      ("API_SECRET", true);
      ("PASSWORD", true);
      ("TOKEN", true);
      ("STRIPE_SECRET_KEY", true);
      ("SENDGRID_API_KEY", true) ].

Definition sensitivePatterns : list string :=
  [ "SECRET"; "PASSWORD"; "PASSWD"; "TOKEN";
    "API_KEY"; "APIKEY"; "PRIVATE_KEY"; "CREDENTIAL";
    "AUTH" ].

Definition isSensitiveEnvKey (h : Host) (key : string) : bool :=
  let upper := ToUpper h key in
  (* Check exact matches *)
  if default false (sensitiveEnvKeys !! upper) then true
  else
    (* Check common patterns *)
    existsb (fun pat => Strings.Contains upper pat) sensitivePatterns.

Definition redactValue (val : string) : string :=
  if Nat.leb (String.length val) 4 then "****"
  else substring 0 2 val
       ++ Strings.Repeat "*" (String.length val - 4)
       ++ substring (String.length val - 2) 2 val.

Module SetEnvTool.

Record Input : Type := { Key : string; Value : string }.
Record Output : Type := { Success : bool; Message : string }.

(** The body of [Execute], from the request decoded on: the answer's
    struct and the environment after the call; the whole method is
    [Tool.set_env]. *)
Definition Execute (h : Host) (envs : list string) (inp : Input)
  : M Output * list string :=
  if String.eqb (Key inp) "" then (fail ErrKeyRequired, envs)
  else if isSensitiveEnvKey h (Key inp) then
    match Os.Setenv envs (Key inp) (Value inp) with
    | None => (fail (ErrSetenv (Key inp)), envs)
    | Some envs' =>
        (ret {| Success := true;
                Message := "warning: '" ++ Key inp
                  ++ "' is a sensitive key — value will be redacted from get_env" |},
         envs')
    end
  else
    match Os.Setenv envs (Key inp) (Value inp) with
    | None => (fail (ErrSetenv (Key inp)), envs)
    | Some envs' => (ret {| Success := true; Message := "" |}, envs')
    end.

End SetEnvTool.

Module GetEnvTool.

Record Input : Type := {
  Keys : list string;           (* specific keys to read; empty = all *)
  IncludeSensitive : bool
}.

Record EnvEntry : Type := {
  Key : string;
  Value : string;
  Redacted : bool
}.

Record Output : Type := {
  Variables : list EnvEntry;
  Count : Z
}.

(** The entry built for one variable, in either loop. *)
Definition entryOf (h : Host) (includeSensitive : bool) (key val : string)
  : EnvEntry :=
  if isSensitiveEnvKey h key && negb includeSensitive
  then {| Key := key; Value := redactValue val; Redacted := true |}
  else {| Key := key; Value := val; Redacted := false |}.

(** Return specific keys. *)
Fixpoint readKeys (h : Host) (envs : list string) (includeSensitive : bool)
  (keys : list string) : list EnvEntry :=
  match keys with
  | [] => []
  | key :: rest =>
      match Os.LookupEnv envs key with
      | None => readKeys h envs includeSensitive rest
      | Some val =>
          entryOf h includeSensitive key val
          :: readKeys h envs includeSensitive rest
      end
  end.

(** Return all env vars (redact sensitive ones). *)
Fixpoint readAll (h : Host) (includeSensitive : bool) (environ : list string)
  : list EnvEntry :=
  match environ with
  | [] => []
  | envLine :: rest =>
      match Strings.SplitN2 envLine "=" with
      | [key; val] =>
          entryOf h includeSensitive key val :: readAll h includeSensitive rest
      | _ => readAll h includeSensitive rest
      end
  end.

(** The body of [Execute], from the request decoded to the answer's
    struct; the whole method is [Tool.get_env]. *)
Definition Execute (h : Host) (envs : list string) (inp : Input) : M Output :=
  let entries :=
    if Nat.ltb 0 (length (Keys inp))
    then readKeys h envs (IncludeSensitive inp) (Keys inp)
    else readAll h (IncludeSensitive inp) envs in
  ret {| Variables := entries; Count := Z.of_nat (length entries) |}.

End GetEnvTool.

(** [strings.ToUpper] and [strings.ToLower] on ASCII text. *)
Module AsciiCase.

Definition upperByte (a : ascii) : ascii :=
  let n := N_of_ascii a in
  if N.leb 97 n && N.leb n 122 then ascii_of_N (n - 32) else a.

Definition lowerByte (a : ascii) : ascii :=
  let n := N_of_ascii a in
  if N.leb 65 n && N.leb n 90 then ascii_of_N (n + 32) else a.

Fixpoint mapBytes (f : ascii -> ascii) (s : string) : string :=
  match s with
  | EmptyString => ""
  | String a s' => String (f a) (mapBytes f s')
  end.

Definition ToUpper : string -> string := mapBytes upperByte.
Definition ToLower : string -> string := mapBytes lowerByte.

End AsciiCase.

(** ** which *)

Module WhichTool.

Record Input : Type := { Name : string }.

Record Output : Type := {
  Found : bool;
  Path : string;
  Version : string
}.

(** [cmd.CombinedOutput()]: the bytes of both streams and the error. *)
Definition Prober : Type := Exec.Cmd -> list Byte.byte * Exec.RunErr.

(** The common version flags, in the order they are tried. *)
Definition versionFlags : list string :=
  ["--version"; "-version"; "version"; "-V"].

(** [exec.CommandContext(verCtx, path, flag)] under the 3 s deadline. *)
Definition probe (path flag : string) : Exec.Cmd :=
  {| Exec.Path := path; Exec.Args := [flag]; Exec.Dir := "";
     Exec.Env := None; Exec.Timeout := 3 * 1000000000 |}.

(** The first non-empty line, trimmed and capped at 200 bytes. *)
Fixpoint firstLine (lines : list string) : option string :=
  match lines with
  | [] => None
  | raw :: rest =>
      let line := Strings.TrimSpace raw in
      if String.eqb line "" then firstLine rest
      else Some (if Nat.ltb 200 (String.length line)
                 then substring 0 200 line else line)
  end.

(** The loop over the flags: the commands it runs and what it returns. *)
Fixpoint tryFlags (co : Prober) (path : string) (flags : list string)
  : list Event * string :=
  match flags with
  | [] => ([], "")
  | flag :: rest =>
      let next := tryFlags co path rest in
      match co (probe path flag) with
      | (b :: output, Exec.Nil) =>
          match firstLine
                  (Strings.Split (string_of_list_byte (b :: output)) "010") with
          | Some line => ([ESpawn (probe path flag)], line)
          | None => (ESpawn (probe path flag) :: fst next, snd next)
          end
      | _ => (ESpawn (probe path flag) :: fst next, snd next)
      end
  end.

Definition detectVersion (co : Prober) (path name : string)
  : list Event * string :=
  tryFlags co path versionFlags.

(** The commands run and the answer: [errors.New] text or the output. *)
Definition Execute (h : Host) (co : Prober) (inp : Input)
  : list Event * (string + Output) :=
  if String.eqb (Name inp) "" then ([], inl "name required")
  else
    match LookPath h (Name inp) with
    | None => ([], inr {| Found := false; Path := ""; Version := "" |})
    | Some path =>
        let '(t, version) := detectVersion co path (Name inp) in
        (t, inr {| Found := true; Path := path; Version := version |})
    end.

End WhichTool.

(** ** The tools as their caller has them: raw input in, JSON out *)

Module Tool.

(** [json.Unmarshal(input, &in)]: the text of its error, or the request.
    The decoder is the library's; it is a parameter of every tool. *)
Definition Decoder (In : Type) : Type := list Byte.byte -> string + In.

(** [json.Marshal(out)] as its reader has it: the fields of [out], every
    string as [Json.text] gives it.  Marshalling these structs does not
    fail. *)
Definition marshalCommand (out : RunCommandTool.Output) : RunCommandTool.Output :=
  {| RunCommandTool.ExitCode := RunCommandTool.ExitCode out;
     RunCommandTool.Stdout := Json.text (RunCommandTool.Stdout out);
     RunCommandTool.Stderr := Json.text (RunCommandTool.Stderr out);
     RunCommandTool.Truncated := RunCommandTool.Truncated out;
     RunCommandTool.TimedOut := RunCommandTool.TimedOut out;
     RunCommandTool.DurationMs := RunCommandTool.DurationMs out |}.

Definition marshalScript (out : RunScriptTool.Output) : RunScriptTool.Output :=
  {| RunScriptTool.ExitCode := RunScriptTool.ExitCode out;
     RunScriptTool.Stdout := Json.text (RunScriptTool.Stdout out);
     RunScriptTool.Stderr := Json.text (RunScriptTool.Stderr out);
     RunScriptTool.Truncated := RunScriptTool.Truncated out;
     RunScriptTool.TimedOut := RunScriptTool.TimedOut out;
     RunScriptTool.DurationMs := RunScriptTool.DurationMs out;
     RunScriptTool.ShellUsed := Json.text (RunScriptTool.ShellUsed out) |}.

Definition marshalSetEnv (out : SetEnvTool.Output) : SetEnvTool.Output :=
  {| SetEnvTool.Success := SetEnvTool.Success out;
     SetEnvTool.Message := Json.text (SetEnvTool.Message out) |}.

Definition marshalEntry (e : GetEnvTool.EnvEntry) : GetEnvTool.EnvEntry :=
  {| GetEnvTool.Key := Json.text (GetEnvTool.Key e);
     GetEnvTool.Value := Json.text (GetEnvTool.Value e);
     GetEnvTool.Redacted := GetEnvTool.Redacted e |}.

Definition marshalGetEnv (out : GetEnvTool.Output) : GetEnvTool.Output :=
  {| GetEnvTool.Variables := map marshalEntry (GetEnvTool.Variables out);
     GetEnvTool.Count := GetEnvTool.Count out |}.

(** [return json.Marshal(out)] at the end of a call. *)
Definition marshalled {Out : Type} (marshal : Out -> Out) (m : M Out) : M Out :=
  (fst m, match snd m with
          | inl e => inl e
          | inr out => inr (marshal out)
          end).

(** [RunCommandTool.Execute(ctx, input)] *)
Definition run_command (h : Host) (envs : list string)
  (unmarshal : Decoder RunCommandTool.Input) (input : list Byte.byte)
  : M RunCommandTool.Output :=
  match unmarshal input with
  | inl msg => fail (ErrUnmarshal msg)
  | inr inp => marshalled marshalCommand (RunCommandTool.Execute h envs inp)
  end.

(** [RunScriptTool.Execute(ctx, input)] *)
Definition run_script (h : Host) (envs : list string)
  (unmarshal : Decoder RunScriptTool.Input) (input : list Byte.byte)
  : M RunScriptTool.Output :=
  match unmarshal input with
  | inl msg => fail (ErrUnmarshal msg)
  | inr inp => marshalled marshalScript (RunScriptTool.Execute h envs inp)
  end.

(** [SetEnvTool.Execute(ctx, input)]: the answer and the environment
    after the call. *)
Definition set_env (h : Host) (envs : list string)
  (unmarshal : Decoder SetEnvTool.Input) (input : list Byte.byte)
  : M SetEnvTool.Output * list string :=
  match unmarshal input with
  | inl msg => (fail (ErrUnmarshal msg), envs)
  | inr inp =>
      (marshalled marshalSetEnv (fst (SetEnvTool.Execute h envs inp)),
       snd (SetEnvTool.Execute h envs inp))
  end.

(** [GetEnvTool.Execute(ctx, input)] *)
Definition get_env (h : Host) (envs : list string)
  (unmarshal : Decoder GetEnvTool.Input) (input : list Byte.byte)
  : M GetEnvTool.Output :=
  match unmarshal input with
  | inl msg => fail (ErrUnmarshal msg)
  | inr inp => marshalled marshalGetEnv (GetEnvTool.Execute h envs inp)
  end.

End Tool.

(** ** Concrete hosts and requests, to run the tools on *)

(** A POSIX host with only [sh] installed, on which every command has the
    outcome [o]. *)
Definition hostRunning (o : Exec.Outcome) : Host :=
  {| GOOS := "linux";
     ToLower := AsciiCase.ToLower;
     ToUpper := AsciiCase.ToUpper;
     LookPath := fun name => if String.eqb name "sh" then Some "/bin/sh" else None;
     Abs := fun p => inr p;
     IsDir := fun _ => true;
     rangeOrder := fun m => map_to_list m;
     Run := fun _ => o |}.

(** Every command exits with status 0 at once, silently. *)
Definition plainHost : Host :=
  hostRunning {| Exec.err := Exec.Nil; Exec.ctxErr := Exec.NoErr;
                 Exec.stdout := []; Exec.stderr := [];
                 Exec.duration := 0 |}.



Definition rmRootRequest : RunCommandTool.Input :=
  {| RunCommandTool.Cmd := "rm";
     RunCommandTool.Args := ["-rf"; "/"];
     RunCommandTool.Cwd := "";
     RunCommandTool.EnvOverrides := ∅;
     RunCommandTool.TimeoutMs := 0 |}.

Definition echoRequest : RunCommandTool.Input :=
  {| RunCommandTool.Cmd := "echo";
     RunCommandTool.Args := ["hello"];
     RunCommandTool.Cwd := "";
     RunCommandTool.EnvOverrides := {[ "X" := "1" ]};
     RunCommandTool.TimeoutMs := 0 |}.


(** Two lines and a comment that names a denied command. *)
Definition echoScript : RunScriptTool.Input :=
  {| RunScriptTool.Script :=
       String.concat (String "010" "") ["echo a"; "# reboot"; "echo b"];
     RunScriptTool.Shell := "bash";
     RunScriptTool.Cwd := "";
     RunScriptTool.EnvOverrides := ∅;
     RunScriptTool.TimeoutMs := -5 |}.

(** A denied command on the third line, between blanks. *)
Definition rebootScript : RunScriptTool.Input :=
  {| RunScriptTool.Script :=
       String.concat (String "010" "") ["echo a"; ""; "  reboot  "; "mkfs"];
     RunScriptTool.Shell := "";
     RunScriptTool.Cwd := "";
     RunScriptTool.EnvOverrides := ∅;
     RunScriptTool.TimeoutMs := 0 |}.

(** [plainHost] where only [/work] is a directory and a relative path
    cannot be resolved. *)
Definition strictHost : Host :=
  {| GOOS := GOOS plainHost;
     ToLower := ToLower plainHost;
     ToUpper := ToUpper plainHost;
     LookPath := LookPath plainHost;
     Abs := fun p => if Strings.HasPrefix p "/" then inr p
                     else inl "getwd: no such file or directory";
     IsDir := fun p => String.eqb p "/work";
     rangeOrder := rangeOrder plainHost;
     Run := Run plainHost |}.

(** [ls] in the directory [cwd], with a time limit of [ms]. *)
Definition lsRequest (cwd : string) (ms : Z) : RunCommandTool.Input :=
  {| RunCommandTool.Cmd := "ls";
     RunCommandTool.Args := ["-l"];
     RunCommandTool.Cwd := cwd;
     RunCommandTool.EnvOverrides := ∅;
     RunCommandTool.TimeoutMs := ms |}.

(** A one-line script run in the directory [cwd]. *)
Definition pwdScript (cwd : string) : RunScriptTool.Input :=
  {| RunScriptTool.Script := "pwd";
     RunScriptTool.Shell := "sh";
     RunScriptTool.Cwd := cwd;
     RunScriptTool.EnvOverrides := ∅;
     RunScriptTool.TimeoutMs := 1000 |}.

(** An outcome with the given error and context state and some output. *)
Definition outcomeOf (e : Exec.RunErr) (ce : Exec.CtxErr) : Exec.Outcome :=
  {| Exec.err := e; Exec.ctxErr := ce;
     Exec.stdout := [Byte.x6f; Byte.x6b]; Exec.stderr := [];
     Exec.duration := 42 |}.

(** The command [path args] run in the caller's directory and environment
    under a deadline of [ns] nanoseconds. *)
Definition plainCmd (path : string) (args : list string) (ns : Z) : Exec.Cmd :=
  {| Exec.Path := path; Exec.Args := args; Exec.Dir := "";
     Exec.Env := None; Exec.Timeout := ns |}.

(** A host on which no command can be started; the deadline has passed or
    not. *)
Definition brokenHost (ce : Exec.CtxErr) : Host :=
  hostRunning (outcomeOf (Exec.OtherError "exec: not found") ce).


(** Binaries that answer [version] only, after an empty line, and exit
    with status 2 on any other flag. *)
Definition goProber : WhichTool.Prober :=
  fun c =>
    match Exec.Args c with
    | ["version"] =>
        (list_byte_of_string
           (String "010" "  go version go1.22.1 linux/amd64 " ++ String "010" ""),
         Exec.Nil)
    | _ => (list_byte_of_string "flag provided but not defined",
            Exec.ExitError 2)
    end.

(** A decoder that reads the request [inp] from every input but the
    empty one, which it refuses as [json.Unmarshal] does. *)
Definition reading {In : Type} (inp : In) : Tool.Decoder In :=
  fun input =>
    match input with
    | [] => inl "unexpected end of JSON input"
    | _ :: _ => inr inp
    end.

(** An input for [reading]. *)
Definition rawInput : list Byte.byte := [Byte.x7b; Byte.x7d].

(** Every command prints [output] and exits with status 0. *)
Definition printingHost (output : list Byte.byte) : Host :=
  hostRunning {| Exec.err := Exec.Nil; Exec.ctxErr := Exec.NoErr;
                 Exec.stdout := output; Exec.stderr := [];
                 Exec.duration := 1 |}.

(** One byte less than the budget, then a two-byte character and two
    more bytes: the budget ends between the two bytes of the character. *)
Definition cutAtBudget : list Byte.byte :=
  (repeat Byte.x61 (Z.to_nat 1048575)
   ++ [Byte.xc3; Byte.xa9; Byte.x7a; Byte.x7a])%list.

(** ** Vocabulary of the specification *)

(** The environment list a request hands to [exec.Cmd]. *)
Definition cmdEnvOf (h : Host) (envs : list string) (m : gmap string string)
  : option (list string) :=
  if Nat.ltb 0 (size m)
  then Some (appendOverrides envs (rangeOrder h m)) else None.

(** The environment [cmd.Run] gives the process of [c], before os/exec
    drops all but the last entry of a name (and, on Windows, adds a
    [SYSTEMROOT] that is missing): [cmd.Env], or with a nil [Env] the
    caller's environment, to which os/exec adds [PWD] when [cmd.Dir] is
    set, except on Windows and Plan 9. *)
Definition environOf (h : Host) (envs : list string) (c : Exec.Cmd)
  : list string :=
  match Exec.Env c with
  | Some env => env
  | None =>
      if String.eqb (Exec.Dir c) "" then envs
      else if String.eqb (GOOS h) "windows" || String.eqb (GOOS h) "plan9"
      then envs
      else
        match Abs h (Exec.Dir c) with
        | inr pwd => (envs ++ [("PWD=" ++ pwd)%string])%list
        | inl _ => envs
        end
  end.

(** The answer of run_command once the process has run. *)
Definition commandAnswer (o : Exec.Outcome) : error + RunCommandTool.Output :=
  match result (exitStatus "command" o) with
  | inl e => inl e
  | inr st =>
      inr {| RunCommandTool.ExitCode := fst st;
             RunCommandTool.Stdout := fst (capOutput (Exec.stdout o));
             RunCommandTool.Stderr := fst (capOutput (Exec.stderr o));
             RunCommandTool.Truncated :=
               snd (capOutput (Exec.stdout o)) || snd (capOutput (Exec.stderr o));
             RunCommandTool.TimedOut := snd st;
             RunCommandTool.DurationMs := Exec.duration o |}
  end.

(** The answer of run_script once the interpreter has run. *)
Definition scriptAnswer (shell : string) (o : Exec.Outcome)
  : error + RunScriptTool.Output :=
  match result (exitStatus "script" o) with
  | inl e => inl e
  | inr st =>
      inr {| RunScriptTool.ExitCode := fst st;
             RunScriptTool.Stdout := fst (capOutput (Exec.stdout o));
             RunScriptTool.Stderr := fst (capOutput (Exec.stderr o));
             RunScriptTool.Truncated :=
               snd (capOutput (Exec.stdout o)) || snd (capOutput (Exec.stderr o));
             RunScriptTool.TimedOut := snd st;
             RunScriptTool.DurationMs := Exec.duration o;
             RunScriptTool.ShellUsed := shell |}
  end.

(** A call either fails before anything is spawned, or spawns exactly one
    command, last of all, and answers from its outcome. *)
Inductive launched (h : Host) (envs : list string) {Out : Type} (m : M Out)
  (path : string) (args : list string) (overrides : gmap string string)
  (timeoutMs : Z) (answer : Exec.Outcome -> error + Out) : Prop :=
| NotStarted (e : error) :
    result m = inl e ->
    (forall c, ~ In (ESpawn c) (trace m)) ->
    launched h envs m path args overrides timeoutMs answer
| Started (pre : list Event) (dir : string) :
    let c := {| Exec.Path := path; Exec.Args := args; Exec.Dir := dir;
                Exec.Env := cmdEnvOf h envs overrides;
                Exec.Timeout := timeoutOf timeoutMs |} in
    trace m = (pre ++ [ESpawn c])%list ->
    (forall c', ~ In (ESpawn c') pre) ->
    result m = answer (Run h c) ->
    launched h envs m path args overrides timeoutMs answer.

(** The steps from the working directory to the answer. *)
Definition launch (h : Host) (envs : list string) {Out : Type}
  (path : string) (args : list string)
  (Cwd : string) (overrides : gmap string string) (timeoutMs : Z)
  (finish : Exec.Outcome -> M Out) : M Out :=
  dir <- workingDir h Cwd ;;
  env <- childEnv h envs overrides ;;
  o <- runCmd h {| Exec.Path := path; Exec.Args := args; Exec.Dir := dir;
                   Exec.Env := env; Exec.Timeout := timeoutOf timeoutMs |} ;;
  finish o.


(** The entry [k=v] an override adds to the environment list. *)
Definition entryLine (kv : string * string) : string :=
  fst kv ++ "=" ++ snd kv.

(** The keys of the map are names of environment variables: not empty and
    without [=]. *)
Definition validNames (m : gmap string string) : Prop :=
  forall k v, m !! k = Some v -> k <> "" /\ Os.hasByte "=" k = false.

(** The process started by [c] has the caller's environment followed by
    one entry per override. *)
Definition overridesApplied (h : Host) (envs : list string)
  (m : gmap string string) (c : Exec.Cmd) : Prop :=
  exists kvs, kvs ≡ₚ map_to_list m
              /\ environOf h envs c = (envs ++ map entryLine kvs)%list.

(** The process started by [c] reads every variable from the overrides
    first and from the caller's environment otherwise. *)
Definition overridesWin (h : Host) (envs : list string)
  (m : gmap string string) (c : Exec.Cmd) : Prop :=
  forall key,
    Os.childGetenv (environOf h envs c) key
    = match m !! key with
      | Some v => Some v
      | None => Os.childGetenv envs key
      end.

(** The byte before the position reached after reading [w] from a
    position preceded by [p]. *)
Fixpoint lastOr (p : option ascii) (w : string) : option ascii :=
  match w with
  | EmptyString => p
  | String a w' => lastOr (Some a) w'
  end.

(** Every byte of [s] is in the class [c]. *)
Fixpoint allOf (c : cset) (s : string) : bool :=
  match s with
  | EmptyString => true
  | String a s' => cmem c a && allOf c s'
  end.

(** The pattern has no [$]. *)
Fixpoint noEnd (r : re) : bool :=
  match r with
  | EndText => false
  | Cat r1 r2 | Alt r1 r2 => noEnd r1 && noEnd r2
  | Group r1 => noEnd r1
  | _ => true
  end.

(** The pattern reads no byte. *)
Fixpoint transparent (r : re) : bool :=
  match r with
  | Eps | WordB | EndText => true
  | Cat r1 r2 => transparent r1 && transparent r2
  | Group r1 => transparent r1
  | _ => false
  end.

(** Every match of the pattern ends just after a byte that is not a
    blank. *)
Fixpoint endsNonSpace (r : re) : bool :=
  match r with
  | Chr c | Plus c => negb (cmem c " ")
  | Cat r1 r2 => endsNonSpace r2 || (transparent r2 && endsNonSpace r1)
  | Alt r1 r2 => endsNonSpace r1 && endsNonSpace r2
  | Group r1 => endsNonSpace r1
  | _ => false
  end.

(** The root-delete pattern up to its [/]: what comes before [\s*$]. *)
Definition rmFront : list re :=
  [WordB; Lit "rm"; Plus CSpace; Lit "-rf"; Plus CSpace; Lit "/"].

(** What a call does once its request has passed the checks: it stops at
    a working directory that cannot be resolved, or at one that is not a
    directory, or it runs one command in the directory found and answers
    from its outcome. *)
Definition proceeds (h : Host) (envs : list string) {Out : Type} (m : M Out)
  (path : string) (args : list string) (Cwd : string)
  (overrides : gmap string string) (timeoutMs : Z)
  (answer : Exec.Outcome -> error + Out) : Prop :=
  (Cwd <> "" /\ exists msg,
     Abs h Cwd = inl msg /\ m = ([EAbs Cwd], inl (ErrInvalidCwd msg)))
  \/ (Cwd <> "" /\ exists absPath,
        Abs h Cwd = inr absPath /\ IsDir h absPath = false
        /\ m = ([EAbs Cwd; EStat absPath], inl (ErrCwdNotDir Cwd)))
  \/ (exists dir,
        (Cwd = "" /\ dir = ""
         \/ Cwd <> "" /\ Abs h Cwd = inr dir /\ IsDir h dir = true)
        /\ let c := {| Exec.Path := path; Exec.Args := args; Exec.Dir := dir;
                       Exec.Env := cmdEnvOf h envs overrides;
                       Exec.Timeout := timeoutOf timeoutMs |} in
           m = ((if String.eqb Cwd "" then [] else [EAbs Cwd; EStat dir])
                ++ (if Nat.ltb 0 (size overrides) then [EEnviron] else [])
                ++ [ESpawn c],
                answer (Run h c))%list).

(** Every byte of [s] is an ASCII character. *)
Fixpoint ascii7 (s : string) : bool :=
  match s with
  | EmptyString => true
  | String a s' => N.ltb (N_of_ascii a) 128 && ascii7 s'
  end.

(** The keys of the entries of an environment block, in order. *)
Fixpoint envKeys (envs : list string) : list string :=
  match envs with
  | [] => []
  | e :: rest =>
      match Strings.SplitN2 e "=" with
      | [k; _] => k :: envKeys rest
      | _ => envKeys rest
      end
  end.

(** The commands a call has handed to [cmd.Run], in order. *)
Fixpoint spawns (t : list Event) : list Exec.Cmd :=
  match t with
  | [] => []
  | ESpawn c :: rest => c :: spawns rest
  | _ :: rest => spawns rest
  end.

(** Output without a line that has anything but white space. *)
Definition blank (output : list Byte.byte) : Prop :=
  forall line, In line (Strings.Split (string_of_list_byte output) "010") ->
               Strings.TrimSpace line = "".

(** A version flag the binary [path] gives no answer to: the run fails or
    prints nothing but white space. *)
Definition useless (co : WhichTool.Prober) (path flag : string) : Prop :=
  snd (co (WhichTool.probe path flag)) <> Exec.Nil
  \/ blank (fst (co (WhichTool.probe path flag))).

(** The version read from [output]: its first line that is not blank,
    without the white space around it, cut to 200 bytes. *)
Definition versionIn (output : list Byte.byte) (v : string) : Prop :=
  exists before raw after,
    Strings.Split (string_of_list_byte output) "010"
    = (before ++ raw :: after)%list
    /\ (forall line, In line before -> Strings.TrimSpace line = "")
    /\ Strings.TrimSpace raw <> ""
    /\ v = substring 0 200 (Strings.TrimSpace raw).

(** The runs of the binary [path] with the flags [flags], in order. *)
Definition probes (path : string) (flags : list string) : list Event :=
  map (fun flag => ESpawn (WhichTool.probe path flag)) flags.

(** * Properties *)

#[local] Arguments String.append !_ _ : simpl nomatch.
#[local] Arguments Ascii.eqb !_ !_ : simpl nomatch.

Section StringFacts.

Lemma append_nil_r (s : string) : s ++ "" = s.
Proof. induction s as [|a s IH]; simpl; [reflexivity | now rewrite IH]. Qed.

Lemma append_assoc (s t u : string) : (s ++ t) ++ u = s ++ t ++ u.
Proof. induction s as [|a s IH]; simpl; [reflexivity | now rewrite IH]. Qed.

Lemma length_append (s t : string) :
  String.length (s ++ t) = (String.length s + String.length t)%nat.
Proof. induction s as [|a s IH]; simpl; [reflexivity | now rewrite IH]. Qed.

Lemma length_Repeat (c : ascii) (n : nat) : String.length (Strings.Repeat c n) = n.
Proof. induction n as [|n IH]; simpl; [reflexivity | now rewrite IH]. Qed.

Lemma length_substring (n m : nat) (s : string) :
  (n + m <= String.length s)%nat -> String.length (substring n m s) = m.
Proof.
  revert n m. induction s as [|a s IH]; intros n m H; simpl in H.
  - assert (n = 0%nat) by lia. assert (m = 0%nat) by lia. subst. reflexivity.
  - destruct n as [|n]; destruct m as [|m]; simpl; try reflexivity.
    + f_equal. apply IH. lia.
    + apply IH. lia.
    + apply IH. lia.
Qed.

Lemma length_string_of_list_byte (l : list Byte.byte) :
  String.length (string_of_list_byte l) = length l.
Proof.
  unfold string_of_list_byte.
  induction l as [|b l IH]; simpl; [reflexivity | now rewrite IH].
Qed.

Lemma get_append (s t : string) (i : nat) :
  get i (s ++ t) =
  if Nat.ltb i (String.length s) then get i s else get (i - String.length s) t.
Proof.
  revert i. induction s as [|a s IH]; intros i; simpl.
  - now rewrite Nat.sub_0_r.
  - destruct i as [|i]; [reflexivity|]. rewrite IH. reflexivity.
Qed.

Lemma get_Repeat (c : ascii) (n i : nat) :
  (i < n)%nat -> get i (Strings.Repeat c n) = Some c.
Proof.
  revert i. induction n as [|n IH]; intros i H; [lia|].
  destruct i as [|i]; simpl; [reflexivity | apply IH; lia].
Qed.

Lemma get_None_ge (s : string) (i : nat) :
  (String.length s <= i)%nat -> get i s = None.
Proof.
  revert i. induction s as [|a s IH]; intros i H; [reflexivity|].
  destruct i as [|i]; simpl in *; [lia | apply IH; lia].
Qed.

End StringFacts.

Section Redaction.

(** Byte by byte: the two ends are those of [val], the middle is stars. *)
Lemma redactValue_get (val : string) (i : nat) :
  (4 < String.length val)%nat -> (i < String.length val)%nat ->
  get i (redactValue val) =
  if Nat.ltb i 2 || Nat.leb (String.length val - 2) i
  then get i val else Some "*"%char.
Proof.
  intros Hlen Hi. unfold redactValue.
  destruct (Nat.leb_spec (String.length val) 4) as [?|_]; [lia|].
  rewrite !get_append, length_Repeat, !length_substring by lia.
  destruct (Nat.ltb_spec i 2) as [H2|H2]; simpl.
  - rewrite substring_correct1 by lia. now rewrite Nat.add_0_r.
  - destruct (Nat.ltb_spec (i - 2) (String.length val - 4)) as [Hm|Hm].
    + destruct (Nat.leb_spec (String.length val - 2) i) as [?|_]; [lia|].
      apply get_Repeat. lia.
    + destruct (Nat.leb_spec (String.length val - 2) i) as [_|?]; [|lia].
      rewrite substring_correct1 by lia. f_equal. lia.
Qed.

Lemma length_redactValue (val : string) :
  (4 < String.length val)%nat ->
  String.length (redactValue val) = String.length val.
Proof.
  intros Hlen. unfold redactValue.
  destruct (Nat.leb_spec (String.length val) 4) as [?|_]; [lia|].
  rewrite !length_append, length_Repeat, !length_substring by lia. lia.
Qed.

Lemma redactValue_short (val : string) :
  (String.length val <= 4)%nat -> redactValue val = "****".
Proof.
  intros Hlen. unfold redactValue.
  destruct (Nat.leb_spec (String.length val) 4) as [_|?]; [reflexivity | lia].
Qed.

(** The mask is the value itself exactly when the middle already is stars. *)
Lemma redactValue_fixed (val : string) :
  (4 < String.length val)%nat ->
  redactValue val = val <->
  (forall i, (2 <= i < String.length val - 2)%nat -> get i val = Some "*"%char).
Proof.
  intros Hlen. split.
  - intros E i Hi. rewrite <- E at 1. rewrite redactValue_get by lia.
    destruct (Nat.ltb_spec i 2); [lia|].
    destruct (Nat.leb_spec (String.length val - 2) i); [lia|]. reflexivity.
  - intros Hmid. apply get_correct. intros i.
    destruct (Nat.lt_ge_cases i (String.length val)) as [Hi|Hi].
    + rewrite redactValue_get by lia.
      destruct (Nat.ltb_spec i 2); [reflexivity|].
      destruct (Nat.leb_spec (String.length val - 2) i); [reflexivity|].
      simpl. symmetry. apply Hmid. lia.
    + rewrite !get_None_ge; [reflexivity | lia |].
      rewrite length_redactValue; lia.
Qed.

End Redaction.

(** ** The run of a command: what is spawned and what is answered *)

Section Launch.

Variable h : Host.
Variable envs : list string.

Lemma launch_launched {Out : Type} path args Cwd overrides timeoutMs
  (finish : Exec.Outcome -> M Out) (answer : Exec.Outcome -> error + Out) :
  (forall o, finish o = ([], answer o)) ->
  launched h envs (launch h envs path args Cwd overrides timeoutMs finish)
    path args overrides timeoutMs answer.
Proof.
  intros Hfin. unfold launch, workingDir, childEnv, runCmd.
  assert (Hk : forall c, finish (Run h c) = ([], answer (Run h c)))
    by (intros c; apply Hfin).
  assert (Hnil : forall c', ~ In (ESpawn c') []) by (intros c' []).
  assert (H1 : forall c' e, e <> ESpawn c' -> ~ In (ESpawn c') [e])
    by (intros c' e Hne [H|[]]; congruence).
  assert (H2 : forall c' e1 e2, e1 <> ESpawn c' -> e2 <> ESpawn c' ->
               ~ In (ESpawn c') [e1; e2])
    by (intros c' e1 e2 Hn1 Hn2 [H|[H|[]]]; congruence).
  assert (H3 : forall c' e1 e2 e3, e1 <> ESpawn c' -> e2 <> ESpawn c' ->
               e3 <> ESpawn c' -> ~ In (ESpawn c') [e1; e2; e3])
    by (intros c' e1 e2 e3 Hn1 Hn2 Hn3 [H|[H|[H|[]]]]; congruence).
  destruct (String.eqb Cwd "").
  - destruct (Nat.ltb 0 (size overrides)) eqn:Hov.
    + apply (Started h envs _ _ _ _ _ _ [EEnviron] "");
        unfold cmdEnvOf; rewrite ?Hov; simpl; rewrite ?Hk; try reflexivity.
      intros c'. apply H1. discriminate.
    + apply (Started h envs _ _ _ _ _ _ [] "");
        unfold cmdEnvOf; rewrite ?Hov; simpl; rewrite ?Hk; try reflexivity.
      exact Hnil.
  - destruct (Abs h Cwd) as [msg|absPath].
    { eapply NotStarted; [reflexivity|]. simpl. intros c. apply H1. discriminate. }
    destruct (IsDir h absPath).
    2:{ eapply NotStarted; [reflexivity|]. simpl.
        intros c. apply H2; discriminate. }
    destruct (Nat.ltb 0 (size overrides)) eqn:Hov.
    + apply (Started h envs _ _ _ _ _ _ [EAbs Cwd; EStat absPath; EEnviron] absPath);
        unfold cmdEnvOf; rewrite ?Hov; simpl; rewrite ?Hk; try reflexivity.
      intros c'. apply H3; discriminate.
    + apply (Started h envs _ _ _ _ _ _ [EAbs Cwd; EStat absPath] absPath);
        unfold cmdEnvOf; rewrite ?Hov; simpl; rewrite ?Hk; try reflexivity.
      intros c'. apply H2; discriminate.
Qed.

Lemma command_launched (inp : RunCommandTool.Input) :
  launched h envs (RunCommandTool.Execute h envs inp)
    (RunCommandTool.Cmd inp) (RunCommandTool.Args inp)
    (RunCommandTool.EnvOverrides inp) (RunCommandTool.TimeoutMs inp)
    commandAnswer.
Proof.
  unfold RunCommandTool.Execute.
  destruct (String.eqb (RunCommandTool.Cmd inp) "").
  { eapply NotStarted; [reflexivity | intros c []]. }
  destruct (isDenied (RunCommandTool.fullCmd inp)) as [[|] pattern].
  { eapply NotStarted; [reflexivity | intros c []]. }
  eapply (launch_launched _ _ (RunCommandTool.Cwd inp)).
  intros o. unfold commandAnswer, exitStatus.
  destruct (Exec.ctxErr o), (Exec.err o); simpl;
    destruct (capOutput (Exec.stdout o)) as [? []];
    destruct (capOutput (Exec.stderr o)) as [? []]; reflexivity.
Qed.

Lemma script_launched (inp : RunScriptTool.Input) :
  launched h envs (RunScriptTool.Execute h envs inp)
    (fst (resolveShell h (RunScriptTool.Shell inp)))
    [snd (resolveShell h (RunScriptTool.Shell inp)); RunScriptTool.Script inp]
    (RunScriptTool.EnvOverrides inp) (RunScriptTool.TimeoutMs inp)
    (scriptAnswer (fst (resolveShell h (RunScriptTool.Shell inp)))).
Proof.
  unfold RunScriptTool.Execute.
  destruct (String.eqb (RunScriptTool.Script inp) "").
  { eapply NotStarted; [reflexivity | intros c []]. }
  destruct (RunScriptTool.checkLines _) as [[pattern line]|].
  { eapply NotStarted; [reflexivity | intros c []]. }
  destruct (resolveShell h (RunScriptTool.Shell inp)) as [shell shellArg].
  cbn [fst snd]. cbv beta iota.
  eapply (launch_launched _ _ (RunScriptTool.Cwd inp)).
  intros o. unfold scriptAnswer, exitStatus.
  destruct (Exec.ctxErr o), (Exec.err o); simpl;
    destruct (capOutput (Exec.stdout o)) as [? []];
    destruct (capOutput (Exec.stderr o)) as [? []]; reflexivity.
Qed.

End Launch.

Section LaunchFacts.

Variable h : Host.
Variable envs : list string.


Lemma launched_ok {Out : Type} (m : M Out) path args ov t answer out :
  launched h envs m path args ov t answer ->
  result m = inr out ->
  exists c, In (ESpawn c) (trace m) /\ answer (Run h c) = inr out.
Proof.
  intros [e He Hno | pre dir c0 Htr Hpre Hres] Hout.
  - congruence.
  - exists c0. split; [|congruence].
    rewrite Htr. apply in_or_app. right. now left.
Qed.






End LaunchFacts.



(** C10: the mask of a value longer than four bytes is as long as the
    value (two bytes kept, length - 4 stars, two bytes kept); all values of
    at most four bytes share one mask of four stars. *)
Theorem redaction_leaks_length (val short1 short2 : string) :
  (4 < String.length val)%nat ->
  (String.length short1 <= 4)%nat ->
  (String.length short2 <= 4)%nat ->
  String.length (redactValue val) = String.length val
  /\ redactValue val
     = substring 0 2 val
       ++ Strings.Repeat "*" (String.length val - 4)
       ++ substring (String.length val - 2) 2 val
  /\ String.length (substring 0 2 val) = 2%nat
  /\ String.length (Strings.Repeat "*" (String.length val - 4))
     = (String.length val - 4)%nat
  /\ String.length (substring (String.length val - 2) 2 val) = 2%nat
  /\ redactValue short1 = "****"
  /\ redactValue short1 = redactValue short2.
Proof.
  intros Hval H1 H2.
  split; [now apply length_redactValue|].
  split.
  { unfold redactValue. destruct (Nat.leb_spec (String.length val) 4);
      [lia | reflexivity]. }
  split; [apply length_substring; lia|].
  split; [apply length_Repeat|].
  split; [apply length_substring; lia|].
  rewrite !redactValue_short by assumption. split; reflexivity.
Qed.


Section ShellResolver.

Variable h : Host.




End ShellResolver.



Section Environment.

Lemma hasByte_cons (a b : ascii) (s : string) :
  Os.hasByte a (String b s) = Ascii.eqb a b || Os.hasByte a s.
Proof.
  unfold Os.hasByte. simpl. destruct s; now rewrite andb_true_r.
Qed.

Lemma SplitN2_entry (k v : string) :
  Os.hasByte "=" k = false ->
  Strings.SplitN2 (k ++ "=" ++ v) "=" = [k; v].
Proof.
  induction k as [|a k IH]; intros Hk; [reflexivity|].
  rewrite hasByte_cons in Hk. apply orb_false_iff in Hk as [Ha Hk].
  specialize (IH Hk). simpl in *. rewrite Ascii.eqb_sym, Ha, IH. reflexivity.
Qed.

Lemma SplitN2_inv (e k v : string) :
  Strings.SplitN2 e "=" = [k; v] ->
  e = k ++ "=" ++ v /\ Os.hasByte "=" k = false.
Proof.
  revert k. induction e as [|a e IH]; intros k; simpl; [discriminate|].
  destruct (Ascii.eqb_spec a "=") as [->|Ha].
  - intros E. injection E as <- <-. split; reflexivity.
  - destruct (Strings.SplitN2 e "=") as [|k' [|v' [|]]]; try discriminate.
    intros E. injection E as <- <-.
    destruct (IH k' eq_refl) as [-> Hk]. split; [reflexivity|].
    rewrite hasByte_cons, Hk, orb_false_r.
    apply Ascii.eqb_neq. congruence.
Qed.

(** [LookupEnv] finds the first well-formed entry for the key. *)
Lemma LookupEnv_Some (envs : list string) (key val : string) :
  Os.LookupEnv envs key = Some val ->
  key <> "" /\ Os.hasByte "=" key = false /\ In (key ++ "=" ++ val) envs.
Proof.
  induction envs as [|e envs IH]; simpl; [discriminate|].
  destruct (Strings.SplitN2 e "=") as [|k [|v [|]]] eqn:E;
    try (intros H; destruct (IH H) as (? & ? & ?); auto).
  destruct (String.eqb_spec k key) as [->|Hk]; simpl.
  - destruct (String.eqb_spec key "") as [->|Hne]; simpl.
    + intros H; destruct (IH H) as (? & ? & ?); auto.
    + intros H. injection H as <-. apply SplitN2_inv in E as [-> Hk]. auto.
  - intros H; destruct (IH H) as (? & ? & ?); auto.
Qed.

Lemma Setenv_LookupEnv (envs envs' : list string) (key val : string) :
  Os.Setenv envs key val = Some envs' -> Os.LookupEnv envs' key = Some val.
Proof.
  unfold Os.Setenv.
  destruct (String.eqb_spec key "") as [|Hne]; [discriminate|]. simpl.
  destruct (Os.hasByte "=" key) eqn:Hk; [discriminate|]. simpl.
  destruct (_ || _); [discriminate|]. intros E. injection E as <-.
  assert (Hhit : forall rest, Os.LookupEnv ((key ++ "=" ++ val) :: rest) key
                              = Some val).
  { intros rest. pose proof (SplitN2_entry key val Hk) as Hs.
    simpl in *. rewrite Hs, String.eqb_refl.
    destruct (String.eqb_spec key ""); [contradiction | reflexivity]. }
  induction envs as [|e envs IH]; [exact (Hhit []) | simpl].
  destruct (Strings.SplitN2 e "=") as [|k [|v [|]]] eqn:E;
    try (simpl; rewrite E; exact IH).
  destruct (String.eqb_spec k key) as [->|Hkk].
  - exact (Hhit envs).
  - simpl. rewrite E. destruct (String.eqb_spec k key); [contradiction|].
    simpl. exact IH.
Qed.

Variable h : Host.

Lemma entryOf_Key (incl : bool) (key val : string) :
  GetEnvTool.Key (GetEnvTool.entryOf h incl key val) = key.
Proof. unfold GetEnvTool.entryOf. destruct (_ && _); reflexivity. Qed.

Lemma readKeys_keys (envs : list string) (incl : bool) (keys : list string) :
  map GetEnvTool.Key (GetEnvTool.readKeys h envs incl keys)
  = List.filter (fun k => match Os.LookupEnv envs k with
                          | Some _ => true | None => false end) keys.
Proof.
  induction keys as [|k keys IH]; simpl; [reflexivity|].
  destruct (Os.LookupEnv envs k); simpl; [rewrite entryOf_Key|]; now rewrite IH.
Qed.

Lemma readKeys_entries (envs : list string) (incl : bool) (keys : list string) e :
  In e (GetEnvTool.readKeys h envs incl keys) ->
  exists key val, In key keys /\ Os.LookupEnv envs key = Some val
                  /\ e = GetEnvTool.entryOf h incl key val.
Proof.
  induction keys as [|k keys IH]; simpl; [tauto|].
  destruct (Os.LookupEnv envs k) as [v|] eqn:E.
  - intros [<-|Hin].
    + exists k, v. auto.
    + destruct (IH Hin) as (key & val & ? & ? & ?). exists key, val. auto.
  - intros Hin. destruct (IH Hin) as (key & val & ? & ? & ?).
    exists key, val. auto.
Qed.

Lemma readAll_complete (environ : list string) (incl : bool) (k v : string) :
  Os.hasByte "=" k = false -> In (k ++ "=" ++ v) environ ->
  In (GetEnvTool.entryOf h incl k v) (GetEnvTool.readAll h incl environ).
Proof.
  intros Hk. induction environ as [|e environ IH]; simpl; [tauto|].
  intros [->|Hin].
  - pose proof (SplitN2_entry k v Hk) as Hs. simpl in *. rewrite Hs. now left.
  - destruct (Strings.SplitN2 e "=") as [|k' [|v' [|]]]; auto. right. auto.
Qed.

Lemma readAll_sound (environ : list string) (incl : bool) e :
  In e (GetEnvTool.readAll h incl environ) ->
  exists k v, In (k ++ "=" ++ v) environ /\ e = GetEnvTool.entryOf h incl k v.
Proof.
  induction environ as [|l environ IH]; simpl; [tauto|].
  destruct (Strings.SplitN2 l "=") as [|k' [|v' [|]]] eqn:E;
    try (intros Hin; destruct (IH Hin) as (k & v & ? & ?); exists k, v; auto).
  intros [<-|Hin].
  - apply SplitN2_inv in E as [-> _]. exists k', v'. auto.
  - destruct (IH Hin) as (k & v & ? & ?); exists k, v; auto.
Qed.

End Environment.

(** C9: with keys listed, get_env answers without error with one entry per
    listed key that is set, in the order of the request, and nothing for a
    key that is not set; with no key listed, every variable of the
    environment is returned. *)
Theorem get_env_selection (h : Host) (envs : list string)
  (keys : list string) (incl : bool) :
  keys <> [] ->
  (exists out,
     GetEnvTool.Execute h envs
       {| GetEnvTool.Keys := keys; GetEnvTool.IncludeSensitive := incl |}
     = ([], inr out)
     /\ map GetEnvTool.Key (GetEnvTool.Variables out)
        = List.filter (fun k => match Os.LookupEnv envs k with
                                | Some _ => true | None => false end) keys
     /\ (forall e, In e (GetEnvTool.Variables out) ->
         exists key val, In key keys /\ Os.LookupEnv envs key = Some val
                         /\ e = GetEnvTool.entryOf h incl key val)
     /\ GetEnvTool.Count out = Z.of_nat (length (GetEnvTool.Variables out)))
  /\ (exists out,
        GetEnvTool.Execute h envs
          {| GetEnvTool.Keys := []; GetEnvTool.IncludeSensitive := incl |}
        = ([], inr out)
        /\ (forall k v, Os.hasByte "=" k = false -> In (k ++ "=" ++ v) envs ->
            In (GetEnvTool.entryOf h incl k v) (GetEnvTool.Variables out))
        /\ (forall k v, Os.LookupEnv envs k = Some v ->
            In k (map GetEnvTool.Key (GetEnvTool.Variables out)))
        /\ (forall e, In e (GetEnvTool.Variables out) ->
            exists k v, In (k ++ "=" ++ v) envs
                        /\ e = GetEnvTool.entryOf h incl k v)).
Proof.
  intros Hkeys. split.
  - assert (Hlen : Nat.ltb 0 (length keys) = true)
      by (destruct keys; [contradiction | reflexivity]).
    unfold GetEnvTool.Execute. cbn [GetEnvTool.Keys GetEnvTool.IncludeSensitive].
    rewrite Hlen. eexists. split; [reflexivity|].
    cbn [GetEnvTool.Variables GetEnvTool.Count].
    split; [apply readKeys_keys|]. split; [apply readKeys_entries | reflexivity].
  - unfold GetEnvTool.Execute. simpl.
    eexists. split; [reflexivity|]. simpl GetEnvTool.Variables.
    split; [intros k v; apply readAll_complete|].
    split; [|apply readAll_sound].
    intros k v Hl. apply LookupEnv_Some in Hl as (_ & Hk & Hin).
    apply in_map_iff. exists (GetEnvTool.entryOf h incl k v).
    split; [apply entryOf_Key | now apply readAll_complete].
Qed.


(** C4, as stated, fails: the value [ab**cd] of the sensitive key
    [API_KEY] is its own mask, so the masked read returns the original. *)
Lemma masked_value_equal_to_original :
  isSensitiveEnvKey plainHost "API_KEY" = true
  /\ Os.LookupEnv ["API_KEY=ab**cd"] "API_KEY" = Some "ab**cd"
  /\ GetEnvTool.Execute plainHost ["API_KEY=ab**cd"]
       {| GetEnvTool.Keys := ["API_KEY"]; GetEnvTool.IncludeSensitive := false |}
     = ([], inr {| GetEnvTool.Variables :=
                     [{| GetEnvTool.Key := "API_KEY";
                         GetEnvTool.Value := "ab**cd";
                         GetEnvTool.Redacted := true |}];
                   GetEnvTool.Count := 1 |}).
Proof. vm_compute. repeat split. Qed.


Section ChildEnvironment.

Lemma appendOverrides_app (envs : list string) (kvs : list (string * string)) :
  appendOverrides envs kvs = (envs ++ map entryLine kvs)%list.
Proof.
  unfold appendOverrides. revert envs.
  induction kvs as [|kv kvs IH]; intros envs; simpl.
  - now rewrite app_nil_r.
  - rewrite IH, <- app_assoc. reflexivity.
Qed.

Lemma LookupEnv_app (l1 l2 : list string) (key : string) :
  Os.LookupEnv (l1 ++ l2) key
  = match Os.LookupEnv l1 key with
    | Some v => Some v
    | None => Os.LookupEnv l2 key
    end.
Proof.
  induction l1 as [|e l1 IH]; simpl; [reflexivity|].
  destruct (Strings.SplitN2 e "=") as [|k [|v [|]]]; try exact IH.
  destruct (_ && _); [reflexivity | exact IH].
Qed.

(** Among entries built from pairs, a lookup finds the first pair of the key. *)
Lemma LookupEnv_entries (kvs : list (string * string)) (key : string) :
  (forall kv, In kv kvs -> fst kv <> "" /\ Os.hasByte "=" (fst kv) = false) ->
  Os.LookupEnv (map entryLine kvs) key
  = match List.find (fun kv => String.eqb (fst kv) key) kvs with
    | Some kv => Some (snd kv)
    | None => None
    end.
Proof.
  induction kvs as [|[k v] kvs IH]; intros Hvalid; [reflexivity|].
  destruct (Hvalid (k, v) (or_introl eq_refl)) as [Hne Hk]. simpl in Hne, Hk.
  pose proof (SplitN2_entry k v Hk) as Hs.
  simpl. unfold entryLine at 1. simpl in *. rewrite Hs.
  destruct (String.eqb_spec k key) as [->|Hkk]; simpl.
  - destruct (String.eqb_spec key ""); [contradiction | reflexivity].
  - apply IH. intros kv Hin. apply Hvalid. now right.
Qed.

(** In any order of visit, the first pair of a key is the map's binding. *)
Lemma find_range (m : gmap string string) (kvs : list (string * string))
  (key : string) :
  kvs ≡ₚ map_to_list m ->
  match List.find (fun kv => String.eqb (fst kv) key) kvs with
  | Some kv => Some (snd kv)
  | None => None
  end = m !! key.
Proof.
  intros Hperm.
  assert (Hin : forall k v, In (k, v) kvs <-> m !! k = Some v).
  { intros k v. rewrite <- list_elem_of_In, Hperm. apply elem_of_map_to_list. }
  destruct (List.find _ kvs) as [[k v]|] eqn:E.
  - apply find_some in E as [Hkv Hk]. simpl in Hk.
    apply String.eqb_eq in Hk as ->. symmetry. now apply Hin.
  - destruct (m !! key) as [v|] eqn:Hm; [|reflexivity].
    apply Hin in Hm. apply (find_none _ _ E) in Hm. simpl in Hm.
    now rewrite String.eqb_refl in Hm.
Qed.

Lemma overrides_applied (h : Host) (envs : list string)
  (m : gmap string string) (c : Exec.Cmd) :
  rangeSound h ->
  Exec.Env c = cmdEnvOf h envs m ->
  (m = ∅ -> Exec.Env c = None)
  /\ (m <> ∅ ->
      overridesApplied h envs m c
      /\ (validNames m -> overridesWin h envs m c)).
Proof.
  intros Hrange Henv. unfold overridesApplied, overridesWin, environOf.
  rewrite Henv. unfold cmdEnvOf.
  destruct (Nat.ltb 0 (size m)) eqn:Hsize.
  - split.
    { intros ->. rewrite map_size_empty in Hsize. discriminate. }
    intros _. rewrite appendOverrides_app. split.
    { exists (rangeOrder h m). split; [apply Hrange | reflexivity]. }
    intros Hvalid key. unfold Os.childGetenv.
    rewrite rev_app_distr, LookupEnv_app, <- map_rev, LookupEnv_entries.
    + rewrite (find_range m).
      * reflexivity.
      * rewrite <- (Hrange m). symmetry. apply Permutation_rev.
    + intros [k v] Hin. apply in_rev in Hin. simpl.
      apply (Hvalid k v). apply elem_of_map_to_list.
      rewrite <- (Hrange m). now apply list_elem_of_In.
  - assert (Hm : m = ∅).
    { apply map_size_empty_iff. apply Nat.ltb_ge in Hsize. lia. }
    split; [auto | contradiction].
Qed.

(** What a command with a nil [Env] passes on: the caller's environment,
    and [PWD] for the directory it is given. *)
Lemma inherited_environment (h : Host) (envs : list string) (c : Exec.Cmd) :
  Exec.Env c = None ->
  (Exec.Dir c = "" -> environOf h envs c = envs)
  /\ (forall pwd,
        Exec.Dir c <> "" -> GOOS h <> "windows" -> GOOS h <> "plan9" ->
        Abs h (Exec.Dir c) = inr pwd ->
        environOf h envs c = (envs ++ [("PWD=" ++ pwd)%string])%list
        /\ Os.childGetenv (environOf h envs c) "PWD" = Some pwd)
  /\ (forall key, key <> "PWD" ->
        Os.childGetenv (environOf h envs c) key = Os.childGetenv envs key).
Proof.
  intros Henv. unfold environOf. rewrite Henv.
  assert (Hpwd : forall pwd key,
            Os.childGetenv (envs ++ [("PWD=" ++ pwd)%string]) key
            = if String.eqb "PWD" key then Some pwd else Os.childGetenv envs key).
  { intros pwd key. unfold Os.childGetenv. rewrite rev_app_distr.
    cbn [rev app Os.LookupEnv].
    change ("PWD=" ++ pwd)%string with ("PWD" ++ "=" ++ pwd)%string.
    rewrite (SplitN2_entry "PWD" pwd eq_refl). destruct (String.eqb_spec "PWD" key) as [<-|]; reflexivity. }
  split; [intros ->; reflexivity|]. split.
  - intros pwd Hd Hw Hp Ha.
    destruct (String.eqb_spec (Exec.Dir c) ""); [contradiction|].
    destruct (String.eqb_spec (GOOS h) "windows"); [contradiction|].
    destruct (String.eqb_spec (GOOS h) "plan9"); [contradiction|].
    rewrite Ha. cbn [orb]. split; [reflexivity|].
    rewrite Hpwd. reflexivity.
  - intros key Hkey.
    destruct (String.eqb (Exec.Dir c) ""); [reflexivity|].
    destruct (_ || _); [reflexivity|].
    destruct (Abs h (Exec.Dir c)) as [msg|pwd]; [reflexivity|].
    rewrite Hpwd. destruct (String.eqb_spec "PWD" key); congruence.
Qed.

End ChildEnvironment.

(** ** The matcher *)

Section Matcher.

Lemma lastOr_app (p : option ascii) (w1 w2 : string) :
  lastOr p (w1 ++ w2) = lastOr (lastOr p w1) w2.
Proof. revert p. induction w1 as [|a w1 IH]; intros p; simpl; auto. Qed.

Lemma in_run_Cat (r1 r2 : re) p s (x : pos) :
  In x (run (Cat r1 r2) p s) <->
  exists q, In q (run r1 p s) /\ In x (run r2 (fst q) (snd q)).
Proof. simpl. rewrite in_flat_map. reflexivity. Qed.

Lemma in_run_seq (l1 l2 : list re) p s (x : pos) :
  l1 <> [] -> l2 <> [] ->
  In x (run (seq (l1 ++ l2)) p s) <->
  exists q, In q (run (seq l1) p s) /\ In x (run (seq l2) (fst q) (snd q)).
Proof.
  intros H1 H2. revert p s x. induction l1 as [|r l1 IH]; [contradiction|].
  intros p s x. destruct l1 as [|r' l1].
  - destruct l2 as [|r2 l2]; [contradiction|]. apply in_run_Cat.
  - change (seq ((r :: r' :: l1) ++ l2)) with (Cat r (seq ((r' :: l1) ++ l2))).
    change (seq (r :: r' :: l1)) with (Cat r (seq (r' :: l1))).
    rewrite in_run_Cat. split.
    + intros (q & Hq & Hx). apply IH in Hx as (q' & Hq' & Hx); [|discriminate].
      exists q'. split; [|exact Hx]. apply in_run_Cat. eauto.
    + intros (q' & Hq' & Hx). apply in_run_Cat in Hq' as (q & Hq & Hq').
      exists q. split; [exact Hq|]. apply IH; [discriminate|]. eauto.
Qed.

(** Where [stars] can stop: after any prefix made of bytes of [c]. *)
Lemma in_stars (c : cset) p s (x : pos) :
  In x (stars c p s) <->
  exists w u, s = w ++ u /\ allOf c w = true /\ x = (lastOr p w, u).
Proof.
  revert p. induction s as [|a s IH]; intros p; simpl.
  - split.
    + intros [<-|[]]. exists "", "". auto.
    + intros (w & u & E & _ & ->). destruct w; [|discriminate].
      simpl in E. subst u. now left.
  - split.
    + intros [<-|Hin].
      * exists "", (String a s). auto.
      * destruct (cmem c a) eqn:Hc; [|contradiction].
        apply IH in Hin as (w & u & -> & Hw & ->).
        exists (String a w), u. simpl. rewrite Hc. auto.
    + intros (w & u & E & Hw & ->). destruct w as [|b w]; simpl in *.
      * subst u. now left.
      * injection E as <- ->. apply andb_true_iff in Hw as [Hc Hw].
        right. rewrite Hc. apply IH. exists w, u. auto.
Qed.

(** A match reads a prefix of the text; the byte before its end is the
    last one it read. *)
Lemma run_before (r : re) p s p' u :
  In (p', u) (run r p s) -> exists w, s = w ++ u /\ p' = lastOr p w.
Proof.
  revert p s p' u. induction r as [|c|c|c| | |r1 IH1 r2 IH2|r1 IH1 r2 IH2|r IH];
    intros p s p' u; simpl.
  - intros [E|[]]. injection E as <- <-. exists "". auto.
  - destruct s as [|a s]; simpl; [tauto|]. destruct (cmem c a); simpl; [|tauto].
    intros [E|[]]. injection E as <- <-. exists (String a ""). auto.
  - intros H. apply in_stars in H as (w & u' & -> & _ & E).
    injection E as -> ->. eauto.
  - destruct s as [|a s]; simpl; [tauto|]. destruct (cmem c a); simpl; [|tauto].
    intros H. apply in_stars in H as (w & u' & -> & _ & E).
    injection E as -> ->. exists (String a w). auto.
  - destruct (xorb _ _); simpl; [|tauto]. intros [E|[]]. injection E as <- <-.
    exists "". auto.
  - destruct s; simpl; [|tauto]. intros [E|[]]. injection E as <- <-. exists "". auto.
  - intros H. apply in_flat_map in H as ([p1 u1] & H1 & H2). simpl in H2.
    apply IH1 in H1 as (w1 & -> & ->). apply IH2 in H2 as (w2 & -> & ->).
    exists (w1 ++ w2). now rewrite append_assoc, lastOr_app.
  - intros H. apply in_app_or in H as [H|H]; eauto.
  - apply IH.
Qed.

Lemma transparent_run (r : re) p s (x : pos) :
  transparent r = true -> In x (run r p s) -> x = (p, s).
Proof.
  revert p s x. induction r as [|c|c|c| | |r1 IH1 r2 IH2|r1 IH1 r2 IH2|r IH];
    intros p s x; simpl; try discriminate.
  - intros _ [<-|[]]. reflexivity.
  - intros _. destruct (xorb _ _); simpl; [|tauto]. intros [<-|[]]. reflexivity.
  - intros _. destruct s; simpl; [|tauto]. intros [<-|[]]. reflexivity.
  - intros Ht H. apply andb_true_iff in Ht as [Ht1 Ht2].
    apply in_flat_map in H as (q & H1 & H2).
    apply (IH1 _ _ _ Ht1) in H1. subst q. now apply IH2.
  - apply IH.
Qed.

Lemma lastOr_allOf (c : cset) (a : ascii) (w : string) :
  cmem c a = true -> allOf c w = true ->
  exists b, lastOr (Some a) w = Some b /\ cmem c b = true.
Proof.
  revert a. induction w as [|b w IH]; intros a Ha Hw; simpl in *; [eauto|].
  apply andb_true_iff in Hw as [Hb Hw]. eauto.
Qed.

Lemma endsNonSpace_run (r : re) p s p' u :
  endsNonSpace r = true -> In (p', u) (run r p s) -> p' <> Some " "%char.
Proof.
  revert p s p' u. induction r as [|c|c|c| | |r1 IH1 r2 IH2|r1 IH1 r2 IH2|r IH];
    intros p s p' u; simpl; try discriminate.
  - intros Hc. destruct s as [|a s]; simpl; [tauto|]. destruct (cmem c a) eqn:Ha; simpl; [|tauto].
    intros [E|[]]. injection E as <- <-. intros E. injection E as ->.
    rewrite Ha in Hc. discriminate.
  - intros Hc. destruct s as [|a s]; simpl; [tauto|]. destruct (cmem c a) eqn:Ha; simpl; [|tauto].
    intros H. apply in_stars in H as (w & u' & -> & Hw & E). injection E as -> ->.
    destruct (lastOr_allOf c a w Ha Hw) as (b & -> & Hb).
    intros E. injection E as ->. rewrite Hb in Hc. discriminate.
  - intros Ht H. apply in_flat_map in H as ([p1 u1] & H1 & H2). simpl in H2.
    apply orb_true_iff in Ht as [Ht|Ht]; [now apply IH2 in H2|].
    apply andb_true_iff in Ht as [Ht2 Ht1].
    apply (transparent_run _ _ _ _ Ht2) in H2. injection H2 as -> ->.
    now apply IH1 in H1.
  - intros Ht H. apply andb_true_iff in Ht as [Ht1 Ht2].
    apply in_app_or in H as [H|H]; eauto.
  - apply IH.
Qed.

Lemma matchesHere_true (r : re) p s :
  matchesHere r p s = true <-> exists x, In x (run r p s).
Proof.
  unfold matchesHere. destruct (run r p s) as [|x l]; split.
  - discriminate.
  - intros (x & []).
  - intros _. exists x. now left.
  - reflexivity.
Qed.

Lemma peek_app (s t : string) :
  isWord (peek t) = false -> isWord (peek (s ++ t)) = isWord (peek s).
Proof. destruct s; simpl; auto. Qed.

(** Two ways to cut one text: the first cut is before the second, or it
    falls in the last part. *)
Lemma append_cut (s t w x : string) :
  s ++ t = w ++ x ->
  (exists u, s = w ++ u /\ x = u ++ t)
  \/ (String.length x < String.length t)%nat.
Proof.
  revert s. induction w as [|b w IH]; intros s E; simpl in E.
  - left. exists s. auto.
  - destruct s as [|a s]; simpl in E.
    + right. subst t. simpl. rewrite length_append. lia.
    + injection E as -> E. apply IH in E as [(u & -> & ->)|Hlt]; [left|right; lia].
      exists u. auto.
Qed.

(** A match in a text is a match in the text followed by [t], when the
    pattern has no [$] and [t] does not start with a word byte. *)
Lemma run_extend (r : re) (t : string) p s p' u :
  noEnd r = true -> isWord (peek t) = false ->
  In (p', u) (run r p s) -> In (p', u ++ t) (run r p (s ++ t)).
Proof.
  intros Hr Ht. revert Hr p s p' u.
  induction r as [|c|c|c| | |r1 IH1 r2 IH2|r1 IH1 r2 IH2|r IH];
    intros Hr p s p' u; simpl in Hr |- *; try discriminate.
  - intros [E|[]]. injection E as <- <-. now left.
  - destruct s as [|a s]; simpl; [tauto|]. destruct (cmem c a); simpl; [|tauto].
    intros [E|[]]. injection E as <- <-. now left.
  - intros H. apply in_stars in H as (w & u' & -> & Hw & E). injection E as -> <-.
    apply in_stars. exists w, (u ++ t). now rewrite append_assoc.
  - destruct s as [|a s]; simpl; [tauto|]. destruct (cmem c a); simpl; [|tauto].
    intros H. apply in_stars in H as (w & u' & -> & Hw & E). injection E as -> <-.
    apply in_stars. exists w, (u ++ t). now rewrite append_assoc.
  - rewrite (peek_app s t Ht). destruct (xorb _ _); simpl; [|tauto].
    intros [E|[]]. injection E as <- <-. now left.
  - apply andb_true_iff in Hr as [Hr1 Hr2].
    intros H. apply in_flat_map in H as ([p1 u1] & H1 & H2). simpl in H2.
    apply in_flat_map. exists (p1, u1 ++ t). split; [now apply IH1|].
    now apply IH2.
  - apply andb_true_iff in Hr as [Hr1 Hr2].
    intros H. apply in_or_app. apply in_app_or in H as [H|H]; [left|right]; auto.
  - now apply IH.
Qed.

(** Conversely a match in the text followed by [t] either is a match in
    the text or has read into [t]. *)
Lemma run_restrict (r : re) (t : string) p s p' x :
  noEnd r = true -> isWord (peek t) = false ->
  In (p', x) (run r p (s ++ t)) ->
  (exists u, x = u ++ t /\ In (p', u) (run r p s))
  \/ (String.length x < String.length t)%nat.
Proof.
  intros Hr Ht. revert Hr p s p' x.
  induction r as [|c|c|c| | |r1 IH1 r2 IH2|r1 IH1 r2 IH2|r IH];
    intros Hr p s p' x; simpl in Hr |- *; try discriminate.
  - intros [E|[]]. injection E as <- <-. left. exists s. split; [|left]; auto.
  - destruct s as [|a s]; simpl.
    + destruct t as [|b t]; simpl; [tauto|]. destruct (cmem c b); simpl; [|tauto].
      intros [E|[]]. injection E as <- <-. right. lia.
    + destruct (cmem c a); simpl; [|tauto].
      intros [E|[]]. injection E as <- <-. left. exists s. split; [|left]; auto.
  - intros H. apply in_stars in H as (w & x' & E & Hw & Ex). injection Ex as -> ->.
    apply append_cut in E as [(u & -> & ->)|Hlt]; [left|now right].
    exists u. split; [reflexivity|]. apply in_stars. eauto.
  - destruct s as [|a s]; simpl.
    + destruct t as [|b t]; simpl; [tauto|]. destruct (cmem c b); simpl; [|tauto].
      intros H. apply in_stars in H as (w & x' & -> & Hw & Ex). injection Ex as -> ->.
      right. rewrite length_append. lia.
    + destruct (cmem c a); simpl; [|tauto].
      intros H. apply in_stars in H as (w & x' & E & Hw & Ex). injection Ex as -> ->.
      apply append_cut in E as [(u & -> & ->)|Hlt]; [left|now right].
      exists u. split; [reflexivity|]. apply in_stars. eauto.
  - rewrite (peek_app s t Ht). destruct (xorb _ _); simpl; [|tauto].
    intros [E|[]]. injection E as <- <-. left. exists s. split; [|left]; auto.
  - apply andb_true_iff in Hr as [Hr1 Hr2].
    intros H. apply in_flat_map in H as ([p1 x1] & H1 & H2). simpl in H2.
    apply (IH1 Hr1) in H1 as [(u1 & -> & H1)|Hlt].
    + apply (IH2 Hr2) in H2 as [(u & -> & H2)|Hlt]; [left|now right].
      exists u. split; [reflexivity|]. apply in_flat_map. exists (p1, u1). auto.
    + right. apply run_before in H2 as (w & -> & _).
      rewrite length_append in Hlt. lia.
  - apply andb_true_iff in Hr as [Hr1 Hr2].
    intros H. apply in_app_or in H as [H|H].
    + apply (IH1 Hr1) in H as [(u & -> & H)|Hlt]; [left|now right].
      exists u. split; [reflexivity|]. apply in_or_app. now left.
    + apply (IH2 Hr2) in H as [(u & -> & H)|Hlt]; [left|now right].
      exists u. split; [reflexivity|]. apply in_or_app. now right.
  - now apply IH.
Qed.

Lemma lastOr_snoc (p : option ascii) (s : string) (a : ascii) :
  lastOr p (s ++ String a "") = Some a.
Proof. now rewrite lastOr_app. Qed.

(** No match ends just after a blank at the very end of the text. *)
Lemma no_match_to_final_space (r : re) p s p' :
  endsNonSpace r = true -> ~ In (p', "") (run r p (s ++ " ")).
Proof.
  intros Hr H. pose proof (endsNonSpace_run _ _ _ _ _ Hr H) as Hne.
  apply run_before in H as (w & E & ->). rewrite append_nil_r in E. subst w.
  now rewrite lastOr_snoc in Hne.
Qed.

Lemma no_match_after_space (r : re) (x : pos) :
  endsNonSpace r = true -> ~ In x (run r (Some " "%char) "").
Proof.
  intros Hr H. destruct x as [p' u].
  pose proof (endsNonSpace_run _ _ _ _ _ Hr H) as Hne.
  apply run_before in H as (w & E & ->). destruct w; [|discriminate].
  now apply Hne.
Qed.

Lemma length_0_empty (x : string) : (String.length x < 1)%nat -> x = "".
Proof. destruct x; simpl; [reflexivity | lia]. Qed.

Lemma bool_eq_iff (a b : bool) : (a = true <-> b = true) -> a = b.
Proof. destruct a, b; intuition congruence. Qed.

(** A blank added at the end of the text changes no match of a pattern
    without [$] whose matches end on a non-blank. *)
Lemma matchesHere_space (r : re) p s :
  noEnd r = true -> endsNonSpace r = true ->
  matchesHere r p (s ++ " ") = matchesHere r p s.
Proof.
  intros Hn He. apply bool_eq_iff. rewrite !matchesHere_true. split.
  - intros ([p' x] & H).
    destruct (run_restrict r " " _ _ _ _ Hn eq_refl H) as [(u & -> & Hu)|Hlt];
      [eauto|].
    apply length_0_empty in Hlt. subst x.
    now apply no_match_to_final_space in H.
  - intros ([p' u] & H). exists (p', u ++ " "). now apply run_extend.
Qed.

Lemma search_space (r : re) p s :
  (forall p s, matchesHere r p (s ++ " ") = matchesHere r p s) ->
  matchesHere r (Some " "%char) "" = false ->
  search r p (s ++ " ") = search r p s.
Proof.
  intros Hhere Hend. revert p. induction s as [|a s IH]; intros p.
  - pose proof (Hhere p "") as H0. simpl in H0 |- *.
    rewrite Hend, H0. reflexivity.
  - change (String a s ++ " ") with (String a (s ++ " ")).
    simpl. rewrite IH. f_equal. apply (Hhere p (String a s)).
Qed.

End Matcher.


(** ** The deny list *)

Section DenyList.

(** Each syntax tree prints back to the pattern as written in the source
    and respects the layers of the grammar. *)
Lemma deny_patterns_as_written :
  Forall (fun r => render (prog r) = String_ r /\ isRegexp (prog r) = true)
         defaultDenyPatterns.
Proof. repeat constructor. Qed.

Lemma MatchString_space (r : Regexp) (s : string) :
  noEnd (prog r) = true -> endsNonSpace (prog r) = true ->
  MatchString r (s ++ " ") = MatchString r s.
Proof.
  intros Hn He. unfold MatchString. apply search_space.
  - intros p s'. now apply matchesHere_space.
  - destruct (matchesHere _ _ _) eqn:E; [|reflexivity].
    apply matchesHere_true in E as (x & Hx).
    now apply no_match_after_space in Hx.
Qed.

Lemma allOf_app (c : cset) (a b : string) :
  allOf c (a ++ b) = allOf c a && allOf c b.
Proof.
  induction a as [|x a IH]; simpl; [reflexivity|].
  now rewrite IH, andb_assoc.
Qed.

(** [\s*$] matches exactly before blanks that run to the end of the text. *)
Lemma in_run_blank_end p u (x : pos) :
  In x (run (seq [Star CSpace; EndText]) p u) <->
  allOf CSpace u = true /\ x = (lastOr p u, "").
Proof.
  change (seq [Star CSpace; EndText]) with (Cat (Star CSpace) EndText).
  rewrite in_run_Cat. split.
  - intros ([p1 u1] & H1 & H2). apply in_stars in H1 as (w & u' & -> & Hw & E).
    injection E as -> ->. simpl in H2. destruct u'; simpl in H2; [|tauto].
    destruct H2 as [<-|[]]. now rewrite append_nil_r.
  - intros [Hu ->]. exists (lastOr p u, ""). split; [|now left].
    apply in_stars. exists u, "". now rewrite append_nil_r.
Qed.

Lemma matchesHere_rm_root p s :
  matchesHere re_rm_root p s = true <->
  exists p1 u1, In (p1, u1) (run (seq rmFront) p s) /\ allOf CSpace u1 = true.
Proof.
  rewrite matchesHere_true.
  change re_rm_root with (seq (rmFront ++ [Star CSpace; EndText])). split.
  - intros (x & H). apply in_run_seq in H as ([p1 u1] & H1 & H2); try discriminate.
    apply in_run_blank_end in H2 as [Hu _]. eauto.
  - intros (p1 & u1 & H1 & Hu). exists (lastOr p1 u1, "").
    apply in_run_seq; try discriminate. exists (p1, u1). split; [exact H1|].
    now apply in_run_blank_end.
Qed.

Lemma MatchString_rm_root_space (s : string) :
  MatchString pat_rm_root (s ++ " ") = MatchString pat_rm_root s.
Proof.
  unfold MatchString. simpl prog. apply search_space.
  - intros p s'. apply bool_eq_iff. rewrite !matchesHere_rm_root. split.
    + intros (p1 & x1 & H1 & Hx).
      destruct (run_restrict (seq rmFront) " " _ _ _ _ eq_refl eq_refl H1)
        as [(u1 & -> & Hu)|Hlt].
      * rewrite allOf_app in Hx. apply andb_true_iff in Hx as [Hx _]. eauto.
      * apply length_0_empty in Hlt. subst x1.
        now apply no_match_to_final_space in H1.
    + intros (p1 & u1 & H1 & Hu). exists p1, (u1 ++ " "). split.
      * now apply run_extend.
      * now rewrite allOf_app, Hu.
  - destruct (matchesHere _ _ _) eqn:E; [|reflexivity].
    apply matchesHere_rm_root in E as (p1 & u1 & H1 & _).
    now apply no_match_after_space in H1.
Qed.

(** A blank at the end of the line changes nothing for the deny list. *)
Lemma isDenied_space (s : string) : isDenied (s ++ " ") = isDenied s.
Proof.
  unfold isDenied, defaultDenyPatterns, firstMatch.
  rewrite MatchString_rm_root_space.
  rewrite !MatchString_space by reflexivity. reflexivity.
Qed.

(** The line [run_command] checks is denied as the command line joined by
    single blanks is. *)
Lemma isDenied_fullCmd (inp : RunCommandTool.Input) :
  isDenied (RunCommandTool.fullCmd inp)
  = isDenied (Strings.Join (RunCommandTool.Cmd inp :: RunCommandTool.Args inp) " ").
Proof.
  unfold RunCommandTool.fullCmd.
  destruct (RunCommandTool.Args inp) as [|a args]; [|reflexivity].
  simpl Strings.Join. rewrite append_nil_r. apply isDenied_space.
Qed.

Lemma firstMatch_true (res : list Regexp) (line pattern : string) :
  firstMatch res line = (true, pattern) ->
  exists rule, In rule res /\ String_ rule = pattern
               /\ MatchString rule line = true.
Proof.
  induction res as [|r res IH]; simpl; [discriminate|].
  destruct (MatchString r line) eqn:E.
  - intros H. injection H as <-. exists r. auto.
  - intros H. destruct (IH H) as (rule & ? & ? & ?). exists rule. auto.
Qed.

Lemma firstMatch_complete (res : list Regexp) (line : string) (rule : Regexp) :
  In rule res -> MatchString rule line = true ->
  fst (firstMatch res line) = true.
Proof.
  induction res as [|r res IH]; simpl; [tauto|].
  intros [->|Hin] Hm.
  - now rewrite Hm.
  - destruct (MatchString r line); [reflexivity | auto].
Qed.

End DenyList.

(** C1: a run_command request whose command line, the executable name and
    the arguments joined by single blanks, matches a deny pattern fails
    with the error that names the first pattern matched; no result is
    returned and nothing has been done before: no look at the working
    directory, no read of the environment, no process. *)
Theorem denied_command_is_rejected (h : Host) (envs : list string)
  (inp : RunCommandTool.Input) (rule : Regexp) :
  RunCommandTool.Cmd inp <> "" ->
  In rule defaultDenyPatterns ->
  MatchString rule
    (Strings.Join (RunCommandTool.Cmd inp :: RunCommandTool.Args inp) " ") = true ->
  exists matched,
    In matched defaultDenyPatterns
    /\ MatchString matched
         (Strings.Join (RunCommandTool.Cmd inp :: RunCommandTool.Args inp) " ") = true
    /\ isDenied (RunCommandTool.fullCmd inp) = (true, String_ matched)
    /\ RunCommandTool.Execute h envs inp
       = ([], inl (ErrCommandBlocked (String_ matched)))
    /\ PolicyViolation (ErrCommandBlocked (String_ matched)) (String_ matched)
    /\ Error (ErrCommandBlocked (String_ matched))
       = "command blocked by safety denylist (matched: "
         ++ String_ matched ++ ")"
    /\ trace (RunCommandTool.Execute h envs inp) = []
    /\ ~ spawned (trace (RunCommandTool.Execute h envs inp)).
Proof.
  intros Hcmd Hin Hmatch.
  pose proof (firstMatch_complete _ _ _ Hin Hmatch) as Hden.
  fold (isDenied (Strings.Join (RunCommandTool.Cmd inp :: RunCommandTool.Args inp) " "))
    in Hden.
  destruct (isDenied (Strings.Join _ " ")) as [b pattern] eqn:E.
  simpl in Hden. subst b.
  destruct (firstMatch_true _ _ _ E) as (matched & Hm1 & <- & Hm3).
  exists matched. split; [exact Hm1|]. split; [exact Hm3|].
  assert (Hfull : isDenied (RunCommandTool.fullCmd inp) = (true, String_ matched))
    by (now rewrite isDenied_fullCmd).
  assert (Hex : RunCommandTool.Execute h envs inp
                = ([], inl (ErrCommandBlocked (String_ matched)))).
  { unfold RunCommandTool.Execute.
    destruct (String.eqb_spec (RunCommandTool.Cmd inp) ""); [contradiction|].
    now rewrite Hfull. }
  split; [exact Hfull|]. split; [exact Hex|].
  split; [now left|]. split; [reflexivity|].
  rewrite Hex. split; [reflexivity|].
  intros (c & []).
Qed.


Section ScriptLines.

Import RunScriptTool.

(** The loop stops at the first line that is neither skipped nor allowed. *)
Lemma checkLines_first (lines : list string) (raw : string) :
  In raw lines ->
  skipped (Strings.TrimSpace raw) = false ->
  fst (isDenied (Strings.TrimSpace raw)) = true ->
  exists pre first post pattern,
    lines = (pre ++ first :: post)%list
    /\ (forall r, In r pre ->
          skipped (Strings.TrimSpace r) = true
          \/ fst (isDenied (Strings.TrimSpace r)) = false)
    /\ skipped (Strings.TrimSpace first) = false
    /\ isDenied (Strings.TrimSpace first) = (true, pattern)
    /\ checkLines lines = Some (pattern, Strings.TrimSpace first).
Proof.
  intros Hin Hsk Hden. induction lines as [|raw0 rest IH]; [contradiction|].
  simpl checkLines.
  destruct (skipped (Strings.TrimSpace raw0)) eqn:Hsk0.
  - destruct Hin as [->|Hin]; [congruence|].
    destruct (IH Hin) as (pre & first & post & pattern & -> & Hpre & ? & ? & ?).
    exists (raw0 :: pre), first, post, pattern. repeat split; auto.
    intros r [<-|Hr]; auto.
  - destruct (isDenied (Strings.TrimSpace raw0)) as [[|] pattern] eqn:Hd0.
    + exists [], raw0, rest, pattern. repeat split; auto; try (intros r []).
    + destruct Hin as [->|Hin]; [rewrite Hd0 in Hden; discriminate|].
      destruct (IH Hin) as (pre & first & post & pat & -> & Hpre & ? & ? & ?).
      exists (raw0 :: pre), first, post, pat. repeat split; auto.
      intros r [<-|Hr]; auto. right. now rewrite Hd0.
Qed.

Lemma checkLines_passes (lines : list string) :
  (forall raw, In raw lines ->
     skipped (Strings.TrimSpace raw) = false ->
     fst (isDenied (Strings.TrimSpace raw)) = false) ->
  checkLines lines = None.
Proof.
  induction lines as [|raw0 rest IH]; intros Hall; [reflexivity|].
  simpl. destruct (skipped (Strings.TrimSpace raw0)) eqn:Hsk0.
  - apply IH. intros raw Hin. apply Hall. now right.
  - pose proof (Hall raw0 (or_introl eq_refl) Hsk0) as Hd.
    destruct (isDenied (Strings.TrimSpace raw0)) as [[|] pattern];
      [discriminate|].
    apply IH. intros raw Hin. apply Hall. now right.
Qed.

(** Skipped lines play no part in the check. *)
Lemma checkLines_filter (lines : list string) :
  checkLines lines
  = checkLines
      (List.filter (fun raw => negb (skipped (Strings.TrimSpace raw))) lines).
Proof.
  induction lines as [|raw0 rest IH]; [reflexivity|].
  simpl. destruct (skipped (Strings.TrimSpace raw0)) eqn:Hsk0; simpl.
  - exact IH.
  - rewrite Hsk0. destruct (isDenied _) as [[|] pattern]; [reflexivity | exact IH].
Qed.

End ScriptLines.

(** C7: the lines of a script are trimmed and, unless blank or starting
    with [#], checked one by one against the deny list.  When such a line
    is denied the script is rejected, before anything is spawned, with the
    error naming the first denied line and the pattern it matched.  Blank
    lines and comment lines are left out of the check: it gives the same
    verdict without them, and a script whose other lines are all allowed
    is not rejected whatever its comments say. *)
Theorem script_lines_are_checked (h : Host) (envs : list string)
  (inp : RunScriptTool.Input) :
  (forall raw,
     In raw (Strings.Split (RunScriptTool.Script inp) "010") ->
     RunScriptTool.skipped (Strings.TrimSpace raw) = false ->
     fst (isDenied (Strings.TrimSpace raw)) = true ->
     exists pre first post pattern,
       Strings.Split (RunScriptTool.Script inp) "010"
       = (pre ++ first :: post)%list
       /\ (forall r, In r pre ->
             RunScriptTool.skipped (Strings.TrimSpace r) = true
             \/ fst (isDenied (Strings.TrimSpace r)) = false)
       /\ RunScriptTool.skipped (Strings.TrimSpace first) = false
       /\ isDenied (Strings.TrimSpace first) = (true, pattern)
       /\ RunScriptTool.Execute h envs inp
          = ([], inl (ErrScriptBlocked pattern (Strings.TrimSpace first)))
       /\ PolicyViolation
            (ErrScriptBlocked pattern (Strings.TrimSpace first)) pattern
       /\ Error (ErrScriptBlocked pattern (Strings.TrimSpace first))
          = "script line blocked by safety denylist (matched: "
            ++ pattern ++ "): " ++ Strings.TrimSpace first
       /\ ~ spawned (trace (RunScriptTool.Execute h envs inp)))
  /\ RunScriptTool.checkLines (Strings.Split (RunScriptTool.Script inp) "010")
     = RunScriptTool.checkLines
         (List.filter
            (fun raw => negb (RunScriptTool.skipped (Strings.TrimSpace raw)))
            (Strings.Split (RunScriptTool.Script inp) "010"))
  /\ ((forall raw,
         In raw (Strings.Split (RunScriptTool.Script inp) "010") ->
         RunScriptTool.skipped (Strings.TrimSpace raw) = false ->
         fst (isDenied (Strings.TrimSpace raw)) = false) ->
      forall pattern line,
        result (RunScriptTool.Execute h envs inp)
        <> inl (ErrScriptBlocked pattern line)).
Proof.
  split; [|split].
  - intros raw Hin Hsk Hden.
    destruct (checkLines_first _ raw Hin Hsk Hden)
      as (pre & first & post & pattern & Hl & Hpre & Hs & Hd & Hc).
    exists pre, first, post, pattern.
    assert (Hex : RunScriptTool.Execute h envs inp
              = ([], inl (ErrScriptBlocked pattern (Strings.TrimSpace first)))).
    { unfold RunScriptTool.Execute.
      destruct (String.eqb_spec (RunScriptTool.Script inp) "") as [E|_].
      - rewrite E in Hin. simpl in Hin. destruct Hin as [<-|[]].
        vm_compute in Hsk. discriminate.
      - now rewrite Hc. }
    repeat split; auto.
    + right. eauto.
    + rewrite Hex. intros (c & []).
  - apply checkLines_filter.
  - intros Hall pattern line. unfold RunScriptTool.Execute.
    destruct (String.eqb (RunScriptTool.Script inp) ""); [discriminate|].
    rewrite (checkLines_passes _ Hall).
    destruct (resolveShell h (RunScriptTool.Shell inp)) as [shell shellArg].
    unfold workingDir, childEnv, runCmd, exitStatus.
    destruct (String.eqb (RunScriptTool.Cwd inp) "");
      [|destruct (Abs h (RunScriptTool.Cwd inp)) as [msg|absPath];
        [|destruct (IsDir h absPath)]];
      try discriminate;
      destruct (Nat.ltb 0 (size (RunScriptTool.EnvOverrides inp))); simpl;
      match goal with
      | |- context [Run h ?c] =>
          destruct (Exec.ctxErr (Run h c)), (Exec.err (Run h c)); simpl;
          repeat (destruct (capOutput _)); discriminate
      end.
Qed.


(** ** Lines the deny list blocks *)

Section Blocked.

Lemma in_run_Chr (c : cset) (a : ascii) p u :
  cmem c a = true -> In (Some a, u) (run (Chr c) p (String a u)).
Proof. intros Hc. simpl. rewrite Hc. now left. Qed.

Lemma in_run_Lit (w : string) p u :
  w <> "" -> In (lastOr p w, u) (run (Lit w) p (w ++ u)).
Proof.
  revert p. induction w as [|a w IH]; intros p Hw; [contradiction|].
  destruct w as [|b w].
  - apply in_run_Chr. apply Ascii.eqb_refl.
  - change (Lit (String a (String b w)))
      with (Cat (Chr (CByte a)) (Lit (String b w))).
    apply in_run_Cat. exists (Some a, String b w ++ u). split.
    + apply (in_run_Chr (CByte a)). apply Ascii.eqb_refl.
    + apply (IH (Some a)). discriminate.
Qed.

Lemma in_run_Star (c : cset) (ws : string) p u :
  allOf c ws = true -> In (lastOr p ws, u) (run (Star c) p (ws ++ u)).
Proof. intros Hws. apply in_stars. exists ws, u. auto. Qed.

Lemma in_run_Plus (c : cset) (ws : string) p u :
  ws <> "" -> allOf c ws = true ->
  In (lastOr p ws, u) (run (Plus c) p (ws ++ u)).
Proof.
  intros Hne Hws. destruct ws as [|a ws]; [contradiction|].
  simpl in Hws. apply andb_true_iff in Hws as [Ha Hws].
  simpl. rewrite Ha. apply in_stars. exists ws, u. auto.
Qed.

Lemma in_run_WordB p u :
  xorb (isWord p) (isWord (peek u)) = true -> In (p, u) (run WordB p u).
Proof. intros H. simpl. rewrite H. now left. Qed.

(** A match that starts after [pre] is found by the search. *)
Lemma search_at (r : re) (pre s : string) p :
  matchesHere r (lastOr p pre) s = true -> search r p (pre ++ s) = true.
Proof.
  revert p. induction pre as [|a pre IH]; intros p H.
  - destruct s; simpl in *; now rewrite H.
  - change (String a pre ++ s) with (String a (pre ++ s)).
    simpl. rewrite (IH (Some a) H). apply orb_true_r.
Qed.

Lemma denied_by (rule : Regexp) (pre s : string) (x : pos) :
  In rule defaultDenyPatterns ->
  In x (run (prog rule) (lastOr None pre) s) ->
  fst (isDenied (pre ++ s)) = true.
Proof.
  intros Hin Hx. apply (firstMatch_complete _ _ rule Hin).
  apply search_at. apply matchesHere_true. eauto.
Qed.

End Blocked.

(** One factor of a concatenation: give its match, go on after it. *)
Ltac factor lem :=
  apply in_run_Cat; eexists; split; [apply lem | cbn [fst snd]].

(** C2, as the code has it: the deny list blocks every line that holds,
    where a word starts, [rm], blanks, [-rf], blanks and a [/] followed by
    nothing but blanks; the word [mkfs]; [dd] starting a word, blanks and,
    later on the line, [of=/dev/]; [>], blanks or none, [/dev/sd] and a
    lower-case letter; the fork bomb [:(){ :|:& };:]; the word [shutdown]
    or [reboot]; [systemctl] starting a word, blanks and the word start,
    stop, disable, enable or mask. *)
Theorem deny_list_blocks :
  (forall pre ws1 ws2 ws3,
     isWord (lastOr None pre) = false ->
     ws1 <> "" -> allOf CSpace ws1 = true ->
     ws2 <> "" -> allOf CSpace ws2 = true ->
     allOf CSpace ws3 = true ->
     isDenied (pre ++ "rm" ++ ws1 ++ "-rf" ++ ws2 ++ "/" ++ ws3)
     = (true, String_ pat_rm_root))
  /\ (forall pre post,
        isWord (lastOr None pre) = false -> isWord (peek post) = false ->
        fst (isDenied (pre ++ "mkfs" ++ post)) = true)
  /\ (forall pre ws mid post,
        isWord (lastOr None pre) = false ->
        ws <> "" -> allOf CSpace ws = true -> allOf CAny mid = true ->
        fst (isDenied (pre ++ "dd" ++ ws ++ mid ++ "of=/dev/" ++ post)) = true)
  /\ (forall pre ws c post,
        allOf CSpace ws = true -> cmem (CRange "a" "z") c = true ->
        fst (isDenied (pre ++ ">" ++ ws ++ "/dev/sd" ++ String c post)) = true)
  /\ (forall pre post,
        fst (isDenied (pre ++ ":(){ :|:& };:" ++ post)) = true)
  /\ (forall pre post,
        isWord (lastOr None pre) = false -> isWord (peek post) = false ->
        fst (isDenied (pre ++ "shutdown" ++ post)) = true)
  /\ (forall pre post,
        isWord (lastOr None pre) = false -> isWord (peek post) = false ->
        fst (isDenied (pre ++ "reboot" ++ post)) = true)
  /\ (forall pre ws verb post,
        isWord (lastOr None pre) = false ->
        ws <> "" -> allOf CSpace ws = true ->
        In verb ["start"; "stop"; "disable"; "enable"; "mask"] ->
        isWord (peek post) = false ->
        fst (isDenied (pre ++ "systemctl" ++ ws ++ verb ++ post)) = true).
Proof.
  repeat split.
  - intros pre ws1 ws2 ws3 Hpre Hn1 Hw1 Hn2 Hw2 Hw3.
    unfold isDenied, defaultDenyPatterns, firstMatch.
    assert (Hm : MatchString pat_rm_root
                   (pre ++ "rm" ++ ws1 ++ "-rf" ++ ws2 ++ "/" ++ ws3 ++ "") = true);
      [|rewrite append_nil_r in Hm; now rewrite Hm].
    apply search_at. apply matchesHere_true. eexists.
    simpl prog. unfold re_rm_root. cbn [seq].
    factor in_run_WordB. { simpl. now rewrite Hpre. }
    factor (in_run_Lit "rm"). { discriminate. }
    factor (in_run_Plus CSpace ws1); [assumption..|].
    factor (in_run_Lit "-rf"). { discriminate. }
    factor (in_run_Plus CSpace ws2); [assumption..|].
    factor (in_run_Lit "/"). { discriminate. }
    factor (in_run_Star CSpace ws3); [assumption|].
    simpl. now left.
  - intros pre post Hpre Hpost. eapply (denied_by pat_mkfs); [simpl; tauto|].
    simpl prog. unfold re_mkfs. cbn [seq].
    factor in_run_WordB. { simpl. now rewrite Hpre. }
    factor (in_run_Lit "mkfs"). { discriminate. }
    apply in_run_WordB. simpl. now rewrite Hpost.
  - intros pre ws mid post Hpre Hn Hw Hmid.
    eapply (denied_by pat_dd); [simpl; tauto|].
    simpl prog. unfold re_dd. cbn [seq].
    factor in_run_WordB. { simpl. now rewrite Hpre. }
    factor (in_run_Lit "dd"). { discriminate. }
    factor (in_run_Plus CSpace ws); [assumption..|].
    factor (in_run_Star CAny mid); [assumption|].
    apply (in_run_Lit "of=/dev/"). discriminate.
  - intros pre ws c post Hw Hc.
    eapply (denied_by pat_redirect); [simpl; tauto|].
    simpl prog. unfold re_redirect. cbn [seq].
    factor (in_run_Lit ">"). { discriminate. }
    factor (in_run_Star CSpace ws); [assumption|].
    factor (in_run_Lit "/dev/sd"). { discriminate. }
    now apply in_run_Chr.
  - intros pre post.
    change (":(){ :|:& };:" ++ post) with (":(){ :|" ++ ":& };:" ++ post).
    rewrite <- append_assoc.
    eapply (denied_by pat_fork); [simpl; tauto|].
    simpl prog. unfold re_fork. cbn [seq run]. apply in_or_app. right.
    apply (in_run_Lit ":& };:"). discriminate.
  - intros pre post Hpre Hpost. eapply (denied_by pat_shutdown); [simpl; tauto|].
    simpl prog. unfold re_shutdown. cbn [seq].
    factor in_run_WordB. { simpl. now rewrite Hpre. }
    factor (in_run_Lit "shutdown"). { discriminate. }
    apply in_run_WordB. simpl. now rewrite Hpost.
  - intros pre post Hpre Hpost. eapply (denied_by pat_reboot); [simpl; tauto|].
    simpl prog. unfold re_reboot. cbn [seq].
    factor in_run_WordB. { simpl. now rewrite Hpre. }
    factor (in_run_Lit "reboot"). { discriminate. }
    apply in_run_WordB. simpl. now rewrite Hpost.
  - intros pre ws verb post Hpre Hn Hw Hverb Hpost.
    eapply (denied_by pat_systemctl); [simpl; tauto|].
    simpl prog. unfold re_systemctl. cbn [seq].
    factor in_run_WordB. { simpl. now rewrite Hpre. }
    factor (in_run_Lit "systemctl"). { discriminate. }
    factor (in_run_Plus CSpace ws); [assumption..|].
    apply in_run_Cat. exists (lastOr (lastOr (lastOr (lastOr None pre) "systemctl") ws) verb, post).
    split.
    + cbn [run]. simpl in Hverb.
      destruct Hverb as [<-|[<-|[<-|[<-|[<-|[]]]]]];
        repeat (apply in_or_app; first [left; apply in_run_Lit; discriminate | right]);
        apply in_run_Lit; discriminate.
    + cbn [fst snd]. apply in_run_WordB.
      simpl in Hverb.
      destruct Hverb as [<-|[<-|[<-|[<-|[<-|[]]]]]]; simpl; now rewrite Hpost.
Qed.

(** C2, as stated, fails: a root delete followed by another command, a
    [service] invocation and a fork bomb under another name pass the deny
    list. *)
Lemma deny_list_misses :
  isDenied "rm -rf / ; ls" = (false, "")
  /\ isDenied "service nginx stop" = (false, "")
  /\ isDenied "f(){ f|f& };f" = (false, "").
Proof. vm_compute. repeat split. Qed.


(** ** The theorems on concrete requests *)

(** [rm -rf /] on [plainHost]. *)
Lemma denied_command_is_rejected_witness :
  (RunCommandTool.Cmd rmRootRequest <> ""
   /\ In pat_rm_root defaultDenyPatterns
   /\ MatchString pat_rm_root
        (Strings.Join
           (RunCommandTool.Cmd rmRootRequest :: RunCommandTool.Args rmRootRequest)
           " ") = true)
  /\ exists matched,
       isDenied (RunCommandTool.fullCmd rmRootRequest) = (true, String_ matched)
       /\ RunCommandTool.Execute plainHost [] rmRootRequest
          = ([], inl (ErrCommandBlocked (String_ matched)))
       /\ ~ spawned (trace (RunCommandTool.Execute plainHost [] rmRootRequest)).
Proof.
  assert (H1 : RunCommandTool.Cmd rmRootRequest <> "") by discriminate.
  assert (H2 : In pat_rm_root defaultDenyPatterns) by (left; reflexivity).
  assert (H3 : MatchString pat_rm_root
                 (Strings.Join
                    (RunCommandTool.Cmd rmRootRequest
                     :: RunCommandTool.Args rmRootRequest) " ") = true)
    by (vm_compute; reflexivity).
  split; [auto|].
  destruct (denied_command_is_rejected plainHost [] rmRootRequest pat_rm_root
              H1 H2 H3) as (matched & _ & _ & Hd & Hex & _ & _ & _ & Hno).
  exists matched. auto.
Defined.

(** [sudo rm -rf /]. *)
Lemma deny_list_blocks_witness :
  (isWord (lastOr None "sudo ") = false
   /\ " " <> "" /\ allOf CSpace " " = true /\ allOf CSpace "" = true)
  /\ isDenied ("sudo " ++ "rm" ++ " " ++ "-rf" ++ " " ++ "/" ++ "")
     = (true, String_ pat_rm_root).
Proof.
  assert (H1 : isWord (lastOr None "sudo ") = false) by reflexivity.
  assert (H2 : " " <> "") by discriminate.
  assert (H3 : allOf CSpace " " = true) by reflexivity.
  assert (H4 : allOf CSpace "" = true) by reflexivity.
  split; [auto|].
  exact (proj1 deny_list_blocks "sudo " " " " " "" H1 H2 H3 H2 H3 H4).
Defined.



(** A script with [reboot] on its third line, and one that only names it
    in a comment. *)
Lemma script_lines_are_checked_witness :
  (In "  reboot  " (Strings.Split (RunScriptTool.Script rebootScript) "010")
   /\ RunScriptTool.skipped (Strings.TrimSpace "  reboot  ") = false
   /\ fst (isDenied (Strings.TrimSpace "  reboot  ")) = true)
  /\ (exists first pattern,
        isDenied (Strings.TrimSpace first) = (true, pattern)
        /\ RunScriptTool.Execute plainHost [] rebootScript
           = ([], inl (ErrScriptBlocked pattern (Strings.TrimSpace first)))
        /\ ~ spawned (trace (RunScriptTool.Execute plainHost [] rebootScript)))
  /\ (forall pattern line,
        result (RunScriptTool.Execute plainHost [] echoScript)
        <> inl (ErrScriptBlocked pattern line)).
Proof.
  assert (H1 : In "  reboot  "
                 (Strings.Split (RunScriptTool.Script rebootScript) "010"))
    by (vm_compute; right; right; left; reflexivity).
  assert (H2 : RunScriptTool.skipped (Strings.TrimSpace "  reboot  ") = false)
    by (vm_compute; reflexivity).
  assert (H3 : fst (isDenied (Strings.TrimSpace "  reboot  ")) = true)
    by (vm_compute; reflexivity).
  split; [auto|]. split.
  - destruct (script_lines_are_checked plainHost [] rebootScript) as (A & _ & _).
    destruct (A _ H1 H2 H3)
      as (pre & first & post & pattern & _ & _ & _ & Hd & Hex & _ & _ & Hno).
    exists first, pattern. auto.
  - destruct (script_lines_are_checked plainHost [] echoScript) as (_ & _ & P).
    apply P. intros raw Hin Hsk.
    vm_compute in Hin. destruct Hin as [<-|[<-|[<-|[]]]];
      vm_compute in Hsk |- *; congruence.
Defined.


(** Three keys asked, two of them set. *)
Lemma get_env_selection_witness :
  ["API_KEY"; "NOPE"; "PATH"] <> []
  /\ exists out,
       GetEnvTool.Execute plainHost ["PATH=/bin"; "API_KEY=abcdef1234"]
         {| GetEnvTool.Keys := ["API_KEY"; "NOPE"; "PATH"];
            GetEnvTool.IncludeSensitive := false |}
       = ([], inr out)
       /\ map GetEnvTool.Key (GetEnvTool.Variables out) = ["API_KEY"; "PATH"].
Proof.
  assert (H1 : ["API_KEY"; "NOPE"; "PATH"] <> []) by discriminate.
  split; [exact H1|].
  destruct (get_env_selection plainHost ["PATH=/bin"; "API_KEY=abcdef1234"]
              ["API_KEY"; "NOPE"; "PATH"] false H1)
    as [(out & Hex & Hkeys & _) _].
  exists out. split; [exact Hex|]. rewrite Hkeys. vm_compute. reflexivity.
Defined.

(** A ten-byte value and two short ones. *)
Lemma redaction_leaks_length_witness :
  ((4 < String.length "abcdef1234")%nat
   /\ (String.length "abc" <= 4)%nat /\ (String.length "" <= 4)%nat)
  /\ String.length (redactValue "abcdef1234") = String.length "abcdef1234"
  /\ redactValue "abc" = redactValue "".
Proof.
  assert (H1 : (4 < String.length "abcdef1234")%nat) by (simpl; lia).
  assert (H2 : (String.length "abc" <= 4)%nat) by (simpl; lia).
  assert (H3 : (String.length "" <= 4)%nat) by (simpl; lia).
  split; [auto|].
  destruct (redaction_leaks_length "abcdef1234" "abc" "" H1 H2 H3)
    as (Hl & _ & _ & _ & _ & _ & Hs).
  auto.
Defined.


(** * Further properties of the tools *)

(** ** The steps of a call, one by one *)

Section Proceeding.

Variable h : Host.
Variable envs : list string.

Lemma launch_proceeds {Out : Type} path args Cwd overrides timeoutMs
  (finish : Exec.Outcome -> M Out) (answer : Exec.Outcome -> error + Out) :
  (forall o, finish o = ([], answer o)) ->
  proceeds h envs (launch h envs path args Cwd overrides timeoutMs finish)
    path args Cwd overrides timeoutMs answer.
Proof.
  intros Hfin. unfold proceeds, launch, workingDir, childEnv, runCmd, cmdEnvOf.
  destruct (String.eqb_spec Cwd "") as [->|Hcwd].
  - right. right. exists "". split; [left; auto|].
    destruct (Nat.ltb 0 (size overrides)); simpl; rewrite Hfin; reflexivity.
  - destruct (Abs h Cwd) as [msg|absPath] eqn:Habs.
    + left. split; [exact Hcwd|]. exists msg. auto.
    + destruct (IsDir h absPath) eqn:Hdir.
      * right. right. exists absPath. split; [right; auto|].
        destruct (Nat.ltb 0 (size overrides)); simpl; rewrite Hfin; reflexivity.
      * right. left. split; [exact Hcwd|]. exists absPath. auto.
Qed.

Lemma command_proceeds (inp : RunCommandTool.Input) :
  RunCommandTool.Cmd inp <> "" ->
  fst (isDenied (RunCommandTool.fullCmd inp)) = false ->
  proceeds h envs (RunCommandTool.Execute h envs inp)
    (RunCommandTool.Cmd inp) (RunCommandTool.Args inp) (RunCommandTool.Cwd inp)
    (RunCommandTool.EnvOverrides inp) (RunCommandTool.TimeoutMs inp)
    commandAnswer.
Proof.
  intros Hcmd Hden. unfold RunCommandTool.Execute.
  destruct (String.eqb_spec (RunCommandTool.Cmd inp) ""); [contradiction|].
  destruct (isDenied (RunCommandTool.fullCmd inp)) as [[|] pattern];
    [discriminate|].
  eapply launch_proceeds.
  intros o. unfold commandAnswer, exitStatus.
  destruct (Exec.ctxErr o), (Exec.err o); simpl;
    destruct (capOutput (Exec.stdout o)) as [? []];
    destruct (capOutput (Exec.stderr o)) as [? []]; reflexivity.
Qed.

Lemma script_proceeds (inp : RunScriptTool.Input) :
  RunScriptTool.Script inp <> "" ->
  RunScriptTool.checkLines (Strings.Split (RunScriptTool.Script inp) "010")
  = None ->
  proceeds h envs (RunScriptTool.Execute h envs inp)
    (fst (resolveShell h (RunScriptTool.Shell inp)))
    [snd (resolveShell h (RunScriptTool.Shell inp)); RunScriptTool.Script inp]
    (RunScriptTool.Cwd inp)
    (RunScriptTool.EnvOverrides inp) (RunScriptTool.TimeoutMs inp)
    (scriptAnswer (fst (resolveShell h (RunScriptTool.Shell inp)))).
Proof.
  intros Hs Hc. unfold RunScriptTool.Execute.
  destruct (String.eqb_spec (RunScriptTool.Script inp) ""); [contradiction|].
  rewrite Hc.
  destruct (resolveShell h (RunScriptTool.Shell inp)) as [shell shellArg].
  cbn [fst snd]. cbv beta iota.
  eapply launch_proceeds.
  intros o. unfold scriptAnswer, exitStatus.
  destruct (Exec.ctxErr o), (Exec.err o); simpl;
    destruct (capOutput (Exec.stdout o)) as [? []];
    destruct (capOutput (Exec.stderr o)) as [? []]; reflexivity.
Qed.

End Proceeding.

Section ProceedingFacts.

Variable h : Host.
Variable envs : list string.

Lemma spawns_app (t1 t2 : list Event) :
  spawns (t1 ++ t2) = (spawns t1 ++ spawns t2)%list.
Proof.
  induction t1 as [|[] t1 IH]; simpl; auto. now rewrite IH.
Qed.

(** What [proceeds] says of the commands run and of the answer. *)
Lemma proceeds_spawns {Out : Type} (m : M Out) path args Cwd ov t answer :
  proceeds h envs m path args Cwd ov t answer ->
  (spawns (trace m) = [] /\ exists e, result m = inl e)
  \/ exists dir,
       (Cwd = "" /\ dir = ""
        \/ Cwd <> "" /\ Abs h Cwd = inr dir /\ IsDir h dir = true)
       /\ let c := {| Exec.Path := path; Exec.Args := args; Exec.Dir := dir;
                      Exec.Env := cmdEnvOf h envs ov;
                      Exec.Timeout := timeoutOf t |} in
          spawns (trace m) = [c] /\ result m = answer (Run h c).
Proof.
  intros [(_ & msg & _ & ->) | [(_ & absPath & _ & _ & ->) | (dir & Hdir & Hm)]].
  - left. split; [reflexivity | eauto].
  - left. split; [reflexivity | eauto].
  - right. exists dir. split; [exact Hdir|]. cbv zeta in Hm |- *. rewrite Hm.
    split; [|reflexivity]. unfold trace. cbn [fst]. rewrite !spawns_app.
    destruct (String.eqb Cwd ""), (Nat.ltb 0 (size ov)); reflexivity.
Qed.

Lemma command_unstarted (inp : RunCommandTool.Input) :
  RunCommandTool.Cmd inp = ""
  \/ fst (isDenied (RunCommandTool.fullCmd inp)) = true ->
  trace (RunCommandTool.Execute h envs inp) = []
  /\ exists e, result (RunCommandTool.Execute h envs inp) = inl e.
Proof.
  unfold RunCommandTool.Execute. intros [Hc|Hd].
  - rewrite Hc. simpl. eauto.
  - destruct (String.eqb _ ""); [simpl; eauto|].
    destruct (isDenied _) as [[|] pattern]; [simpl; eauto | discriminate].
Qed.

Lemma script_unstarted (inp : RunScriptTool.Input) :
  RunScriptTool.Script inp = ""
  \/ RunScriptTool.checkLines (Strings.Split (RunScriptTool.Script inp) "010")
     <> None ->
  trace (RunScriptTool.Execute h envs inp) = []
  /\ exists e, result (RunScriptTool.Execute h envs inp) = inl e.
Proof.
  unfold RunScriptTool.Execute. intros [Hc|Hd].
  - rewrite Hc. simpl. eauto.
  - destruct (String.eqb _ ""); [simpl; eauto|].
    destruct (RunScriptTool.checkLines _) as [[pattern line]|];
      [simpl; eauto | contradiction].
Qed.

Lemma command_spawns (inp : RunCommandTool.Input) :
  (spawns (trace (RunCommandTool.Execute h envs inp)) = []
   /\ exists e, result (RunCommandTool.Execute h envs inp) = inl e)
  \/ exists dir,
       (RunCommandTool.Cwd inp = "" /\ dir = ""
        \/ RunCommandTool.Cwd inp <> ""
           /\ Abs h (RunCommandTool.Cwd inp) = inr dir /\ IsDir h dir = true)
       /\ let c := {| Exec.Path := RunCommandTool.Cmd inp;
                      Exec.Args := RunCommandTool.Args inp;
                      Exec.Dir := dir;
                      Exec.Env := cmdEnvOf h envs (RunCommandTool.EnvOverrides inp);
                      Exec.Timeout := timeoutOf (RunCommandTool.TimeoutMs inp) |} in
          spawns (trace (RunCommandTool.Execute h envs inp)) = [c]
          /\ result (RunCommandTool.Execute h envs inp) = commandAnswer (Run h c).
Proof.
  destruct (String.eqb_spec (RunCommandTool.Cmd inp) "") as [Hc|Hc].
  { left. destruct (command_unstarted inp (or_introl Hc)) as [-> He]. auto. }
  destruct (fst (isDenied (RunCommandTool.fullCmd inp))) eqn:Hd.
  { left. destruct (command_unstarted inp (or_intror Hd)) as [-> He]. auto. }
  exact (proceeds_spawns _ _ _ _ _ _ _ (command_proceeds h envs inp Hc Hd)).
Qed.

Lemma script_spawns (inp : RunScriptTool.Input) :
  (spawns (trace (RunScriptTool.Execute h envs inp)) = []
   /\ exists e, result (RunScriptTool.Execute h envs inp) = inl e)
  \/ exists dir,
       (RunScriptTool.Cwd inp = "" /\ dir = ""
        \/ RunScriptTool.Cwd inp <> ""
           /\ Abs h (RunScriptTool.Cwd inp) = inr dir /\ IsDir h dir = true)
       /\ let c := {| Exec.Path := fst (resolveShell h (RunScriptTool.Shell inp));
                      Exec.Args := [snd (resolveShell h (RunScriptTool.Shell inp));
                                    RunScriptTool.Script inp];
                      Exec.Dir := dir;
                      Exec.Env := cmdEnvOf h envs (RunScriptTool.EnvOverrides inp);
                      Exec.Timeout := timeoutOf (RunScriptTool.TimeoutMs inp) |} in
          spawns (trace (RunScriptTool.Execute h envs inp)) = [c]
          /\ result (RunScriptTool.Execute h envs inp)
             = scriptAnswer (fst (resolveShell h (RunScriptTool.Shell inp)))
                 (Run h c).
Proof.
  destruct (String.eqb_spec (RunScriptTool.Script inp) "") as [Hc|Hc].
  { left. destruct (script_unstarted inp (or_introl Hc)) as [-> He]. auto. }
  destruct (RunScriptTool.checkLines
              (Strings.Split (RunScriptTool.Script inp) "010")) eqn:Hd.
  { left. destruct (script_unstarted inp) as [-> He]; [|auto].
    right. rewrite Hd. discriminate. }
  exact (proceeds_spawns _ _ _ _ _ _ _ (script_proceeds h envs inp Hc Hd)).
Qed.

End ProceedingFacts.

(** ** The environment of the command *)

Section Passed.

Variable h : Host.
Variable envs : list string.

Lemma In_spawns (t : list Event) (c : Exec.Cmd) :
  In (ESpawn c) t <-> In c (spawns t).
Proof.
  induction t as [|ev t IH]; [reflexivity|].
  destruct ev; simpl; rewrite <- IH; split; auto;
    try (intros [E|H]; [discriminate | exact H]).
  - intros [E|H]; [injection E as ->; now left | now right].
  - intros [->|H]; [now left | now right].
Qed.

(** The environment handed on by the one command of a call, from what the
    request says of the overrides and of the directory. *)
Lemma passed_environment {Out : Type} (m : M Out) path args Cwd ov t answer c :
  rangeSound h ->
  proceeds h envs m path args Cwd ov t answer ->
  In (ESpawn c) (trace m) ->
  (ov = ∅ ->
   Exec.Env c = None
   /\ (Cwd = "" -> environOf h envs c = envs)
   /\ (Cwd <> "" -> Abs h Cwd = inr (Exec.Dir c))
   /\ (forall pwd,
         Exec.Dir c <> "" -> GOOS h <> "windows" -> GOOS h <> "plan9" ->
         Abs h (Exec.Dir c) = inr pwd ->
         environOf h envs c = (envs ++ [("PWD=" ++ pwd)%string])%list
         /\ Os.childGetenv (environOf h envs c) "PWD" = Some pwd)
   /\ (forall key, key <> "PWD" ->
         Os.childGetenv (environOf h envs c) key = Os.childGetenv envs key))
  /\ (ov <> ∅ ->
      overridesApplied h envs ov c
      /\ (validNames ov -> overridesWin h envs ov c)).
Proof.
  intros Hrange Hp Hc. apply In_spawns in Hc.
  destruct (proceeds_spawns h envs _ _ _ _ _ _ _ Hp)
    as [[Hnone _] | (dir & Hdir & Hone & _)].
  { rewrite Hnone in Hc. destruct Hc. }
  rewrite Hone in Hc. destruct Hc as [<-|[]].
  match goal with
  | |- context [environOf h envs ?c0] => set (c := c0)
  end.
  destruct (overrides_applied h envs ov c Hrange eq_refl) as [Hnil Hov].
  split; [|exact Hov]. intros Hempty. specialize (Hnil Hempty).
  destruct (inherited_environment h envs c Hnil) as (H0 & Hpwd & Hother).
  split; [exact Hnil|]. split; [|split; [|split; [exact Hpwd | exact Hother]]].
  - intros HC. apply H0. destruct Hdir as [[_ ->] | [Hne _]];
      [reflexivity | contradiction].
  - intros HC. destruct Hdir as [[HC' _] | (_ & Habs & _)];
      [contradiction | exact Habs].
Qed.

End Passed.

(** C5, as the code has it: a command run without overrides is given no
    environment of its own and passes on the caller's: as it is when the
    request names no working directory, and otherwise, except on Windows
    and Plan 9, followed by [PWD] set to that directory, so that the
    process reads the directory for [PWD] and the caller's value for every
    other variable.  With overrides the command is given the caller's
    environment followed by one entry per override, and, the override
    keys being names of variables, what the process reads for a variable
    is the override when there is one (also when the caller has the
    variable) and the caller's value otherwise.  For run_command and for
    run_script, in whatever order [range] visits the overrides. *)
Theorem child_environment (h : Host) (envs : list string)
  (rc : RunCommandTool.Input) (rs : RunScriptTool.Input) :
  rangeSound h ->
  (forall c, In (ESpawn c) (trace (RunCommandTool.Execute h envs rc)) ->
     (RunCommandTool.EnvOverrides rc = ∅ ->
      Exec.Env c = None
      /\ (RunCommandTool.Cwd rc = "" -> environOf h envs c = envs)
      /\ (RunCommandTool.Cwd rc <> "" ->
          Abs h (RunCommandTool.Cwd rc) = inr (Exec.Dir c))
      /\ (forall pwd,
            Exec.Dir c <> "" -> GOOS h <> "windows" -> GOOS h <> "plan9" ->
            Abs h (Exec.Dir c) = inr pwd ->
            environOf h envs c = (envs ++ [("PWD=" ++ pwd)%string])%list
            /\ Os.childGetenv (environOf h envs c) "PWD" = Some pwd)
      /\ (forall key, key <> "PWD" ->
            Os.childGetenv (environOf h envs c) key = Os.childGetenv envs key))
     /\ (RunCommandTool.EnvOverrides rc <> ∅ ->
         overridesApplied h envs (RunCommandTool.EnvOverrides rc) c
         /\ (validNames (RunCommandTool.EnvOverrides rc) ->
             overridesWin h envs (RunCommandTool.EnvOverrides rc) c)))
  /\ (forall c, In (ESpawn c) (trace (RunScriptTool.Execute h envs rs)) ->
      (RunScriptTool.EnvOverrides rs = ∅ ->
       Exec.Env c = None
       /\ (RunScriptTool.Cwd rs = "" -> environOf h envs c = envs)
       /\ (RunScriptTool.Cwd rs <> "" ->
           Abs h (RunScriptTool.Cwd rs) = inr (Exec.Dir c))
       /\ (forall pwd,
             Exec.Dir c <> "" -> GOOS h <> "windows" -> GOOS h <> "plan9" ->
             Abs h (Exec.Dir c) = inr pwd ->
             environOf h envs c = (envs ++ [("PWD=" ++ pwd)%string])%list
             /\ Os.childGetenv (environOf h envs c) "PWD" = Some pwd)
       /\ (forall key, key <> "PWD" ->
             Os.childGetenv (environOf h envs c) key = Os.childGetenv envs key))
      /\ (RunScriptTool.EnvOverrides rs <> ∅ ->
          overridesApplied h envs (RunScriptTool.EnvOverrides rs) c
          /\ (validNames (RunScriptTool.EnvOverrides rs) ->
              overridesWin h envs (RunScriptTool.EnvOverrides rs) c))).
Proof.
  intros Hrange. split; intros c Hc.
  - destruct (String.eqb_spec (RunCommandTool.Cmd rc) "") as [Hcmd|Hcmd].
    { destruct (command_unstarted h envs rc (or_introl Hcmd)) as [Ht _].
      rewrite Ht in Hc. destruct Hc. }
    destruct (fst (isDenied (RunCommandTool.fullCmd rc))) eqn:Hd.
    { destruct (command_unstarted h envs rc (or_intror Hd)) as [Ht _].
      rewrite Ht in Hc. destruct Hc. }
    exact (passed_environment h envs _ _ _ _ _ _ _ c Hrange
             (command_proceeds h envs rc Hcmd Hd) Hc).
  - destruct (String.eqb_spec (RunScriptTool.Script rs) "") as [Hs|Hs].
    { destruct (script_unstarted h envs rs (or_introl Hs)) as [Ht _].
      rewrite Ht in Hc. destruct Hc. }
    destruct (RunScriptTool.checkLines
                (Strings.Split (RunScriptTool.Script rs) "010")) eqn:Hd.
    { destruct (script_unstarted h envs rs) as [Ht _].
      { right. rewrite Hd. discriminate. }
      rewrite Ht in Hc. destruct Hc. }
    exact (passed_environment h envs _ _ _ _ _ _ _ c Hrange
             (script_proceeds h envs rs Hs Hd) Hc).
Qed.

(** [X=1] over a caller that has [X=0]. *)
Lemma child_environment_witness :
  (rangeSound plainHost
   /\ validNames (RunCommandTool.EnvOverrides echoRequest))
  /\ exists c,
       In (ESpawn c)
          (trace (RunCommandTool.Execute plainHost ["X=0"; "PATH=/bin"] echoRequest))
       /\ overridesApplied plainHost ["X=0"; "PATH=/bin"]
            (RunCommandTool.EnvOverrides echoRequest) c
       /\ overridesWin plainHost ["X=0"; "PATH=/bin"]
            (RunCommandTool.EnvOverrides echoRequest) c
       /\ Os.childGetenv (environOf plainHost ["X=0"; "PATH=/bin"] c) "X"
          = Some "1"
       /\ Os.childGetenv (environOf plainHost ["X=0"; "PATH=/bin"] c) "PATH"
          = Some "/bin".
Proof.
  assert (H1 : rangeSound plainHost) by (intros m; reflexivity).
  assert (H2 : validNames (RunCommandTool.EnvOverrides echoRequest)).
  { intros k v H. cbn [echoRequest RunCommandTool.EnvOverrides] in H.
    apply lookup_singleton_Some in H as [<- <-].
    split; [discriminate | reflexivity]. }
  assert (H3 : RunCommandTool.EnvOverrides echoRequest <> ∅).
  { cbn [echoRequest RunCommandTool.EnvOverrides]. apply insert_non_empty. }
  split; [auto|].
  destruct (child_environment plainHost ["X=0"; "PATH=/bin"] echoRequest echoScript
              H1) as [C _].
  exists {| Exec.Path := "echo"; Exec.Args := ["hello"]; Exec.Dir := "";
            Exec.Env := Some ["X=0"; "PATH=/bin"; "X=1"];
            Exec.Timeout := 30000000000 |}.
  assert (Hin : In (ESpawn {| Exec.Path := "echo"; Exec.Args := ["hello"];
                              Exec.Dir := "";
                              Exec.Env := Some ["X=0"; "PATH=/bin"; "X=1"];
                              Exec.Timeout := 30000000000 |})
                  (trace (RunCommandTool.Execute plainHost ["X=0"; "PATH=/bin"]
                            echoRequest)))
    by (vm_compute; right; left; reflexivity).
  destruct (C _ Hin) as (_ & Hov). destruct (Hov H3) as (Happ & Hwin).
  split; [exact Hin|]. split; [exact Happ|]. split; [exact (Hwin H2)|].
  split.
  - rewrite (Hwin H2 "X"). vm_compute. reflexivity.
  - rewrite (Hwin H2 "PATH"). vm_compute. reflexivity.
Defined.

(** C5, as stated, fails: [ls] run in [/work] without overrides by a
    caller whose [PWD] is [/home/u] is not given the caller's environment
    as it is, and reads [/work] for [PWD]. *)
Lemma inherited_environment_gets_the_directory :
  RunCommandTool.EnvOverrides (lsRequest "/work" 0) = ∅
  /\ exists c,
       spawns (trace (RunCommandTool.Execute strictHost
                        ["PWD=/home/u"; "PATH=/bin"] (lsRequest "/work" 0)))
       = [c]
       /\ environOf strictHost ["PWD=/home/u"; "PATH=/bin"] c
          = ["PWD=/home/u"; "PATH=/bin"; "PWD=/work"]
       /\ environOf strictHost ["PWD=/home/u"; "PATH=/bin"] c
          <> ["PWD=/home/u"; "PATH=/bin"]
       /\ Os.childGetenv (environOf strictHost ["PWD=/home/u"; "PATH=/bin"] c)
            "PWD" = Some "/work"
       /\ Os.childGetenv ["PWD=/home/u"; "PATH=/bin"] "PWD" = Some "/home/u".
Proof.
  split; [reflexivity|].
  exists {| Exec.Path := "ls"; Exec.Args := ["-l"]; Exec.Dir := "/work";
            Exec.Env := None; Exec.Timeout := 30000000000 |}.
  vm_compute. repeat split. discriminate.
Qed.

(** X1: once the request is accepted, a working directory that cannot be
    made absolute, or that is not an existing directory, fails the call
    right there: the environment has not been read and nothing is run.
    The second error names the directory as the request gave it. *)
Theorem bad_working_directory_stops_the_call (h : Host) (envs : list string) :
  (forall inp,
     RunCommandTool.Cmd inp <> "" ->
     fst (isDenied (RunCommandTool.fullCmd inp)) = false ->
     RunCommandTool.Cwd inp <> "" ->
     (forall msg, Abs h (RunCommandTool.Cwd inp) = inl msg ->
        RunCommandTool.Execute h envs inp
        = ([EAbs (RunCommandTool.Cwd inp)], inl (ErrInvalidCwd msg)))
     /\ (forall absPath,
           Abs h (RunCommandTool.Cwd inp) = inr absPath ->
           IsDir h absPath = false ->
           RunCommandTool.Execute h envs inp
           = ([EAbs (RunCommandTool.Cwd inp); EStat absPath],
              inl (ErrCwdNotDir (RunCommandTool.Cwd inp)))))
  /\ (forall inp,
        RunScriptTool.Script inp <> "" ->
        RunScriptTool.checkLines (Strings.Split (RunScriptTool.Script inp) "010")
        = None ->
        RunScriptTool.Cwd inp <> "" ->
        (forall msg, Abs h (RunScriptTool.Cwd inp) = inl msg ->
           RunScriptTool.Execute h envs inp
           = ([EAbs (RunScriptTool.Cwd inp)], inl (ErrInvalidCwd msg)))
        /\ (forall absPath,
              Abs h (RunScriptTool.Cwd inp) = inr absPath ->
              IsDir h absPath = false ->
              RunScriptTool.Execute h envs inp
              = ([EAbs (RunScriptTool.Cwd inp); EStat absPath],
                 inl (ErrCwdNotDir (RunScriptTool.Cwd inp))))).
Proof.
  split.
  - intros inp Hc Hd Hcwd.
    destruct (command_proceeds h envs inp Hc Hd)
      as [(_ & m & Ha & Hm) | [(_ & a & Ha & Hi & Hm) | (dir & Hdir & _)]].
    + split; [intros msg E; congruence | intros absPath E; congruence].
    + split; [intros msg E; congruence|].
      intros absPath E _. congruence.
    + destruct Hdir as [[E _] | (_ & Ha & Hi)]; [contradiction|].
      split; [intros msg E; congruence | intros absPath E Hn; congruence].
  - intros inp Hc Hd Hcwd.
    destruct (script_proceeds h envs inp Hc Hd)
      as [(_ & m & Ha & Hm) | [(_ & a & Ha & Hi & Hm) | (dir & Hdir & _)]].
    + split; [intros msg E; congruence | intros absPath E; congruence].
    + split; [intros msg E; congruence|].
      intros absPath E _. congruence.
    + destruct Hdir as [[E _] | (_ & Ha & Hi)]; [contradiction|].
      split; [intros msg E; congruence | intros absPath E Hn; congruence].
Qed.

(** [ls] asked in a directory that does not exist, and in a relative one
    on a host that cannot resolve it. *)
Lemma bad_working_directory_stops_the_call_witness :
  (RunCommandTool.Cmd (lsRequest "/nowhere" 0) <> ""
   /\ fst (isDenied (RunCommandTool.fullCmd (lsRequest "/nowhere" 0))) = false
   /\ RunCommandTool.Cwd (lsRequest "/nowhere" 0) <> ""
   /\ Abs strictHost "/nowhere" = inr "/nowhere"
   /\ IsDir strictHost "/nowhere" = false
   /\ Abs strictHost "rel" = inl "getwd: no such file or directory")
  /\ RunCommandTool.Execute strictHost [] (lsRequest "/nowhere" 0)
     = ([EAbs "/nowhere"; EStat "/nowhere"], inl (ErrCwdNotDir "/nowhere"))
  /\ RunCommandTool.Execute strictHost [] (lsRequest "rel" 0)
     = ([EAbs "rel"], inl (ErrInvalidCwd "getwd: no such file or directory")).
Proof.
  assert (H1 : forall cwd, RunCommandTool.Cmd (lsRequest cwd 0) <> "")
    by (intros cwd; discriminate).
  assert (H2 : forall cwd,
             fst (isDenied (RunCommandTool.fullCmd (lsRequest cwd 0))) = false)
    by (intros cwd; vm_compute; reflexivity).
  assert (H3 : RunCommandTool.Cwd (lsRequest "/nowhere" 0) <> "") by discriminate.
  assert (H3' : RunCommandTool.Cwd (lsRequest "rel" 0) <> "") by discriminate.
  assert (H4 : Abs strictHost "/nowhere" = inr "/nowhere") by reflexivity.
  assert (H5 : IsDir strictHost "/nowhere" = false) by reflexivity.
  assert (H6 : Abs strictHost "rel" = inl "getwd: no such file or directory")
    by reflexivity.
  split; [repeat split; auto|].
  destruct (bad_working_directory_stops_the_call strictHost []) as [C _].
  split.
  - exact (proj2 (C (lsRequest "/nowhere" 0) (H1 _) (H2 _) H3) _ H4 H5).
  - exact (proj1 (C (lsRequest "rel" 0) (H1 _) (H2 _) H3') _ H6).
Defined.

Section Answers.





Lemma scriptAnswer_shell (shell : string) (o : Exec.Outcome) out :
  scriptAnswer shell o = inr out -> RunScriptTool.ShellUsed out = shell.
Proof.
  unfold scriptAnswer. destruct (result _); [discriminate|].
  intros E. injection E as <-. reflexivity.
Qed.

Lemma In_singleton {A : Type} (l : list A) (x y : A) :
  l = [x] -> In y l -> y = x.
Proof. intros -> [E|[]]. now symmetry. Qed.

End Answers.



(** The body of a call hands at most one command to [cmd.Run], and exactly
    one when it comes to a result. *)
Lemma execute_runs_once (h : Host) (envs : list string)
  (rc : RunCommandTool.Input) (rs : RunScriptTool.Input) :
  ((length (spawns (trace (RunCommandTool.Execute h envs rc))) <= 1)%nat
   /\ (forall out, result (RunCommandTool.Execute h envs rc) = inr out ->
       length (spawns (trace (RunCommandTool.Execute h envs rc))) = 1%nat)
   /\ (forall c, In c (spawns (trace (RunCommandTool.Execute h envs rc))) ->
       Exec.Path c = RunCommandTool.Cmd rc
       /\ Exec.Args c = RunCommandTool.Args rc
       /\ (RunCommandTool.Cwd rc = "" /\ Exec.Dir c = ""
           \/ RunCommandTool.Cwd rc <> ""
              /\ Abs h (RunCommandTool.Cwd rc) = inr (Exec.Dir c)
              /\ IsDir h (Exec.Dir c) = true)))
  /\ ((length (spawns (trace (RunScriptTool.Execute h envs rs))) <= 1)%nat
      /\ (forall out, result (RunScriptTool.Execute h envs rs) = inr out ->
          length (spawns (trace (RunScriptTool.Execute h envs rs))) = 1%nat
          /\ forall c, In c (spawns (trace (RunScriptTool.Execute h envs rs))) ->
                       RunScriptTool.ShellUsed out = Exec.Path c)
      /\ (forall c, In c (spawns (trace (RunScriptTool.Execute h envs rs))) ->
          (Exec.Path c, Exec.Args c)
          = (fst (resolveShell h (RunScriptTool.Shell rs)),
             [snd (resolveShell h (RunScriptTool.Shell rs));
              RunScriptTool.Script rs])
          /\ (RunScriptTool.Cwd rs = "" /\ Exec.Dir c = ""
              \/ RunScriptTool.Cwd rs <> ""
                 /\ Abs h (RunScriptTool.Cwd rs) = inr (Exec.Dir c)
                 /\ IsDir h (Exec.Dir c) = true))).
Proof.
  split.
  - destruct (command_spawns h envs rc) as [[E (e & He)] | (dir & Hdir & Hs)].
    + rewrite E. split; [simpl; lia|]. split; [congruence | intros c []].
    + cbv zeta in Hs. destruct Hs as [Hs Hr]. rewrite Hs.
      split; [simpl; lia|]. split; [reflexivity|].
      intros c [<-|[]]. simpl. split; [reflexivity|]. split; [reflexivity|].
      destruct Hdir as [[? ->] | (? & ? & ?)]; auto.
  - destruct (script_spawns h envs rs) as [[E (e & He)] | (dir & Hdir & Hs)].
    + rewrite E. split; [simpl; lia|]. split; [congruence | intros c []].
    + cbv zeta in Hs. destruct Hs as [Hs Hr]. rewrite Hs.
      split; [simpl; lia|]. split.
      * intros out Hout. split; [reflexivity|]. intros c [<-|[]]. simpl.
        rewrite Hr in Hout. now apply scriptAnswer_shell in Hout.
      * intros c [<-|[]]. simpl. split; [reflexivity|].
        destruct Hdir as [[? ->] | (? & ? & ?)]; auto.
Qed.


(** ** The deadline *)

Section Deadline.

Lemma wrap64_small (z : Z) : - 2 ^ 63 <= z < 2 ^ 63 -> wrap64 z = z.
Proof.
  intros Hz. unfold wrap64. rewrite Z.mod_small; lia.
Qed.

Lemma wrap64_once (z : Z) : 2 ^ 63 <= z < 2 ^ 64 -> wrap64 z = z - 2 ^ 64.
Proof.
  intros Hz. unfold wrap64.
  replace (z + 2 ^ 63) with ((z - 2 ^ 63) + 1 * 2 ^ 64) by lia.
  rewrite Z.mod_add by lia. rewrite Z.mod_small; lia.
Qed.

Lemma effectiveTimeoutMs_pos (t : Z) : 0 < effectiveTimeoutMs t.
Proof.
  unfold effectiveTimeoutMs, defaultTimeoutMs. destruct (Z.leb_spec t 0); lia.
Qed.

Lemma effectiveTimeoutMs_le (t : Z) :
  t <= 9223372036854 -> effectiveTimeoutMs t <= 9223372036854.
Proof.
  unfold effectiveTimeoutMs, defaultTimeoutMs. destruct (Z.leb_spec t 0); lia.
Qed.

End Deadline.

(** X4: the time limit in milliseconds becomes a 64-bit count of
    nanoseconds.  Up to 9,223,372,036,854 ms the command gets the positive
    deadline asked for (or that of the default); from there up to
    18,446,744,073,709 ms the product wraps around and the command is given
    a negative deadline. *)
Theorem deadline_wraps_around (h : Host) (envs : list string)
  (rc : RunCommandTool.Input) (rs : RunScriptTool.Input) :
  (forall c, In c (spawns (trace (RunCommandTool.Execute h envs rc))) ->
     (RunCommandTool.TimeoutMs rc <= 9223372036854 ->
      Exec.Timeout c = effectiveTimeoutMs (RunCommandTool.TimeoutMs rc) * 1000000
      /\ 0 < Exec.Timeout c)
     /\ (9223372036854 < RunCommandTool.TimeoutMs rc <= 18446744073709 ->
         Exec.Timeout c < 0))
  /\ (forall c, In c (spawns (trace (RunScriptTool.Execute h envs rs))) ->
        (RunScriptTool.TimeoutMs rs <= 9223372036854 ->
         Exec.Timeout c = effectiveTimeoutMs (RunScriptTool.TimeoutMs rs) * 1000000
         /\ 0 < Exec.Timeout c)
        /\ (9223372036854 < RunScriptTool.TimeoutMs rs <= 18446744073709 ->
            Exec.Timeout c < 0)).
Proof.
  assert (G : forall t,
            (t <= 9223372036854 ->
             timeoutOf t = effectiveTimeoutMs t * 1000000 /\ 0 < timeoutOf t)
            /\ (9223372036854 < t <= 18446744073709 -> timeoutOf t < 0)).
  { intros t. unfold timeoutOf. split.
    - intros Ht. pose proof (effectiveTimeoutMs_pos t).
      pose proof (effectiveTimeoutMs_le t Ht).
      rewrite wrap64_small by lia. lia.
    - intros Ht. unfold effectiveTimeoutMs.
      destruct (Z.leb_spec t 0); [lia|]. rewrite wrap64_once by lia. lia. }
  split; intros c Hin.
  - destruct (command_spawns h envs rc) as [[E _] | (dir & _ & Hs)].
    + rewrite E in Hin. contradiction.
    + cbv zeta in Hs. destruct Hs as [Hs _].
      rewrite (In_singleton _ _ _ Hs Hin). simpl. apply G.
  - destruct (script_spawns h envs rs) as [[E _] | (dir & _ & Hs)].
    + rewrite E in Hin. contradiction.
    + cbv zeta in Hs. destruct Hs as [Hs _].
      rewrite (In_singleton _ _ _ Hs Hin). simpl. apply G.
Qed.

(** A limit of 9,223,372,036,855 ms. *)
Lemma deadline_wraps_around_witness :
  (In (plainCmd "ls" ["-l"] (-9223372036854551616))
      (spawns (trace (RunCommandTool.Execute plainHost []
                        (lsRequest "" 9223372036855))))
   /\ 9223372036854 < RunCommandTool.TimeoutMs (lsRequest "" 9223372036855)
      <= 18446744073709
   /\ In (plainCmd "ls" ["-l"] 5000000)
         (spawns (trace (RunCommandTool.Execute plainHost [] (lsRequest "" 5))))
   /\ RunCommandTool.TimeoutMs (lsRequest "" 5) <= 9223372036854)
  /\ Exec.Timeout (plainCmd "ls" ["-l"] (-9223372036854551616)) < 0
  /\ 0 < Exec.Timeout (plainCmd "ls" ["-l"] 5000000).
Proof.
  assert (H1 : In (plainCmd "ls" ["-l"] (-9223372036854551616))
                 (spawns (trace (RunCommandTool.Execute plainHost []
                                   (lsRequest "" 9223372036855)))))
    by (vm_compute; left; reflexivity).
  assert (H2 : 9223372036854
               < RunCommandTool.TimeoutMs (lsRequest "" 9223372036855)
               <= 18446744073709) by (simpl; lia).
  assert (H3 : In (plainCmd "ls" ["-l"] 5000000)
                 (spawns (trace (RunCommandTool.Execute plainHost []
                                   (lsRequest "" 5)))))
    by (vm_compute; left; reflexivity).
  assert (H4 : RunCommandTool.TimeoutMs (lsRequest "" 5) <= 9223372036854)
    by (simpl; lia).
  split; [repeat split; auto; lia|]. split.
  - destruct (deadline_wraps_around plainHost [] (lsRequest "" 9223372036855)
                echoScript) as (C & _).
    exact (proj2 (C _ H1) H2).
  - destruct (deadline_wraps_around plainHost [] (lsRequest "" 5) echoScript)
      as (C & _).
    exact (proj2 (proj1 (C _ H3) H4)).
Defined.

(** ** The environment: set_env and get_env *)

Section Store.

Lemma replaceEntry_other (envs : list string) (key val k' : string) :
  Os.hasByte "=" key = false -> k' <> key ->
  Os.LookupEnv (Os.replaceEntry envs key (key ++ "=" ++ val)) k'
  = Os.LookupEnv envs k'.
Proof.
  intros Hk Hne. pose proof (SplitN2_entry key val Hk) as Hs.
  assert (Hmiss : forall rest, Os.LookupEnv ((key ++ "=" ++ val) :: rest) k'
                               = Os.LookupEnv rest k').
  { intros rest. simpl in *. rewrite Hs.
    destruct (String.eqb_spec key k'); [congruence | reflexivity]. }
  induction envs as [|e envs IH]; [exact (Hmiss [])|].
  cbn [Os.replaceEntry].
  destruct (Strings.SplitN2 e "=") as [|k [|v [|]]] eqn:E;
    try (cbn [Os.LookupEnv]; rewrite E; exact IH).
  destruct (String.eqb_spec k key) as [->|Hkk].
  - rewrite (Hmiss envs). cbn [Os.LookupEnv]. rewrite E.
    destruct (String.eqb_spec key k'); [congruence | reflexivity].
  - cbn [Os.LookupEnv]. rewrite E, IH. reflexivity.
Qed.

Lemma envKeys_replaceEntry (envs : list string) (key val : string) :
  Os.hasByte "=" key = false ->
  envKeys (Os.replaceEntry envs key (key ++ "=" ++ val))
  = if existsb (String.eqb key) (envKeys envs) then envKeys envs
    else (envKeys envs ++ [key])%list.
Proof.
  intros Hk. pose proof (SplitN2_entry key val Hk) as Hs.
  induction envs as [|e envs IH].
  - simpl in *. now rewrite Hs.
  - cbn [Os.replaceEntry envKeys].
    destruct (Strings.SplitN2 e "=") as [|k [|v [|]]] eqn:E;
      try (cbn [envKeys]; rewrite E; exact IH).
    destruct (String.eqb_spec k key) as [->|Hkk].
    + cbn [envKeys existsb]. rewrite Hs, String.eqb_refl. reflexivity.
    + cbn [envKeys existsb]. rewrite E, IH.
      destruct (String.eqb_spec key k); [congruence|]. simpl.
      destruct (existsb _ _); reflexivity.
Qed.

Lemma replaceEntry_twice (envs : list string) (key v1 v2 : string) :
  Os.hasByte "=" key = false ->
  Os.replaceEntry (Os.replaceEntry envs key (key ++ "=" ++ v1)) key
    (key ++ "=" ++ v2)
  = Os.replaceEntry envs key (key ++ "=" ++ v2).
Proof.
  intros Hk. pose proof (SplitN2_entry key v1 Hk) as Hs.
  induction envs as [|e envs IH].
  - simpl in *. now rewrite Hs, String.eqb_refl.
  - cbn [Os.replaceEntry].
    destruct (Strings.SplitN2 e "=") as [|k [|v [|]]] eqn:E;
      try (cbn [Os.replaceEntry]; rewrite E, IH; reflexivity).
    destruct (String.eqb_spec k key) as [->|Hkk].
    + cbn [Os.replaceEntry]. rewrite Hs, String.eqb_refl.
      reflexivity.
    + cbn [Os.replaceEntry]. rewrite E.
      destruct (String.eqb_spec k key); [contradiction|].
      now rewrite IH.
Qed.

Lemma existsb_eqb_In (key : string) (l : list string) :
  existsb (String.eqb key) l = true <-> In key l.
Proof.
  rewrite existsb_exists. split.
  - intros (x & Hx & E). apply String.eqb_eq in E. now subst.
  - intros H. exists key. split; [exact H | apply String.eqb_refl].
Qed.

(** Every set_env call: refused with the environment as it was, or
    accepted with the one entry written. *)
Lemma set_env_run (h : Host) (envs : list string) (inp : SetEnvTool.Input) :
  let key := SetEnvTool.Key inp in
  let val := SetEnvTool.Value inp in
  let bad := String.eqb key "" || Os.hasByte "=" key || Os.hasByte "000" key
             || Os.hasByte "000" val in
  (bad = true
   /\ exists e, SetEnvTool.Execute h envs inp = (([], inl e), envs)
                /\ e = if String.eqb key "" then ErrKeyRequired
                       else ErrSetenv key)
  \/ (bad = false
      /\ exists out,
           SetEnvTool.Execute h envs inp
           = (([], inr out), Os.replaceEntry envs key (key ++ "=" ++ val))
           /\ SetEnvTool.Success out = true
           /\ (SetEnvTool.Message out = ""
               <-> isSensitiveEnvKey h key = false)).
Proof.
  intros key val bad. subst key val bad.
  unfold SetEnvTool.Execute, Os.Setenv.
  destruct (String.eqb_spec (SetEnvTool.Key inp) "") as [|Hne].
  { left. split; [reflexivity|]. eexists. split; reflexivity. }
  simpl orb.
  destruct (Os.hasByte "=" (SetEnvTool.Key inp) || Os.hasByte "000" (SetEnvTool.Key inp)
            || Os.hasByte "000" (SetEnvTool.Value inp)).
  { left. split; [reflexivity|].
    destruct (isSensitiveEnvKey _ _); eexists; split; reflexivity. }
  right. split; [reflexivity|].
  destruct (isSensitiveEnvKey h (SetEnvTool.Key inp)); eexists;
    (split; [reflexivity|]); simpl; repeat split; auto; discriminate.
Qed.

Lemma NoDup_snoc (l : list string) (key : string) :
  NoDup l -> ~ In key l -> NoDup (l ++ [key]).
Proof.
  intros Hl Hk. apply NoDup_app. split; [exact Hl|]. split.
  - intros x Hx Hx'. apply list_elem_of_In in Hx.
    apply list_elem_of_singleton in Hx'. subst. contradiction.
  - apply NoDup_singleton.
Qed.

End Store.

(** X5: a key is sensitive exactly when its upper-case form is
    [DATABASE_URL] or contains one of the nine patterns: every other name
    of the exact table contains a pattern already. *)
Theorem sensitive_keys_characterised (h : Host) (key : string) :
  isSensitiveEnvKey h key = true <->
  ToUpper h key = "DATABASE_URL"
  \/ exists pat, In pat sensitivePatterns
                 /\ Strings.Contains (ToUpper h key) pat = true.
Proof.
  unfold isSensitiveEnvKey.
  destruct (default false (sensitiveEnvKeys !! ToUpper h key)) eqn:Hl.
  - split; [intros _ | reflexivity].
    destruct (sensitiveEnvKeys !! ToUpper h key) as [[|]|] eqn:Hm;
      try discriminate.
    apply elem_of_list_to_map_2 in Hm. apply list_elem_of_In in Hm.
    simpl in Hm.
    repeat (destruct Hm as [Hm|Hm];
            [injection Hm as <-;
             first [ left; reflexivity
                   | right;
                     apply (proj1 (existsb_exists
                              (fun pat => Strings.Contains _ pat)
                              sensitivePatterns));
                     vm_compute; reflexivity ] |]).
    contradiction.
  - rewrite existsb_exists. split.
    + intros (pat & Hin & Hc). right. eauto.
    + intros [E | (pat & Hin & Hc)]; [|eauto].
      rewrite E in Hl. vm_compute in Hl. discriminate.
Qed.

Lemma sensitive_keys_characterised_witness :
  isSensitiveEnvKey plainHost "my_auth_header" = true.
Proof.
  apply (proj2 (sensitive_keys_characterised plainHost "my_auth_header")).
  right. exists "AUTH". split; [simpl; tauto | vm_compute; reflexivity].
Defined.

(** X6: two values get the same mask exactly when both have at most four
    bytes, or both have the same length above four and the same first two
    and last two bytes: the mask tells the length and the four end bytes
    of a long value and nothing else. *)
Theorem masks_collide (v1 v2 : string) :
  redactValue v1 = redactValue v2 <->
  (String.length v1 <= 4 /\ String.length v2 <= 4)%nat
  \/ ((4 < String.length v1)%nat
      /\ String.length v1 = String.length v2
      /\ forall i, (i < 2 \/ String.length v1 - 2 <= i)%nat ->
                   get i v1 = get i v2).
Proof.
  destruct (Nat.le_gt_cases (String.length v1) 4) as [H1|H1];
    destruct (Nat.le_gt_cases (String.length v2) 4) as [H2|H2].
  - rewrite !redactValue_short by assumption. split; [auto | reflexivity].
  - split.
    + intros E. apply (f_equal String.length) in E.
      rewrite redactValue_short, length_redactValue in E by assumption.
      simpl in E. lia.
    + intros [[_ ?]|(_ & ? & _)]; lia.
  - split.
    + intros E. apply (f_equal String.length) in E.
      rewrite (redactValue_short v2), length_redactValue in E by assumption.
      simpl in E. lia.
    + intros [[? _]|(_ & ? & _)]; lia.
  - split.
    + intros E. right. split; [assumption|].
      assert (Hlen : String.length v1 = String.length v2).
      { apply (f_equal String.length) in E.
        now rewrite !length_redactValue in E by assumption. }
      split; [assumption|]. intros i Hi.
      destruct (Nat.lt_ge_cases i (String.length v1)) as [Hlt|Hge].
      * pose proof (redactValue_get v1 i H1 Hlt) as G1.
        pose proof (redactValue_get v2 i H2 ltac:(lia)) as G2.
        rewrite <- Hlen in G2. rewrite E in G1. rewrite G1 in G2.
        destruct (Nat.ltb_spec i 2); destruct (Nat.leb_spec (String.length v1 - 2) i);
          simpl in G2; solve [assumption | lia].
      * rewrite !get_None_ge by lia. reflexivity.
    + intros [[? _]|(_ & Hlen & Hends)]; [lia|].
      apply get_correct. intros i.
      destruct (Nat.lt_ge_cases i (String.length v1)) as [Hlt|Hge].
      * rewrite !redactValue_get by lia. rewrite <- Hlen.
        destruct (Nat.ltb_spec i 2); destruct (Nat.leb_spec (String.length v1 - 2) i);
          simpl; try reflexivity; apply Hends; lia.
      * rewrite !get_None_ge; [reflexivity | |];
          rewrite length_redactValue; lia.
Qed.

Lemma masks_collide_witness :
  redactValue "sk-live-12345" = redactValue "sk*XXXX*zzz45".
Proof.
  apply (proj2 (masks_collide "sk-live-12345" "sk*XXXX*zzz45")).
  right. split; [simpl; lia|]. split; [reflexivity|].
  intros i Hi. simpl in Hi.
  do 13 (destruct i as [|i]; [first [reflexivity | lia]|]).
  reflexivity.
Defined.

Section StoreFacts.

Variable h : Host.

Lemma replaceEntry_same (envs : list string) (key val : string) :
  key <> "" -> Os.hasByte "=" key = false ->
  Os.LookupEnv (Os.replaceEntry envs key (key ++ "=" ++ val)) key = Some val.
Proof.
  intros Hne Hk. pose proof (SplitN2_entry key val Hk) as Hs.
  assert (Hhit : forall rest, Os.LookupEnv ((key ++ "=" ++ val) :: rest) key
                              = Some val).
  { intros rest. simpl in *. rewrite Hs, String.eqb_refl.
    destruct (String.eqb_spec key ""); [contradiction | reflexivity]. }
  induction envs as [|e envs IH]; [exact (Hhit [])|].
  cbn [Os.replaceEntry].
  destruct (Strings.SplitN2 e "=") as [|k [|v [|]]] eqn:E;
    try (cbn [Os.LookupEnv]; rewrite E; exact IH).
  destruct (String.eqb_spec k key) as [->|Hkk].
  - exact (Hhit envs).
  - cbn [Os.LookupEnv]. rewrite E.
    destruct (String.eqb_spec k key); [contradiction|]. exact IH.
Qed.

Lemma accepted_key (key val : string) :
  String.eqb key "" || Os.hasByte "=" key || Os.hasByte "000" key
  || Os.hasByte "000" val = false ->
  key <> "" /\ Os.hasByte "=" key = false.
Proof.
  intros Hb. apply orb_false_iff in Hb as [Hb _].
  apply orb_false_iff in Hb as [Hb _].
  apply orb_false_iff in Hb as [Hb Hk].
  split; [|exact Hk]. intros ->. discriminate.
Qed.

Lemma length_readKeys (envs : list string) (incl : bool) (keys : list string) :
  (length (GetEnvTool.readKeys h envs incl keys) <= length keys)%nat.
Proof.
  induction keys as [|k keys IH]; simpl; [lia|].
  destruct (Os.LookupEnv envs k); simpl; lia.
Qed.

Lemma length_readAll (incl : bool) (environ : list string) :
  (length (GetEnvTool.readAll h incl environ) <= length environ)%nat.
Proof.
  induction environ as [|e environ IH]; simpl; [lia|].
  destruct (Strings.SplitN2 e "=") as [|k [|v [|]]]; simpl; lia.
Qed.

(** Whatever get_env lists was built by [entryOf] from an entry of the
    environment. *)
Lemma get_env_entries (envs : list string) (inp : GetEnvTool.Input) out e :
  GetEnvTool.Execute h envs inp = ([], inr out) ->
  In e (GetEnvTool.Variables out) ->
  exists k v, In (k ++ "=" ++ v) envs
              /\ e = GetEnvTool.entryOf h (GetEnvTool.IncludeSensitive inp) k v.
Proof.
  unfold GetEnvTool.Execute, ret. intros E. injection E as <-.
  cbn [GetEnvTool.Variables].
  destruct (Nat.ltb 0 (length (GetEnvTool.Keys inp))).
  - intros Hin. apply readKeys_entries in Hin as (k & v & _ & Hl & ->).
    apply LookupEnv_Some in Hl as (_ & _ & Hin). eauto.
  - apply readAll_sound.
Qed.

End StoreFacts.


(** X8: a set_env call, accepted or not, leaves every other variable as it
    reads; the names of the environment stay as they are, in their order,
    or the new name is added at the end; names that were distinct stay
    distinct. *)
Theorem set_env_touches_one_variable (h : Host) (envs : list string)
  (inp : SetEnvTool.Input) :
  let envs' := snd (SetEnvTool.Execute h envs inp) in
  (forall k, k <> SetEnvTool.Key inp ->
             Os.LookupEnv envs' k = Os.LookupEnv envs k)
  /\ (envKeys envs' = envKeys envs
      \/ (~ In (SetEnvTool.Key inp) (envKeys envs)
          /\ envKeys envs' = (envKeys envs ++ [SetEnvTool.Key inp])%list))
  /\ (NoDup (envKeys envs) -> NoDup (envKeys envs')).
Proof.
  intros envs'. subst envs'.
  destruct (set_env_run h envs inp)
    as [(_ & e & E & _) | (Hbad & out' & E & _)]; rewrite E; cbn [snd].
  { split; [reflexivity|]. split; [now left | auto]. }
  apply accepted_key in Hbad as [Hne Hk].
  split; [intros k Hkk; now apply replaceEntry_other|].
  rewrite envKeys_replaceEntry by assumption.
  destruct (existsb (String.eqb (SetEnvTool.Key inp)) (envKeys envs)) eqn:Hex.
  - split; [now left | auto].
  - assert (Hnot : ~ In (SetEnvTool.Key inp) (envKeys envs)).
    { intros Hin. apply existsb_eqb_In in Hin. congruence. }
    split; [right; auto|]. intros Hnd. now apply NoDup_snoc.
Qed.

Lemma set_env_touches_one_variable_witness :
  Os.LookupEnv
    (snd (SetEnvTool.Execute plainHost ["PATH=/bin"; "HOME=/root"]
            {| SetEnvTool.Key := "HOME"; SetEnvTool.Value := "/tmp" |}))
    "PATH"
  = Some "/bin".
Proof.
  destruct (set_env_touches_one_variable plainHost ["PATH=/bin"; "HOME=/root"]
              {| SetEnvTool.Key := "HOME"; SetEnvTool.Value := "/tmp" |})
    as [Hframe _].
  rewrite (Hframe "PATH"); [reflexivity | discriminate].
Defined.


(** X10: of two set_env calls for one key, the second being accepted, the
    environment afterwards is what the second call alone would have left:
    the last write wins and no second entry for the key is added. *)
Theorem set_env_last_write_wins (h : Host) (envs : list string)
  (key v1 v2 : string) (out : SetEnvTool.Output) :
  let first := {| SetEnvTool.Key := key; SetEnvTool.Value := v1 |} in
  let second := {| SetEnvTool.Key := key; SetEnvTool.Value := v2 |} in
  result (fst (SetEnvTool.Execute h envs second)) = inr out ->
  SetEnvTool.Execute h (snd (SetEnvTool.Execute h envs first)) second
  = (fst (SetEnvTool.Execute h envs second),
     snd (SetEnvTool.Execute h envs second))
  /\ Os.LookupEnv (snd (SetEnvTool.Execute h
                          (snd (SetEnvTool.Execute h envs first)) second)) key
     = Some v2.
Proof.
  intros first second Hok. subst first second.
  destruct (set_env_run h envs {| SetEnvTool.Key := key; SetEnvTool.Value := v2 |})
    as [(_ & e & E2 & _) | (Hbad2 & out2 & E2 & _)];
    cbn [SetEnvTool.Key SetEnvTool.Value] in *;
    rewrite E2 in Hok; [discriminate|].
  pose proof (accepted_key _ _ Hbad2) as [Hne Hk].
  set (envs1 := snd (SetEnvTool.Execute h envs
                       {| SetEnvTool.Key := key; SetEnvTool.Value := v1 |})).
  destruct (set_env_run h envs1 {| SetEnvTool.Key := key; SetEnvTool.Value := v2 |})
    as [(Hbad & _) | (_ & out3 & E3 & _)];
    cbn [SetEnvTool.Key SetEnvTool.Value] in *; [congruence|].
  assert (Hsame : Os.replaceEntry envs1 key (key ++ "=" ++ v2)
                  = Os.replaceEntry envs key (key ++ "=" ++ v2)).
  { subst envs1.
    destruct (set_env_run h envs {| SetEnvTool.Key := key; SetEnvTool.Value := v1 |})
      as [(_ & e & E1 & _) | (_ & out1 & E1 & _)];
      cbn [SetEnvTool.Key SetEnvTool.Value] in *; rewrite E1; cbn [snd];
      [reflexivity | now apply replaceEntry_twice]. }
  assert (Hout : out3 = out2).
  { unfold SetEnvTool.Execute in E2, E3. cbn [SetEnvTool.Key SetEnvTool.Value] in *.
    destruct (String.eqb key ""); [discriminate|].
    destruct (isSensitiveEnvKey h key);
      destruct (Os.Setenv envs key v2); destruct (Os.Setenv envs1 key v2);
      try discriminate; congruence. }
  subst out3. rewrite E3, E2. cbn [fst snd]. rewrite Hsame.
  split; [reflexivity | now apply replaceEntry_same].
Qed.

Lemma set_env_last_write_wins_witness :
  snd (SetEnvTool.Execute plainHost
         (snd (SetEnvTool.Execute plainHost ["PATH=/bin"]
                 {| SetEnvTool.Key := "MODE"; SetEnvTool.Value := "fast" |}))
         {| SetEnvTool.Key := "MODE"; SetEnvTool.Value := "safe" |})
  = ["PATH=/bin"; "MODE=safe"].
Proof.
  assert (Hok : result (fst (SetEnvTool.Execute plainHost ["PATH=/bin"]
                  {| SetEnvTool.Key := "MODE"; SetEnvTool.Value := "safe" |}))
                = inr {| SetEnvTool.Success := true; SetEnvTool.Message := "" |})
    by (vm_compute; reflexivity).
  destruct (set_env_last_write_wins plainHost ["PATH=/bin"] "MODE" "fast" "safe"
              _ Hok) as [E _].
  rewrite E. reflexivity.
Defined.


(** ** which *)

Section Lines.

Lemma substring_all (n : nat) (s : string) :
  (String.length s <= n)%nat -> substring 0 n s = s.
Proof.
  revert n. induction s as [|a s IH]; intros n Hn.
  - destruct n; reflexivity.
  - destruct n as [|n]; simpl in *; [lia|]. rewrite IH by lia. reflexivity.
Qed.

Lemma length_prefix (n : nat) (s : string) :
  (String.length (substring 0 n s) <= n)%nat.
Proof.
  revert n. induction s as [|a s IH]; intros n.
  - destruct n; simpl; lia.
  - destruct n as [|n]; simpl; [lia|]. specialize (IH n). lia.
Qed.

Lemma prefix_nonempty (n : nat) (s : string) :
  s <> "" -> substring 0 (S n) s <> "".
Proof. destruct s; [contradiction | discriminate]. Qed.

Lemma hasByte_nil (a : ascii) : Os.hasByte a "" = false.
Proof. reflexivity. Qed.

Lemma hasByte_app (a : ascii) (s t : string) :
  Os.hasByte a (s ++ t) = Os.hasByte a s || Os.hasByte a t.
Proof.
  induction s as [|b s IH]; [reflexivity|].
  change (String b s ++ t) with (String b (s ++ t)).
  rewrite !hasByte_cons, IH. apply orb_assoc.
Qed.

Lemma hasByte_prefix (a : ascii) (n : nat) (s : string) :
  Os.hasByte a s = false -> Os.hasByte a (substring 0 n s) = false.
Proof.
  revert n. induction s as [|b s IH]; intros n H.
  - destruct n; reflexivity.
  - destruct n as [|n]; [reflexivity|].
    change (substring 0 (S n) (String b s)) with (String b (substring 0 n s)).
    rewrite hasByte_cons in *. apply orb_false_iff in H as [Hb Hs].
    now rewrite Hb, IH.
Qed.

Lemma hasByte_rev_append (a : ascii) (s acc : string) :
  Os.hasByte a (Strings.rev_append s acc) = Os.hasByte a s || Os.hasByte a acc.
Proof.
  revert acc. induction s as [|b s IH]; intros acc; [reflexivity|].
  cbn [Strings.rev_append]. rewrite IH, !hasByte_cons.
  destruct (Ascii.eqb a b), (Os.hasByte a s), (Os.hasByte a acc); reflexivity.
Qed.

Lemma hasByte_rev (a : ascii) (s : string) :
  Os.hasByte a (Strings.rev s) = Os.hasByte a s.
Proof.
  unfold Strings.rev. rewrite hasByte_rev_append, hasByte_nil.
  apply orb_false_r.
Qed.

Lemma TrimLeft_suffix (n : nat) (s : string) :
  (String.length s <= n)%nat -> exists pre, s = pre ++ Strings.TrimLeft s.
Proof.
  revert s. induction n as [|n IH]; intros s Hs.
  { destruct s; [exists ""; reflexivity | simpl in Hs; lia]. }
  destruct s as [|a s1]; [exists ""; reflexivity|].
  cbn [Strings.TrimLeft]. destruct (Strings.asciiSpace a).
  { destruct (IH s1) as [pre E]; [simpl in Hs; lia|].
    exists (String a pre). simpl. now rewrite <- E. }
  destruct s1 as [|b s2]; [exists ""; reflexivity|].
  destruct (Strings.space2 a b).
  { destruct (IH s2) as [pre E]; [simpl in Hs; lia|].
    exists (String a (String b pre)). simpl. now rewrite <- E. }
  destruct s2 as [|c s3]; [exists ""; reflexivity|].
  destruct (Strings.space3 a b c); [|exists ""; reflexivity].
  destruct (IH s3) as [pre E]; [simpl in Hs; lia|].
  exists (String a (String b (String c pre))). simpl. now rewrite <- E.
Qed.

Lemma TrimLeftRev_suffix (n : nat) (s : string) :
  (String.length s <= n)%nat -> exists pre, s = pre ++ Strings.TrimLeftRev s.
Proof.
  revert s. induction n as [|n IH]; intros s Hs.
  { destruct s; [exists ""; reflexivity | simpl in Hs; lia]. }
  destruct s as [|a s1]; [exists ""; reflexivity|].
  cbn [Strings.TrimLeftRev]. destruct (Strings.asciiSpace a).
  { destruct (IH s1) as [pre E]; [simpl in Hs; lia|].
    exists (String a pre). simpl. now rewrite <- E. }
  destruct s1 as [|b s2]; [exists ""; reflexivity|].
  destruct (Strings.space2 b a).
  { destruct (IH s2) as [pre E]; [simpl in Hs; lia|].
    exists (String a (String b pre)). simpl. now rewrite <- E. }
  destruct s2 as [|c s3]; [exists ""; reflexivity|].
  destruct (Strings.space3 c b a); [|exists ""; reflexivity].
  destruct (IH s3) as [pre E]; [simpl in Hs; lia|].
  exists (String a (String b (String c pre))). simpl. now rewrite <- E.
Qed.

(** Trimming adds no byte. *)
Lemma hasByte_TrimSpace (a : ascii) (s : string) :
  Os.hasByte a s = false -> Os.hasByte a (Strings.TrimSpace s) = false.
Proof.
  intros H. unfold Strings.TrimSpace. rewrite hasByte_rev.
  destruct (TrimLeft_suffix _ s (Nat.le_refl _)) as [pre E].
  rewrite E, hasByte_app in H. apply orb_false_iff in H as [_ H].
  rewrite <- hasByte_rev in H.
  destruct (TrimLeftRev_suffix _ (Strings.rev (Strings.TrimLeft s))
              (Nat.le_refl _)) as [pre' E'].
  rewrite E', hasByte_app in H. now apply orb_false_iff in H as [_ H].
Qed.

(** A piece between separators holds no separator. *)
Lemma Split_no_sep (s : string) (sep : ascii) (piece : string) :
  In piece (Strings.Split s sep) -> Os.hasByte sep piece = false.
Proof.
  revert piece. induction s as [|a s IH]; intros piece.
  - simpl. intros [<-|[]]. reflexivity.
  - cbn [Strings.Split]. destruct (Ascii.eqb_spec a sep) as [->|Hne].
    + intros [<-|Hin]; [reflexivity | now apply IH].
    + destruct (Strings.Split s sep) as [|p rest].
      * intros [<-|[]]. rewrite hasByte_cons, hasByte_nil, orb_false_r.
        apply Ascii.eqb_neq. congruence.
      * intros [<-|Hin].
        -- rewrite hasByte_cons, (IH p (or_introl eq_refl)), orb_false_r.
           apply Ascii.eqb_neq. congruence.
        -- apply IH. now right.
Qed.

Lemma cap_prefix (line : string) :
  (if Nat.ltb 200 (String.length line) then substring 0 200 line else line)
  = substring 0 200 line.
Proof.
  destruct (Nat.ltb_spec 200 (String.length line)); [reflexivity|].
  symmetry. now apply substring_all.
Qed.

Lemma firstLine_None (lines : list string) :
  WhichTool.firstLine lines = None <->
  forall line, In line lines -> Strings.TrimSpace line = "".
Proof.
  induction lines as [|raw lines IH]; cbn [WhichTool.firstLine].
  - split; [intros _ line [] | reflexivity].
  - destruct (String.eqb_spec (Strings.TrimSpace raw) "") as [E|Hne].
    + rewrite IH. split.
      * intros H line [<-|Hin]; auto.
      * intros H line Hin. apply H. now right.
    + split; [discriminate|]. intros H. exfalso. apply Hne, H. now left.
Qed.

Lemma firstLine_Some (lines : list string) (v : string) :
  WhichTool.firstLine lines = Some v ->
  exists before raw after,
    lines = (before ++ raw :: after)%list
    /\ (forall line, In line before -> Strings.TrimSpace line = "")
    /\ Strings.TrimSpace raw <> ""
    /\ v = substring 0 200 (Strings.TrimSpace raw).
Proof.
  induction lines as [|raw lines IH]; cbn [WhichTool.firstLine]; [discriminate|].
  destruct (String.eqb_spec (Strings.TrimSpace raw) "") as [E|Hne].
  - intros H. destruct (IH H) as (before & raw' & after & -> & Hb & Hr & Hv).
    exists (raw :: before), raw', after. split; [reflexivity|].
    split; [|auto]. intros line [<-|Hin]; auto.
  - rewrite cap_prefix. intros H. injection H as <-.
    exists [], raw, lines. split; [reflexivity|]. split; [intros line []|auto].
Qed.

(** The loop over the flags: no flag answers and all were tried, or the
    first one that answers was the last one tried. *)
Lemma tryFlags_run (co : WhichTool.Prober) (path : string) (flags : list string) :
  ((forall flag, In flag flags -> useless co path flag)
   /\ WhichTool.tryFlags co path flags = (probes path flags, ""))
  \/ exists init flag rest v,
       flags = (init ++ flag :: rest)%list
       /\ (forall f, In f init -> useless co path f)
       /\ snd (co (WhichTool.probe path flag)) = Exec.Nil
       /\ versionIn (fst (co (WhichTool.probe path flag))) v
       /\ WhichTool.tryFlags co path flags
          = (probes path (init ++ [flag]), v).
Proof.
  induction flags as [|flag flags IH].
  { left. split; [intros flag [] | reflexivity]. }
  assert (Hskip : useless co path flag ->
            WhichTool.tryFlags co path (flag :: flags)
            = (ESpawn (WhichTool.probe path flag)
                 :: fst (WhichTool.tryFlags co path flags),
               snd (WhichTool.tryFlags co path flags)) ->
            ((forall f, In f (flag :: flags) -> useless co path f)
             /\ WhichTool.tryFlags co path (flag :: flags)
                = (probes path (flag :: flags), ""))
            \/ exists init flag' rest v,
                 (flag :: flags) = (init ++ flag' :: rest)%list
                 /\ (forall f, In f init -> useless co path f)
                 /\ snd (co (WhichTool.probe path flag')) = Exec.Nil
                 /\ versionIn (fst (co (WhichTool.probe path flag'))) v
                 /\ WhichTool.tryFlags co path (flag :: flags)
                    = (probes path (init ++ [flag']), v)).
  { intros Hu E. rewrite E.
    destruct IH as [[Hall Et] | (init & flag' & rest & v & -> & Hinit & Hnil & Hv & Et)];
      rewrite Et; cbn [fst snd].
    - left. split; [|reflexivity]. intros f [<-|Hin]; auto.
    - right. exists (flag :: init), flag', rest, v.
      split; [reflexivity|]. split; [intros f [<-|Hin]; auto|].
      split; [assumption|]. split; [assumption | reflexivity]. }
  cbn [WhichTool.tryFlags] in *.
  destruct (co (WhichTool.probe path flag)) as [output err] eqn:Eco.
  destruct output as [|b output].
  { apply Hskip; [|reflexivity]. right. unfold useless, blank. rewrite Eco.
    intros line [<-|[]]. reflexivity. }
  destruct err as [|code|msg];
    try (apply Hskip; [left; unfold useless; rewrite Eco; discriminate
                      | reflexivity]).
  destruct (WhichTool.firstLine _) as [line|] eqn:Eline.
  - right. exists [], flag, flags, line. split; [reflexivity|].
    split; [intros f []|]. rewrite Eco. split; [reflexivity|].
    split; [|reflexivity]. now apply firstLine_Some.
  - apply Hskip; [|reflexivity]. right. unfold useless, blank. rewrite Eco.
    now apply firstLine_None.
Qed.

Lemma versionIn_shape (output : list Byte.byte) (v : string) :
  versionIn output v ->
  v <> "" /\ (String.length v <= 200)%nat /\ Os.hasByte "010" v = false.
Proof.
  intros (before & raw & after & E & _ & Hne & ->).
  split; [now apply prefix_nonempty|]. split; [apply length_prefix|].
  apply hasByte_prefix, hasByte_TrimSpace.
  apply (Split_no_sep (string_of_list_byte output)).
  rewrite E. apply in_or_app. right. now left.
Qed.

Lemma versionIn_not_blank (output : list Byte.byte) (v : string) :
  versionIn output v -> ~ blank output.
Proof.
  intros (before & raw & after & E & _ & Hne & _) Hb. apply Hne, Hb.
  rewrite E. apply in_or_app. right. now left.
Qed.

End Lines.

(** X12: [detectVersion] runs the binary with the version flags in their
    order, each in the caller's directory and environment under a deadline
    of three seconds, and stops at the first run that succeeds and prints
    a line that is not blank: the version is that line, trimmed and cut to
    200 bytes.  When no flag gives an answer all four have been tried and
    the version is empty. *)
Theorem version_probes_stop_at_the_first_answer
  (co : WhichTool.Prober) (path name : string) :
  ((forall flag, In flag WhichTool.versionFlags -> useless co path flag)
   /\ WhichTool.detectVersion co path name
      = (probes path ["--version"; "-version"; "version"; "-V"], ""))
  \/ exists init flag rest v,
       WhichTool.versionFlags = (init ++ flag :: rest)%list
       /\ (forall f, In f init -> useless co path f)
       /\ snd (co (plainCmd path [flag] 3000000000)) = Exec.Nil
       /\ versionIn (fst (co (plainCmd path [flag] 3000000000))) v
       /\ WhichTool.detectVersion co path name
          = (probes path (init ++ [flag]), v).
Proof.
  unfold WhichTool.detectVersion.
  destruct (tryFlags_run co path WhichTool.versionFlags)
    as [[Hall E] | (init & flag & rest & v & Hf & Hinit & Hnil & Hv & E)].
  - left. split; [exact Hall | exact E].
  - right. exists init, flag, rest, v. auto.
Qed.

Lemma version_probes_stop_at_the_first_answer_witness :
  WhichTool.detectVersion goProber "/usr/local/go/bin/go" "go"
  = (probes "/usr/local/go/bin/go" ["--version"; "-version"; "version"],
     "go version go1.22.1 linux/amd64").
Proof.
  destruct (version_probes_stop_at_the_first_answer goProber
              "/usr/local/go/bin/go" "go")
    as [[_ E] | (init & flag & rest & v & _ & _ & _ & _ & _)].
  - vm_compute in E. discriminate.
  - vm_compute. reflexivity.
Defined.

(** X13: the version [detectVersion] returns has at most 200 bytes and no
    line feed; it is empty exactly when no version flag gives an answer;
    and the binary has been run at least once and at most four times. *)
Theorem detected_version_is_one_short_line
  (co : WhichTool.Prober) (path name : string) :
  let v := snd (WhichTool.detectVersion co path name) in
  let runs := spawns (fst (WhichTool.detectVersion co path name)) in
  (String.length v <= 200)%nat
  /\ Os.hasByte "010" v = false
  /\ (v = "" <->
      forall flag, In flag WhichTool.versionFlags -> useless co path flag)
  /\ (1 <= length runs <= 4)%nat
  /\ (forall c, In c runs -> Exec.Path c = path).
Proof.
  intros v runs. subst v runs. unfold WhichTool.detectVersion.
  assert (Hruns : forall flags,
            spawns (probes path flags) = map (WhichTool.probe path) flags).
  { induction flags as [|f flags IH]; simpl; [reflexivity | now rewrite IH]. }
  assert (Hpath : forall flags c,
            In c (map (WhichTool.probe path) flags) -> Exec.Path c = path).
  { intros flags c Hc. apply in_map_iff in Hc as (f & <- & _). reflexivity. }
  destruct (tryFlags_run co path WhichTool.versionFlags)
    as [[Hall E] | (init & flag & rest & v & Hf & Hinit & Hnil & Hv & E)];
    rewrite E; cbn [fst snd]; rewrite Hruns.
  - split; [simpl; lia|]. split; [reflexivity|].
    split; [split; auto|]. split; [simpl; lia | apply Hpath].
  - destruct (versionIn_shape _ _ Hv) as (Hne & Hlen & Hnl).
    split; [exact Hlen|]. split; [exact Hnl|]. split; [|split; [|apply Hpath]].
    + split; [contradiction|]. intros Hall. exfalso.
      destruct (Hall flag) as [Herr | Hblank].
      * rewrite Hf. apply in_or_app. right. now left.
      * contradiction.
      * now apply (versionIn_not_blank _ _ Hv).
    + apply (f_equal (@length string)) in Hf.
      rewrite length_app in Hf. rewrite length_map, length_app. simpl in *. lia.
Qed.

Lemma detected_version_is_one_short_line_witness :
  (String.length
     (snd (WhichTool.detectVersion goProber "/usr/local/go/bin/go" "go"))
   <= 200)%nat
  /\ snd (WhichTool.detectVersion goProber "/usr/local/go/bin/go" "go") <> "".
Proof.
  destruct (detected_version_is_one_short_line goProber
              "/usr/local/go/bin/go" "go") as (Hlen & _).
  split; [exact Hlen | vm_compute; discriminate].
Defined.



(** ** What the deny list lets pass *)

Section Passing.

Lemma run_Chr_inv (c : cset) p s (x : pos) :
  In x (run (Chr c) p s) ->
  exists a u, s = String a u /\ cmem c a = true /\ x = (Some a, u).
Proof.
  simpl. destruct s as [|a s]; [intros []|].
  destruct (cmem c a) eqn:Hc; [|intros []].
  intros [<-|[]]. eauto.
Qed.

Lemma run_Lit_inv (w : string) p s (x : pos) :
  w <> "" -> In x (run (Lit w) p s) ->
  exists u, s = w ++ u /\ x = (lastOr p w, u).
Proof.
  revert p s. induction w as [|a w IH]; intros p s Hw; [contradiction|].
  destruct w as [|b w].
  - intros H. apply run_Chr_inv in H as (a' & u & -> & Hc & ->).
    simpl in Hc. apply Ascii.eqb_eq in Hc as ->. exists u. auto.
  - change (Lit (String a (String b w)))
      with (Cat (Chr (CByte a)) (Lit (String b w))).
    intros H. apply in_run_Cat in H as (q & Hq & H).
    apply run_Chr_inv in Hq as (a' & u & -> & Hc & ->).
    simpl in Hc. apply Ascii.eqb_eq in Hc as ->. cbn [fst snd] in H.
    apply IH in H as (u' & -> & ->); [|discriminate]. exists u'. auto.
Qed.

Lemma run_Plus_inv (c : cset) p s (x : pos) :
  In x (run (Plus c) p s) ->
  exists w u, w <> "" /\ allOf c w = true /\ s = w ++ u /\ x = (lastOr p w, u).
Proof.
  simpl. destruct s as [|a s]; [intros []|].
  destruct (cmem c a) eqn:Hc; [|intros []].
  intros H. apply in_stars in H as (w & u & -> & Hw & ->).
  exists (String a w), u. simpl. rewrite Hc, Hw. repeat split; discriminate.
Qed.

Lemma run_Star_inv (c : cset) p s (x : pos) :
  In x (run (Star c) p s) ->
  exists w u, allOf c w = true /\ s = w ++ u /\ x = (lastOr p w, u).
Proof.
  intros H. apply in_stars in H as (w & u & -> & Hw & ->). eauto.
Qed.

Lemma run_WordB_inv p s (x : pos) :
  In x (run WordB p s) ->
  x = (p, s) /\ xorb (isWord p) (isWord (peek s)) = true.
Proof.
  simpl. destruct (xorb _ _); [|intros []]. intros [<-|[]]. auto.
Qed.

Lemma run_EndText_inv p s (x : pos) :
  In x (run EndText p s) -> s = "" /\ x = (p, "").
Proof. simpl. destruct s; [|intros []]. intros [<-|[]]. auto. Qed.

(** A search that succeeds has a match starting somewhere in the text. *)
Lemma search_inv (r : re) p s :
  search r p s = true ->
  exists pre s' x, s = pre ++ s' /\ In x (run r (lastOr p pre) s').
Proof.
  revert p. induction s as [|a s IH]; intros p; simpl.
  - rewrite orb_false_r. intros H. apply matchesHere_true in H as [x Hx].
    exists "", "", x. auto.
  - intros H. apply orb_true_iff in H as [H|H].
    + apply matchesHere_true in H as [x Hx]. exists "", (String a s), x. auto.
    + apply IH in H as (pre & s' & x & -> & Hx).
      exists (String a pre), s', x. auto.
Qed.


Lemma not_word_before (p : option ascii) (a : ascii) (u : string) :
  isWordByte a = true ->
  xorb (isWord p) (isWord (peek (String a u))) = true -> isWord p = false.
Proof. simpl. intros ->. now destruct (isWord p). Qed.

Lemma not_word_after (a : ascii) (u : string) :
  isWordByte a = true ->
  xorb (isWord (Some a)) (isWord (peek u)) = true -> isWord (peek u) = false.
Proof. simpl. intros ->. now destruct (isWord (peek u)). Qed.

End Passing.

(** The next factor of a concatenation, read back from a match. *)
Ltac unfactor H lem pat :=
  let q := fresh "q" in
  let Hq := fresh "Hq" in
  apply in_run_Cat in H as (q & Hq & H);
  apply lem in Hq as pat; cbn [fst snd] in H.

Section PassingPatterns.

Lemma matched_rm_root (line : string) :
  MatchString pat_rm_root line = true ->
  exists pre ws1 ws2 ws3,
    line = pre ++ "rm" ++ ws1 ++ "-rf" ++ ws2 ++ "/" ++ ws3
    /\ isWord (lastOr None pre) = false
    /\ ws1 <> "" /\ allOf CSpace ws1 = true
    /\ ws2 <> "" /\ allOf CSpace ws2 = true
    /\ allOf CSpace ws3 = true.
Proof.
  intros H. apply search_inv in H as (pre & s' & x & -> & H).
  simpl prog in H. unfold re_rm_root in H. cbn [seq] in H.
  unfactor H run_WordB_inv ipattern:([-> Hb]).
  unfactor H run_Lit_inv ipattern:((u1 & -> & ->)); [|discriminate].
  unfactor H run_Plus_inv ipattern:((ws1 & u2 & Hn1 & Hw1 & -> & ->)).
  unfactor H run_Lit_inv ipattern:((u3 & -> & ->)); [|discriminate].
  unfactor H run_Plus_inv ipattern:((ws2 & u4 & Hn2 & Hw2 & -> & ->)).
  unfactor H run_Lit_inv ipattern:((u5 & -> & ->)); [|discriminate].
  unfactor H run_Star_inv ipattern:((ws3 & u6 & Hw3 & -> & ->)).
  apply run_EndText_inv in H as [-> _].
  exists pre, ws1, ws2, ws3. rewrite append_nil_r.
  split; [reflexivity|]. split; [now apply not_word_before in Hb | auto 6].
Qed.

Lemma matched_mkfs (line : string) :
  MatchString pat_mkfs line = true ->
  exists pre post, line = pre ++ "mkfs" ++ post
    /\ isWord (lastOr None pre) = false /\ isWord (peek post) = false.
Proof.
  intros H. apply search_inv in H as (pre & s' & x & -> & H).
  simpl prog in H. unfold re_mkfs in H. cbn [seq] in H.
  unfactor H run_WordB_inv ipattern:([-> Hb]).
  unfactor H run_Lit_inv ipattern:((post & -> & ->)); [|discriminate].
  apply run_WordB_inv in H as [_ Ha].
  exists pre, post. split; [reflexivity|]. split.
  - now apply not_word_before in Hb.
  - now apply not_word_after in Ha.
Qed.

Lemma matched_dd (line : string) :
  MatchString pat_dd line = true ->
  exists pre ws mid post,
    line = pre ++ "dd" ++ ws ++ mid ++ "of=/dev/" ++ post
    /\ isWord (lastOr None pre) = false
    /\ ws <> "" /\ allOf CSpace ws = true /\ allOf CAny mid = true.
Proof.
  intros H. apply search_inv in H as (pre & s' & x & -> & H).
  simpl prog in H. unfold re_dd in H. cbn [seq] in H.
  unfactor H run_WordB_inv ipattern:([-> Hb]).
  unfactor H run_Lit_inv ipattern:((u1 & -> & ->)); [|discriminate].
  unfactor H run_Plus_inv ipattern:((ws & u2 & Hn & Hw & -> & ->)).
  unfactor H run_Star_inv ipattern:((mid & u3 & Hmid & -> & ->)).
  apply run_Lit_inv in H as (post & -> & _); [|discriminate].
  exists pre, ws, mid, post.
  split; [reflexivity|]. split; [now apply not_word_before in Hb | auto].
Qed.

Lemma matched_redirect (line : string) :
  MatchString pat_redirect line = true ->
  exists pre ws c post,
    line = pre ++ ">" ++ ws ++ "/dev/sd" ++ String c post
    /\ allOf CSpace ws = true /\ cmem (CRange "a" "z") c = true.
Proof.
  intros H. apply search_inv in H as (pre & s' & x & -> & H).
  simpl prog in H. unfold re_redirect in H. cbn [seq] in H.
  unfactor H run_Lit_inv ipattern:((u1 & -> & ->)); [|discriminate].
  unfactor H run_Star_inv ipattern:((ws & u2 & Hw & -> & ->)).
  unfactor H run_Lit_inv ipattern:((u3 & -> & ->)); [|discriminate].
  apply run_Chr_inv in H as (c & post & -> & Hc & _).
  exists pre, ws, c, post. auto.
Qed.

Lemma matched_fork (line : string) :
  MatchString pat_fork line = true ->
  (exists pre post, line = pre ++ ":{ :" ++ post
                    /\ isWord (lastOr None pre) = true)
  \/ (exists pre post, line = pre ++ ":& };:" ++ post).
Proof.
  intros H. apply search_inv in H as (pre & s' & x & -> & H).
  simpl prog in H. unfold re_fork in H. cbn [run] in H.
  apply in_app_or in H as [H|H].
  - left. cbn [seq] in H.
    unfactor H run_WordB_inv ipattern:([-> Hb]).
    unfactor H run_Lit_inv ipattern:((u1 & -> & ->)); [|discriminate].
    apply in_run_Cat in H as (q & Hq & H). cbn [run] in Hq.
    destruct Hq as [<-|[]]. cbn [fst snd] in H.
    apply run_Lit_inv in H as (post & -> & _); [|discriminate].
    exists pre, post. split; [reflexivity|].
    simpl in Hb. now destruct (isWord (lastOr None pre)).
  - right. apply run_Lit_inv in H as (post & -> & _); [|discriminate].
    exists pre, post. reflexivity.
Qed.

Lemma matched_shutdown (line : string) :
  MatchString pat_shutdown line = true ->
  exists pre post, line = pre ++ "shutdown" ++ post
    /\ isWord (lastOr None pre) = false /\ isWord (peek post) = false.
Proof.
  intros H. apply search_inv in H as (pre & s' & x & -> & H).
  simpl prog in H. unfold re_shutdown in H. cbn [seq] in H.
  unfactor H run_WordB_inv ipattern:([-> Hb]).
  unfactor H run_Lit_inv ipattern:((post & -> & ->)); [|discriminate].
  apply run_WordB_inv in H as [_ Ha].
  exists pre, post. split; [reflexivity|]. split.
  - now apply not_word_before in Hb.
  - now apply not_word_after in Ha.
Qed.

Lemma matched_reboot (line : string) :
  MatchString pat_reboot line = true ->
  exists pre post, line = pre ++ "reboot" ++ post
    /\ isWord (lastOr None pre) = false /\ isWord (peek post) = false.
Proof.
  intros H. apply search_inv in H as (pre & s' & x & -> & H).
  simpl prog in H. unfold re_reboot in H. cbn [seq] in H.
  unfactor H run_WordB_inv ipattern:([-> Hb]).
  unfactor H run_Lit_inv ipattern:((post & -> & ->)); [|discriminate].
  apply run_WordB_inv in H as [_ Ha].
  exists pre, post. split; [reflexivity|]. split.
  - now apply not_word_before in Hb.
  - now apply not_word_after in Ha.
Qed.

Lemma matched_systemctl (line : string) :
  MatchString pat_systemctl line = true ->
  exists pre ws verb post,
    line = pre ++ "systemctl" ++ ws ++ verb ++ post
    /\ isWord (lastOr None pre) = false
    /\ ws <> "" /\ allOf CSpace ws = true
    /\ In verb ["start"; "stop"; "disable"; "enable"; "mask"]
    /\ isWord (peek post) = false.
Proof.
  intros H. apply search_inv in H as (pre & s' & x & -> & H).
  simpl prog in H. unfold re_systemctl in H. cbn [seq] in H.
  unfactor H run_WordB_inv ipattern:([-> Hb]).
  unfactor H run_Lit_inv ipattern:((u1 & -> & ->)); [|discriminate].
  unfactor H run_Plus_inv ipattern:((ws & u2 & Hn & Hw & -> & ->)).
  apply in_run_Cat in H as (q & Hq & H). cbn [run] in Hq.
  apply not_word_before in Hb; [|reflexivity].
  repeat (apply in_app_or in Hq as [Hq|Hq]);
    (apply run_Lit_inv in Hq as (post & -> & ->); [|discriminate]);
    cbn [fst snd] in H; apply run_WordB_inv in H as [_ Ha];
    apply not_word_after in Ha; try reflexivity;
    [exists pre, ws, "start", post | exists pre, ws, "stop", post
    | exists pre, ws, "disable", post | exists pre, ws, "enable", post
    | exists pre, ws, "mask", post];
    (split; [reflexivity|]); simpl; auto 10.
Qed.

End PassingPatterns.

(** X15: the deny list blocks a line only when the line has the shape of
    the pattern it reports: [rm], blanks, [-rf], blanks and a [/] with
    nothing but blanks up to the end; the word [mkfs], [shutdown] or
    [reboot]; [dd], blanks and [of=/dev/] later on the same line; [>],
    blanks or none, [/dev/sd] and a lower-case letter; [systemctl],
    blanks and one of its five verbs; and for the fork-bomb pattern
    either [:& };:] anywhere or [:{ :] right after a word byte. *)
Theorem deny_list_blocks_only (line pattern : string) :
  isDenied line = (true, pattern) ->
  (pattern = "\brm\s+-rf\s+/\s*$"
   /\ exists pre ws1 ws2 ws3,
        line = pre ++ "rm" ++ ws1 ++ "-rf" ++ ws2 ++ "/" ++ ws3
        /\ isWord (lastOr None pre) = false
        /\ ws1 <> "" /\ allOf CSpace ws1 = true
        /\ ws2 <> "" /\ allOf CSpace ws2 = true
        /\ allOf CSpace ws3 = true)
  \/ (pattern = "\bmkfs\b"
      /\ exists pre post, line = pre ++ "mkfs" ++ post
           /\ isWord (lastOr None pre) = false /\ isWord (peek post) = false)
  \/ (pattern = "\bdd\s+.*of=/dev/"
      /\ exists pre ws mid post,
           line = pre ++ "dd" ++ ws ++ mid ++ "of=/dev/" ++ post
           /\ isWord (lastOr None pre) = false
           /\ ws <> "" /\ allOf CSpace ws = true /\ allOf CAny mid = true)
  \/ (pattern = ">\s*/dev/sd[a-z]"
      /\ exists pre ws c post,
           line = pre ++ ">" ++ ws ++ "/dev/sd" ++ String c post
           /\ allOf CSpace ws = true /\ cmem (CRange "a" "z") c = true)
  \/ (pattern = "\b:(){ :|:& };:"
      /\ ((exists pre post, line = pre ++ ":{ :" ++ post
                            /\ isWord (lastOr None pre) = true)
          \/ (exists pre post, line = pre ++ ":& };:" ++ post)))
  \/ (pattern = "\bshutdown\b"
      /\ exists pre post, line = pre ++ "shutdown" ++ post
           /\ isWord (lastOr None pre) = false /\ isWord (peek post) = false)
  \/ (pattern = "\breboot\b"
      /\ exists pre post, line = pre ++ "reboot" ++ post
           /\ isWord (lastOr None pre) = false /\ isWord (peek post) = false)
  \/ (pattern = "\bsystemctl\s+(start|stop|disable|enable|mask)\b"
      /\ exists pre ws verb post,
           line = pre ++ "systemctl" ++ ws ++ verb ++ post
           /\ isWord (lastOr None pre) = false
           /\ ws <> "" /\ allOf CSpace ws = true
           /\ In verb ["start"; "stop"; "disable"; "enable"; "mask"]
           /\ isWord (peek post) = false).
Proof.
  intros H. apply firstMatch_true in H as (rule & Hin & <- & Hm).
  simpl in Hin.
  destruct Hin as [<-|[<-|[<-|[<-|[<-|[<-|[<-|[<-|[]]]]]]]]].
  - left. split; [reflexivity | now apply matched_rm_root].
  - right; left. split; [reflexivity | now apply matched_mkfs].
  - do 2 right; left. split; [reflexivity | now apply matched_dd].
  - do 3 right; left. split; [reflexivity | now apply matched_redirect].
  - do 4 right; left. split; [reflexivity | now apply matched_fork].
  - do 5 right; left. split; [reflexivity | now apply matched_shutdown].
  - do 6 right; left. split; [reflexivity | now apply matched_reboot].
  - do 7 right. split; [reflexivity | now apply matched_systemctl].
Qed.

Lemma deny_list_blocks_only_witness :
  isDenied "echo a:{ :" = (true, "\b:(){ :|:& };:")
  /\ ((exists pre post, "echo a:{ :" = pre ++ ":{ :" ++ post
                        /\ isWord (lastOr None pre) = true)
      \/ (exists pre post, "echo a:{ :" = pre ++ ":& };:" ++ post)).
Proof.
  assert (Hd : isDenied "echo a:{ :" = (true, "\b:(){ :|:& };:"))
    by (vm_compute; reflexivity).
  split; [exact Hd|].
  destruct (deny_list_blocks_only _ _ Hd)
    as [[E _]|[[E _]|[[E _]|[[E _]|[[_ Hs]|[[E _]|[[E _]|[E _]]]]]]]];
    try discriminate.
  exact Hs.
Defined.

(** ** set_env and the commands run afterwards *)

Section Inherited.

Lemma append_inv_head (s t u : string) : s ++ t = s ++ u -> t = u.
Proof.
  induction s as [|a s IH]; simpl; [auto|]. intros E. injection E as E. auto.
Qed.

Lemma entry_key_in (l : list string) (k v : string) :
  Os.hasByte "=" k = false -> In (k ++ "=" ++ v) l -> In k (envKeys l).
Proof.
  intros Hk. pose proof (SplitN2_entry k v Hk) as Hs.
  induction l as [|e l IH]; [intros []|].
  intros [->|Hin]; cbn [envKeys].
  - simpl in *. rewrite Hs. now left.
  - destruct (Strings.SplitN2 e "=") as [|k' [|v' [|]]]; auto. right. auto.
Qed.

(** With distinct names, a name has one value. *)
Lemma entries_unique (l : list string) (k v1 v2 : string) :
  NoDup (envKeys l) -> Os.hasByte "=" k = false ->
  In (k ++ "=" ++ v1) l -> In (k ++ "=" ++ v2) l -> v1 = v2.
Proof.
  intros Hnd Hk. induction l as [|e l IH]; [intros []|].
  intros H1 H2.
  assert (Hhead : forall v, e = k ++ "=" ++ v -> ~ In k (envKeys l)).
  { intros v ->. cbn [envKeys] in Hnd.
    pose proof (SplitN2_entry k v Hk) as Hs. simpl in *. rewrite Hs in Hnd.
    inversion Hnd as [|? ? Hnot _]; subst. intros Hin. apply Hnot.
    now apply list_elem_of_In. }
  assert (Htail : NoDup (envKeys l)).
  { cbn [envKeys] in Hnd.
    destruct (Strings.SplitN2 e "=") as [|k' [|v' [|]]]; auto.
    now inversion Hnd. }
  destruct H1 as [E1|H1], H2 as [E2|H2].
  - rewrite E1 in E2. apply append_inv_head in E2.
    simpl in E2. now injection E2.
  - exfalso. apply (Hhead v1); [auto|]. now apply (entry_key_in l k v2).
  - exfalso. apply (Hhead v2); [auto|]. now apply (entry_key_in l k v1).
  - auto.
Qed.

Lemma LookupEnv_complete (l : list string) (k v : string) :
  k <> "" -> Os.hasByte "=" k = false -> In (k ++ "=" ++ v) l ->
  exists v', Os.LookupEnv l k = Some v'.
Proof.
  intros Hne Hk. pose proof (SplitN2_entry k v Hk) as Hs.
  induction l as [|e l IH]; [intros []|].
  intros [->|Hin]; cbn [Os.LookupEnv].
  - simpl in *. rewrite Hs, String.eqb_refl.
    destruct (String.eqb_spec k ""); [contradiction|]. simpl. eauto.
  - destruct (Strings.SplitN2 e "=") as [|k' [|v' [|]]]; auto.
    destruct (String.eqb k' k && negb (String.eqb k "")); eauto.
Qed.

(** With distinct names, the process started reads what the caller
    reads. *)
Lemma childGetenv_unique (l : list string) (k v : string) :
  NoDup (envKeys l) -> Os.LookupEnv l k = Some v ->
  Os.childGetenv l k = Some v.
Proof.
  intros Hnd Hl. apply LookupEnv_Some in Hl as (Hne & Hk & Hin).
  unfold Os.childGetenv.
  destruct (LookupEnv_complete (rev l) k v Hne Hk) as [v' Hv'].
  { now apply in_rev in Hin. }
  rewrite Hv'. f_equal.
  apply LookupEnv_Some in Hv' as (_ & _ & Hin'). apply in_rev in Hin'.
  exact (entries_unique l k v' v Hnd Hk Hin' Hin).
Qed.


Lemma replaceEntry_NoDup (envs : list string) (key val : string) :
  Os.hasByte "=" key = false -> NoDup (envKeys envs) ->
  NoDup (envKeys (Os.replaceEntry envs key (key ++ "=" ++ val))).
Proof.
  intros Hk Hnd. rewrite envKeys_replaceEntry by assumption.
  destruct (existsb (String.eqb key) (envKeys envs)) eqn:Hex; [assumption|].
  apply NoDup_snoc; [assumption|]. intros Hin.
  apply existsb_eqb_In in Hin. congruence.
Qed.

(** What the one command of a call reads for a variable the caller has
    under one entry only. *)
Lemma spawned_reads (h : Host) (envs : list string) (m : gmap string string)
  (key val : string) (c : Exec.Cmd) :
  rangeSound h -> validNames m -> NoDup (envKeys envs) ->
  Os.LookupEnv envs key = Some val ->
  Exec.Env c = cmdEnvOf h envs m ->
  key <> "PWD" \/ Exec.Dir c = "" \/ m <> ∅ ->
  Os.childGetenv (environOf h envs c) key = Some (default val (m !! key)).
Proof.
  intros Hrange Hvalid Hnd Hl Henv Hcase.
  destruct (overrides_applied h envs m c Hrange Henv) as [Hnil Hov].
  destruct (decide (m = ∅)) as [Hm|Hm].
  - destruct (inherited_environment h envs c (Hnil Hm)) as (H0 & _ & Hother).
    subst m. rewrite lookup_empty. cbn [default].
    destruct Hcase as [Hk | [Hd | Hne]]; [| |contradiction].
    + rewrite (Hother key Hk). now apply childGetenv_unique.
    + rewrite (H0 Hd). now apply childGetenv_unique.
  - destruct (Hov Hm) as [_ Hwin].
    rewrite (Hwin Hvalid key). destruct (m !! key); [reflexivity|].
    now apply childGetenv_unique.
Qed.

End Inherited.

(** A variable written by the body of set_env, as the body of a later
    run_command or run_script passes it on. *)
Lemma execute_passes_on (h : Host) (envs : list string)
  (key val : string) (out : SetEnvTool.Output)
  (rc : RunCommandTool.Input) (rs : RunScriptTool.Input) :
  let set := SetEnvTool.Execute h envs
               {| SetEnvTool.Key := key; SetEnvTool.Value := val |} in
  rangeSound h ->
  NoDup (envKeys envs) ->
  result (fst set) = inr out ->
  (validNames (RunCommandTool.EnvOverrides rc) ->
   key <> "PWD" \/ RunCommandTool.Cwd rc = ""
   \/ RunCommandTool.EnvOverrides rc <> ∅ ->
   forall c, In c (spawns (trace (RunCommandTool.Execute h (snd set) rc))) ->
     Os.childGetenv (environOf h (snd set) c) key
     = Some (default val (RunCommandTool.EnvOverrides rc !! key)))
  /\ (validNames (RunScriptTool.EnvOverrides rs) ->
      key <> "PWD" \/ RunScriptTool.Cwd rs = ""
      \/ RunScriptTool.EnvOverrides rs <> ∅ ->
      forall c, In c (spawns (trace (RunScriptTool.Execute h (snd set) rs))) ->
        Os.childGetenv (environOf h (snd set) c) key
        = Some (default val (RunScriptTool.EnvOverrides rs !! key))).
Proof.
  intros set Hrange Hnd Hok. subst set.
  destruct (set_env_run h envs
              {| SetEnvTool.Key := key; SetEnvTool.Value := val |})
    as [(_ & e & E & _) | (Hbad & out' & E & _)];
    cbn [SetEnvTool.Key SetEnvTool.Value] in *;
    rewrite E in Hok |- *; [discriminate|]. cbn [snd].
  apply accepted_key in Hbad as [Hne Hk].
  pose proof (replaceEntry_NoDup envs key val Hk Hnd) as Hnd'.
  pose proof (replaceEntry_same envs key val Hne Hk) as Hl.
  set (envs' := Os.replaceEntry envs key (key ++ "=" ++ val)) in *.
  split; intros Hvalid Hcase c Hc.
  - destruct (command_spawns h envs' rc) as [[Hnone _] | (dir & Hdir & Hone & _)].
    + rewrite Hnone in Hc. destruct Hc.
    + rewrite Hone in Hc. destruct Hc as [<-|[]].
      apply (spawned_reads h); auto. cbn [Exec.Dir].
      destruct Hcase as [?|[HC|?]]; auto.
      destruct Hdir as [[_ ->] | [? _]]; [auto | contradiction].
  - destruct (script_spawns h envs' rs) as [[Hnone _] | (dir & Hdir & Hone & _)].
    + rewrite Hnone in Hc. destruct Hc.
    + rewrite Hone in Hc. destruct Hc as [<-|[]].
      apply (spawned_reads h); auto. cbn [Exec.Dir].
      destruct Hcase as [?|[HC|?]]; auto.
      destruct Hdir as [[_ ->] | [? _]]; [auto | contradiction].
Qed.

(** ** The errors of run_command and run_script *)

Section Failures.

Variable h : Host.
Variable envs : list string.

Lemma proceeds_failed {Out : Type} (m : M Out) path args Cwd ov t answer e :
  proceeds h envs m path args Cwd ov t answer ->
  result m = inl e ->
  (exists msg, e = ErrInvalidCwd msg /\ Abs h Cwd = inl msg)
  \/ (e = ErrCwdNotDir Cwd
      /\ exists absPath, Abs h Cwd = inr absPath /\ IsDir h absPath = false)
  \/ (exists c, spawns (trace m) = [c] /\ answer (Run h c) = inl e).
Proof.
  intros [(_ & msg & Ha & ->) | [(_ & absPath & Ha & Hd & ->) | (dir & _ & Hm)]].
  - intros E. injection E as <-. left. eauto.
  - intros E. injection E as <-. right. left. eauto.
  - cbv zeta in Hm. rewrite Hm. unfold result, trace. cbn [fst snd].
    intros E. right. right. eexists. split; [|exact E].
    rewrite !spawns_app.
    destruct (String.eqb Cwd ""), (Nat.ltb 0 (size ov)); reflexivity.
Qed.

Lemma commandAnswer_failed (o : Exec.Outcome) (e : error) :
  commandAnswer o = inl e ->
  exists msg, e = ErrFailedToRun "command" msg
              /\ Exec.err o = Exec.OtherError msg
              /\ Exec.ctxErr o <> Exec.DeadlineExceeded.
Proof.
  unfold commandAnswer, exitStatus.
  destruct (Exec.ctxErr o), (Exec.err o); simpl; try discriminate;
    intros E; injection E as <-; eexists; repeat split; discriminate.
Qed.

Lemma scriptAnswer_failed (shell : string) (o : Exec.Outcome) (e : error) :
  scriptAnswer shell o = inl e ->
  exists msg, e = ErrFailedToRun "script" msg
              /\ Exec.err o = Exec.OtherError msg
              /\ Exec.ctxErr o <> Exec.DeadlineExceeded.
Proof.
  unfold scriptAnswer, exitStatus.
  destruct (Exec.ctxErr o), (Exec.err o); simpl; try discriminate;
    intros E; injection E as <-; eexists; repeat split; discriminate.
Qed.

Lemma checkLines_Some (lines : list string) (pattern line : string) :
  RunScriptTool.checkLines lines = Some (pattern, line) ->
  exists raw, In raw lines /\ line = Strings.TrimSpace raw
              /\ RunScriptTool.skipped line = false
              /\ isDenied line = (true, pattern).
Proof.
  induction lines as [|raw0 rest IH]; simpl; [discriminate|].
  destruct (RunScriptTool.skipped (Strings.TrimSpace raw0)) eqn:Hsk.
  - intros H. destruct (IH H) as (raw & ? & ? & ? & ?). exists raw. auto.
  - destruct (isDenied (Strings.TrimSpace raw0)) as [[|] pat] eqn:Hd.
    + intros E. injection E as <- <-. exists raw0. auto.
    + intros H. destruct (IH H) as (raw & ? & ? & ? & ?). exists raw. auto.
Qed.

End Failures.

(** The five ways in which the body of a call fails. *)
Lemma execute_fails_for (h : Host) (envs : list string)
  (rc : RunCommandTool.Input) (rs : RunScriptTool.Input) (e : error) :
  (result (RunCommandTool.Execute h envs rc) = inl e ->
   (e = ErrCmdRequired /\ RunCommandTool.Cmd rc = "")
   \/ (exists pattern,
         e = ErrCommandBlocked pattern
         /\ isDenied (RunCommandTool.fullCmd rc) = (true, pattern))
   \/ (exists msg, e = ErrInvalidCwd msg
                   /\ Abs h (RunCommandTool.Cwd rc) = inl msg)
   \/ (e = ErrCwdNotDir (RunCommandTool.Cwd rc)
       /\ exists absPath, Abs h (RunCommandTool.Cwd rc) = inr absPath
                          /\ IsDir h absPath = false)
   \/ (exists msg c,
         e = ErrFailedToRun "command" msg
         /\ spawns (trace (RunCommandTool.Execute h envs rc)) = [c]
         /\ Exec.err (Run h c) = Exec.OtherError msg
         /\ Exec.ctxErr (Run h c) <> Exec.DeadlineExceeded))
  /\ (result (RunScriptTool.Execute h envs rs) = inl e ->
      (e = ErrScriptRequired /\ RunScriptTool.Script rs = "")
      \/ (exists pattern raw,
            e = ErrScriptBlocked pattern (Strings.TrimSpace raw)
            /\ In raw (Strings.Split (RunScriptTool.Script rs) "010")
            /\ RunScriptTool.skipped (Strings.TrimSpace raw) = false
            /\ isDenied (Strings.TrimSpace raw) = (true, pattern))
      \/ (exists msg, e = ErrInvalidCwd msg
                      /\ Abs h (RunScriptTool.Cwd rs) = inl msg)
      \/ (e = ErrCwdNotDir (RunScriptTool.Cwd rs)
          /\ exists absPath, Abs h (RunScriptTool.Cwd rs) = inr absPath
                             /\ IsDir h absPath = false)
      \/ (exists msg c,
            e = ErrFailedToRun "script" msg
            /\ spawns (trace (RunScriptTool.Execute h envs rs)) = [c]
            /\ Exec.err (Run h c) = Exec.OtherError msg
            /\ Exec.ctxErr (Run h c) <> Exec.DeadlineExceeded)).
Proof.
  split.
  - destruct (String.eqb_spec (RunCommandTool.Cmd rc) "") as [Hc|Hc].
    { unfold RunCommandTool.Execute. rewrite Hc. simpl.
      intros E. injection E as <-. now left. }
    destruct (isDenied (RunCommandTool.fullCmd rc)) as [[|] pattern] eqn:Hd.
    { unfold RunCommandTool.Execute.
      destruct (String.eqb_spec (RunCommandTool.Cmd rc) ""); [contradiction|].
      rewrite Hd. simpl. intros E. injection E as <-. right. left. eauto. }
    intros E.
    destruct (proceeds_failed h envs _ _ _ _ _ _ _ e
                (command_proceeds h envs rc Hc ltac:(now rewrite Hd)) E)
      as [H | [H | (c & Hs & Ha)]]; [tauto | tauto |].
    apply commandAnswer_failed in Ha as (msg & -> & He & Hctx).
    do 4 right. exists msg, c. auto.
  - destruct (String.eqb_spec (RunScriptTool.Script rs) "") as [Hc|Hc].
    { unfold RunScriptTool.Execute. rewrite Hc. simpl.
      intros E. injection E as <-. now left. }
    destruct (RunScriptTool.checkLines
                (Strings.Split (RunScriptTool.Script rs) "010"))
      as [[pattern line]|] eqn:Hd.
    { unfold RunScriptTool.Execute.
      destruct (String.eqb_spec (RunScriptTool.Script rs) ""); [contradiction|].
      rewrite Hd. simpl. intros E. injection E as <-. right. left.
      apply checkLines_Some in Hd as (raw & Hin & -> & Hsk & Hden).
      exists pattern, raw. auto. }
    intros E.
    destruct (proceeds_failed h envs _ _ _ _ _ _ _ e
                (script_proceeds h envs rs Hc Hd) E)
      as [H | [H | (c & Hs & Ha)]]; [tauto | tauto |].
    apply scriptAnswer_failed in Ha as (msg & -> & He & Hctx).
    do 4 right. exists msg, c. auto.
Qed.


(** ** get_env without keys *)

Section Listing.


Variable h : Host.



End Listing.




(** * The tools from raw input to JSON answer *)

(** ** Strings as JSON carries them *)

Section JsonText.

Lemma textFrom_valid (skip : nat) (s : string) :
  Utf8.validFrom skip s = true -> Json.textFrom skip s = s.
Proof.
  revert skip. induction s as [|a s IH]; intros skip; [reflexivity|].
  cbn [Utf8.validFrom Json.textFrom]. destruct skip as [|k].
  - destruct (Utf8.DecodeRuneInString (String a s)) as [size [|]];
      [|discriminate].
    intros H. now rewrite IH.
  - intros H. now rewrite IH.
Qed.

(** Valid UTF-8 goes through [json.Marshal] as it is. *)
Lemma text_valid (s : string) :
  Utf8.ValidString s = true -> Json.text s = s.
Proof. apply textFrom_valid. Qed.

Lemma decode_ascii (a : ascii) (s : string) :
  N.ltb (N_of_ascii a) 128 = true ->
  Utf8.DecodeRuneInString (String a s) = (1%nat, true).
Proof. intros H. cbn [Utf8.DecodeRuneInString]. cbv zeta. now rewrite H. Qed.

Lemma valid_ascii (s : string) : ascii7 s = true -> Utf8.ValidString s = true.
Proof.
  unfold Utf8.ValidString. induction s as [|a s IH]; [reflexivity|].
  cbn [ascii7]. intros H. apply andb_true_iff in H as [Ha Hs].
  cbn [Utf8.validFrom]. rewrite (decode_ascii a s Ha). now apply IH.
Qed.

Lemma text_ascii (s : string) : ascii7 s = true -> Json.text s = s.
Proof. intros H. now apply text_valid, valid_ascii. Qed.

(** An ASCII prefix is kept and the rest is encoded on its own. *)
Lemma text_ascii_app (s t : string) :
  ascii7 s = true -> Json.text (s ++ t) = s ++ Json.text t.
Proof.
  unfold Json.text. induction s as [|a s IH]; [reflexivity|].
  cbn [ascii7]. intros H. apply andb_true_iff in H as [Ha Hs].
  change (String a s ++ t) with (String a (s ++ t)).
  cbn [Json.textFrom]. rewrite (decode_ascii a (s ++ t) Ha).
  cbn [Nat.sub]. now rewrite IH.
Qed.

Lemma ascii7_app (s t : string) : ascii7 (s ++ t) = ascii7 s && ascii7 t.
Proof.
  induction s as [|a s IH]; [reflexivity|].
  change (String a s ++ t) with (String a (s ++ t)).
  cbn [ascii7]. now rewrite IH, andb_assoc.
Qed.

Lemma ascii7_Repeat (c : ascii) (n : nat) :
  N.ltb (N_of_ascii c) 128 = true -> ascii7 (Strings.Repeat c n) = true.
Proof. intros H. induction n as [|n IH]; simpl; [reflexivity | now rewrite H]. Qed.

Lemma textFrom_nil (skip : nat) (s : string) :
  Json.textFrom skip s = "" <-> s = "".
Proof.
  destruct s as [|a s]; [tauto|]. cbn [Json.textFrom].
  destruct skip; [|split; discriminate].
  destruct (Utf8.DecodeRuneInString _) as [size [|]]; split; discriminate.
Qed.

Lemma text_nil (s : string) : Json.text s = "" <-> s = "".
Proof. apply textFrom_nil. Qed.

(** When the mask goes through as it is. *)
Lemma redactValue_ascii (val : string) :
  ((String.length val <= 4)%nat
   \/ ascii7 (substring 0 2 val) = true
      /\ ascii7 (substring (String.length val - 2) 2 val) = true) ->
  ascii7 (redactValue val) = true.
Proof.
  unfold redactValue. destruct (Nat.leb_spec (String.length val) 4) as [Hs|Hl].
  - reflexivity.
  - intros [?|[H1 H2]]; [lia|].
    rewrite !ascii7_app, H1, H2, ascii7_Repeat; reflexivity.
Qed.

End JsonText.

(** ** From the request decoded to the answer marshalled *)

Section Served.

Lemma trace_marshalled {Out : Type} (f : Out -> Out) (m : M Out) :
  trace (Tool.marshalled f m) = trace m.
Proof. reflexivity. Qed.

Lemma marshalled_failed {Out : Type} (f : Out -> Out) (m : M Out) (e : error) :
  result (Tool.marshalled f m) = inl e <-> result m = inl e.
Proof.
  unfold result, Tool.marshalled. cbn [snd].
  destruct (snd m); split; congruence.
Qed.

Lemma marshalled_answered {Out : Type} (f : Out -> Out) (m : M Out) (out : Out) :
  result (Tool.marshalled f m) = inr out <->
  exists o, result m = inr o /\ out = f o.
Proof.
  unfold result, Tool.marshalled. cbn [snd]. destruct (snd m) as [e|o]; split.
  - discriminate.
  - intros (o & E & _). discriminate.
  - intros E. injection E as <-. eauto.
  - intros (o' & E & ->). injection E as ->. reflexivity.
Qed.

End Served.

(** C4, as the code has it: a sensitive key read without
    [include_sensitive] comes back masked and flagged.  The mask of a
    value longer than four bytes has the value's length, its first two and
    last two bytes, and stars in between, and equals the value only if the
    value's middle already is all stars; the mask of a shorter value is
    four stars.  The answer carries the mask as JSON encodes it: as it is
    when it is valid UTF-8, as it always is when the four bytes kept are
    ASCII, and otherwise with U+FFFD for every byte of a character the
    mask has cut.  Read with [include_sensitive] the value comes back
    unflagged and, when it is valid UTF-8, exact. *)
Theorem redaction_round_trip (h : Host) (envs : list string)
  (unmarshal : Tool.Decoder GetEnvTool.Input) (input : list Byte.byte)
  (key val : string) (incl : bool) :
  unmarshal input
  = inr {| GetEnvTool.Keys := [key]; GetEnvTool.IncludeSensitive := incl |} ->
  isSensitiveEnvKey h key = true ->
  Os.LookupEnv envs key = Some val ->
  Tool.get_env h envs unmarshal input
  = ([], inr {| GetEnvTool.Variables :=
                  [{| GetEnvTool.Key := Json.text key;
                      GetEnvTool.Value :=
                        Json.text (if incl then val else redactValue val);
                      GetEnvTool.Redacted := negb incl |}];
                GetEnvTool.Count := 1 |})
  /\ (Utf8.ValidString key = true -> Json.text key = key)
  /\ (Utf8.ValidString val = true -> Json.text val = val)
  /\ (Utf8.ValidString (redactValue val) = true ->
      Json.text (redactValue val) = redactValue val)
  /\ ((4 < String.length val)%nat ->
      String.length (redactValue val) = String.length val
      /\ (forall i, (i < String.length val)%nat ->
          get i (redactValue val) =
          if Nat.ltb i 2 || Nat.leb (String.length val - 2) i
          then get i val else Some "*"%char)
      /\ (redactValue val = val <->
          forall i, (2 <= i < String.length val - 2)%nat ->
                    get i val = Some "*"%char)
      /\ (ascii7 (substring 0 2 val) = true ->
          ascii7 (substring (String.length val - 2) 2 val) = true ->
          Json.text (redactValue val) = redactValue val))
  /\ ((String.length val <= 4)%nat ->
      redactValue val = "****"
      /\ Json.text (redactValue val) = "****"
      /\ (redactValue val = val <-> val = "****")).
Proof.
  intros Hin Hsens Hval. unfold Tool.get_env. rewrite Hin.
  unfold Tool.marshalled, GetEnvTool.Execute.
  cbn [GetEnvTool.Keys GetEnvTool.IncludeSensitive length Nat.ltb Nat.leb
       GetEnvTool.readKeys].
  rewrite Hval. unfold GetEnvTool.entryOf. rewrite Hsens.
  split; [destruct incl; reflexivity|].
  split; [apply text_valid|]. split; [apply text_valid|].
  split; [apply text_valid|]. split.
  - intros Hlen. split; [now apply length_redactValue|].
    split; [intros i Hi; now apply redactValue_get|].
    split; [now apply redactValue_fixed|].
    intros H1 H2. apply text_ascii, redactValue_ascii. auto.
  - intros Hlen. rewrite redactValue_short by assumption.
    split; [reflexivity|]. split; [reflexivity|]. split; congruence.
Qed.

(** A password with a two-byte character that the mask cuts, and a key of
    ASCII characters. *)
Lemma redaction_round_trip_witness :
  Tool.get_env plainHost ["DB_PASSWORD=a" ++ String "195" (String "169" "12345")]
    (reading {| GetEnvTool.Keys := ["DB_PASSWORD"];
                GetEnvTool.IncludeSensitive := false |}) rawInput
  = ([], inr {| GetEnvTool.Variables :=
                  [{| GetEnvTool.Key := "DB_PASSWORD";
                      GetEnvTool.Value := "a" ++ Json.replacement ++ "****45";
                      GetEnvTool.Redacted := true |}];
                GetEnvTool.Count := 1 |})
  /\ Tool.get_env plainHost ["API_KEY=abcdef1234"]
       (reading {| GetEnvTool.Keys := ["API_KEY"];
                   GetEnvTool.IncludeSensitive := false |}) rawInput
     = ([], inr {| GetEnvTool.Variables :=
                     [{| GetEnvTool.Key := "API_KEY";
                         GetEnvTool.Value := "ab******34";
                         GetEnvTool.Redacted := true |}];
                   GetEnvTool.Count := 1 |}).
Proof.
  split.
  - exact (proj1 (redaction_round_trip plainHost
                    ["DB_PASSWORD=a" ++ String "195" (String "169" "12345")]
                    (reading {| GetEnvTool.Keys := ["DB_PASSWORD"];
                                GetEnvTool.IncludeSensitive := false |})
                    rawInput "DB_PASSWORD"
                    ("a" ++ String "195" (String "169" "12345")) false
                    eq_refl eq_refl eq_refl)).
  - exact (proj1 (redaction_round_trip plainHost ["API_KEY=abcdef1234"]
                    (reading {| GetEnvTool.Keys := ["API_KEY"];
                                GetEnvTool.IncludeSensitive := false |})
                    rawInput "API_KEY" "abcdef1234" false
                    eq_refl eq_refl eq_refl)).
Defined.

(** X7: after an accepted set_env call, get_env for that key answers with
    one entry: the value just written, or its mask, flagged, when the key
    is sensitive and [include_sensitive] is off, each as JSON encodes it
    (a value that is valid UTF-8 as it is, a mask with U+FFFD where it has
    cut a character); and set_env has warned exactly when the key is one
    that get_env masks. *)
Theorem set_env_then_get_env (h : Host) (envs : list string)
  (setDecoder : Tool.Decoder SetEnvTool.Input)
  (getDecoder : Tool.Decoder GetEnvTool.Input)
  (setInput getInput : list Byte.byte)
  (key val : string) (incl : bool) (out : SetEnvTool.Output) :
  let set := Tool.set_env h envs setDecoder setInput in
  let masked := isSensitiveEnvKey h key && negb incl in
  setDecoder setInput
  = inr {| SetEnvTool.Key := key; SetEnvTool.Value := val |} ->
  getDecoder getInput
  = inr {| GetEnvTool.Keys := [key]; GetEnvTool.IncludeSensitive := incl |} ->
  result (fst set) = inr out ->
  Tool.get_env h (snd set) getDecoder getInput
  = ([], inr {| GetEnvTool.Variables :=
                  [{| GetEnvTool.Key := Json.text key;
                      GetEnvTool.Value :=
                        Json.text (if masked then redactValue val else val);
                      GetEnvTool.Redacted := masked |}];
                GetEnvTool.Count := 1 |})
  /\ (Utf8.ValidString key = true -> Json.text key = key)
  /\ (Utf8.ValidString val = true -> Json.text val = val)
  /\ ((String.length val <= 4)%nat
      \/ ascii7 (substring 0 2 val) = true
         /\ ascii7 (substring (String.length val - 2) 2 val) = true ->
      Json.text (redactValue val) = redactValue val)
  /\ (SetEnvTool.Message out <> "" <-> isSensitiveEnvKey h key = true).
Proof.
  intros set masked Hs Hg Hok. subst set masked.
  unfold Tool.set_env in *. rewrite Hs in *. cbn [fst snd] in *.
  apply marshalled_answered in Hok as (o & Hok & ->).
  destruct (set_env_run h envs
              {| SetEnvTool.Key := key; SetEnvTool.Value := val |})
    as [(_ & e & E & _) | (Hbad & out' & E & _ & Hmsg)];
    cbn [SetEnvTool.Key SetEnvTool.Value] in *;
    rewrite E in Hok |- *; [discriminate|].
  injection Hok as ->. cbn [snd].
  apply accepted_key in Hbad as [Hne Hk].
  split; [|split; [apply text_valid|split; [apply text_valid|split]]].
  - unfold Tool.get_env. rewrite Hg.
    unfold Tool.marshalled, GetEnvTool.Execute.
    cbn [GetEnvTool.Keys GetEnvTool.IncludeSensitive length Nat.ltb Nat.leb
         GetEnvTool.readKeys].
    rewrite (replaceEntry_same envs key val Hne Hk).
    unfold GetEnvTool.entryOf. destruct (_ && _); reflexivity.
  - intros H. now apply text_ascii, redactValue_ascii.
  - cbn [Tool.marshalSetEnv SetEnvTool.Message]. rewrite text_nil.
    destruct (isSensitiveEnvKey h key); split; intros H;
      try reflexivity; try discriminate.
    + intros Hm. apply Hmsg in Hm. discriminate.
    + exfalso. apply H. now apply Hmsg.
Qed.

(** The password with a two-byte character again, written and read. *)
Lemma set_env_then_get_env_witness :
  Tool.get_env plainHost
    ["PATH=/bin"; "DB_PASSWORD=a" ++ String "195" (String "169" "12345")]
    (reading {| GetEnvTool.Keys := ["DB_PASSWORD"];
                GetEnvTool.IncludeSensitive := false |}) rawInput
  = ([], inr {| GetEnvTool.Variables :=
                  [{| GetEnvTool.Key := "DB_PASSWORD";
                      GetEnvTool.Value := "a" ++ Json.replacement ++ "****45";
                      GetEnvTool.Redacted := true |}];
                GetEnvTool.Count := 1 |}).
Proof.
  assert (Hok : result (fst (Tool.set_env plainHost ["PATH=/bin"]
                  (reading {| SetEnvTool.Key := "DB_PASSWORD";
                              SetEnvTool.Value :=
                                "a" ++ String "195" (String "169" "12345") |})
                  rawInput))
                = inr {| SetEnvTool.Success := true;
                         SetEnvTool.Message :=
             "warning: 'DB_PASSWORD' is a sensitive key — value will be redacted from get_env" |})
    by (vm_compute; reflexivity).
  exact (proj1 (set_env_then_get_env plainHost ["PATH=/bin"]
                  (reading {| SetEnvTool.Key := "DB_PASSWORD";
                              SetEnvTool.Value :=
                                "a" ++ String "195" (String "169" "12345") |})
                  (reading {| GetEnvTool.Keys := ["DB_PASSWORD"];
                              GetEnvTool.IncludeSensitive := false |})
                  rawInput rawInput "DB_PASSWORD"
                  ("a" ++ String "195" (String "169" "12345")) false _
                  eq_refl eq_refl Hok)).
Defined.

(** X9: set_env fails exactly when its input cannot be decoded, or the
    key decoded is empty or has a [=] or a NUL byte, or the value has a
    NUL byte.  The error is that of the decoder in the first case and the
    missing key for the empty key, and for it only; a failed call leaves
    the environment as it was. *)
Theorem set_env_refusals (h : Host) (envs : list string)
  (unmarshal : Tool.Decoder SetEnvTool.Input) (input : list Byte.byte) :
  let set := Tool.set_env h envs unmarshal input in
  ((exists e, result (fst set) = inl e)
   <-> (exists msg, unmarshal input = inl msg)
       \/ exists inp,
            unmarshal input = inr inp
            /\ (SetEnvTool.Key inp = ""
                \/ Os.hasByte "=" (SetEnvTool.Key inp) = true
                \/ Os.hasByte "000" (SetEnvTool.Key inp) = true
                \/ Os.hasByte "000" (SetEnvTool.Value inp) = true))
  /\ (forall e, result (fst set) = inl e ->
        snd set = envs
        /\ (forall msg, e = ErrUnmarshal msg <-> unmarshal input = inl msg)
        /\ (e = ErrKeyRequired
            <-> exists inp, unmarshal input = inr inp
                            /\ SetEnvTool.Key inp = "")).
Proof.
  intros set. subst set. unfold Tool.set_env.
  destruct (unmarshal input) as [msg|inp] eqn:Hin; cbn [fst snd].
  { split.
    - split; [intros _; left; eauto | intros _; eexists; reflexivity].
    - intros e He. injection He as <-. split; [reflexivity|]. split.
      + intros msg'. split; congruence.
      + split; [discriminate | intros (inp & E & _); discriminate]. }
  destruct (set_env_run h envs inp)
    as [(Hbad & e & E & He) | (Hbad & out' & E & _)]; rewrite E;
    cbn [fst snd result Tool.marshalled].
  - split.
    + split; [intros _ | intros _; eauto].
      right. exists inp. split; [reflexivity|].
      destruct (String.eqb_spec (SetEnvTool.Key inp) "") as [|Hne]; [now left|].
      right. simpl in Hbad.
      apply orb_true_iff in Hbad as [Hbad|Hbad]; [|auto].
      apply orb_true_iff in Hbad as [Hbad|Hbad]; auto.
    + intros e' He'. injection He' as <-.
      split; [reflexivity|]. subst e. split.
      * intros msg. split; [|discriminate].
        destruct (String.eqb (SetEnvTool.Key inp) ""); discriminate.
      * destruct (String.eqb_spec (SetEnvTool.Key inp) "") as [Hk|Hne]; split.
        -- intros _. eauto.
        -- reflexivity.
        -- discriminate.
        -- intros (inp' & E' & Hk). injection E' as <-. contradiction.
  - split; [|discriminate].
    split; [intros [e He]; discriminate|].
    apply orb_false_iff in Hbad as [Hbad Hv].
    apply orb_false_iff in Hbad as [Hbad Hn].
    apply orb_false_iff in Hbad as [Hbad Hk].
    intros [[msg Hm] | (inp' & E' & H)]; [discriminate|].
    injection E' as <-.
    destruct H as [H|[H|[H|H]]]; try congruence.
    rewrite H in Hbad. discriminate.
Qed.

(** A value that is a number, refused by the decoder, and a key with
    [=], refused by [os.Setenv]. *)
Lemma set_env_refusals_witness :
  result (fst (Tool.set_env plainHost ["PATH=/bin"]
                 (fun _ => inl "json: cannot unmarshal number into Go struct field SetEnvInput.value of type string")
                 rawInput))
  = inl (ErrUnmarshal
           "json: cannot unmarshal number into Go struct field SetEnvInput.value of type string")
  /\ exists e,
       result (fst (Tool.set_env plainHost ["PATH=/bin"]
                      (reading {| SetEnvTool.Key := "A=B";
                                  SetEnvTool.Value := "x" |}) rawInput))
       = inl e.
Proof.
  split; [reflexivity|].
  destruct (set_env_refusals plainHost ["PATH=/bin"]
              (reading {| SetEnvTool.Key := "A=B"; SetEnvTool.Value := "x" |})
              rawInput) as [Hiff _].
  apply (proj2 Hiff). right. eexists. split; [reflexivity|].
  right. left. vm_compute. reflexivity.
Defined.

(** X11: get_env fails only when its input cannot be decoded, with the
    decoder's error.  In its answer every entry comes from an entry of the
    environment: it is flagged exactly when that key is sensitive and
    [include_sensitive] is off, and it carries, as JSON encodes them, the
    key and the value, or the mask of the value when flagged.  The count
    is the number of entries, at most the number of keys asked for, or of
    environment lines when none was. *)
Theorem get_env_flags_are_honest (h : Host) (envs : list string)
  (unmarshal : Tool.Decoder GetEnvTool.Input) (input : list Byte.byte) :
  (forall e, result (Tool.get_env h envs unmarshal input) = inl e ->
     exists msg, unmarshal input = inl msg /\ e = ErrUnmarshal msg)
  /\ (forall msg, unmarshal input = inl msg ->
        Tool.get_env h envs unmarshal input = ([], inl (ErrUnmarshal msg)))
  /\ (forall inp, unmarshal input = inr inp ->
      exists out,
        Tool.get_env h envs unmarshal input = ([], inr out)
        /\ (forall e, In e (GetEnvTool.Variables out) ->
            exists k v,
              In (k ++ "=" ++ v) envs
              /\ GetEnvTool.Key e = Json.text k
              /\ GetEnvTool.Redacted e
                 = isSensitiveEnvKey h k && negb (GetEnvTool.IncludeSensitive inp)
              /\ GetEnvTool.Value e
                 = Json.text (if GetEnvTool.Redacted e then redactValue v
                              else v))
        /\ GetEnvTool.Count out = Z.of_nat (length (GetEnvTool.Variables out))
        /\ (GetEnvTool.Count out
            <= Z.of_nat (match GetEnvTool.Keys inp with
                         | [] => length envs
                         | _ => length (GetEnvTool.Keys inp)
                         end))%Z).
Proof.
  unfold Tool.get_env.
  destruct (unmarshal input) as [msg|inp] eqn:Hin.
  { split; [intros e He; injection He as <-; eauto|].
    split; [intros msg' E; injection E as <-; reflexivity|].
    intros inp E. discriminate. }
  split; [intros e He; discriminate|]. split; [intros msg E; discriminate|].
  intros inp' E. injection E as <-.
  eexists. split; [reflexivity|].
  cbn [Tool.marshalGetEnv GetEnvTool.Variables GetEnvTool.Count].
  split; [|split].
  - intros e He. apply in_map_iff in He as (e0 & <- & He0).
    destruct (get_env_entries h envs inp _ e0 eq_refl He0) as (k & v & Hk & ->).
    exists k, v. split; [exact Hk|]. unfold GetEnvTool.entryOf.
    destruct (isSensitiveEnvKey h k && negb (GetEnvTool.IncludeSensitive inp));
      cbn [Tool.marshalEntry GetEnvTool.Key GetEnvTool.Value GetEnvTool.Redacted];
      auto.
  - now rewrite length_map.
  - destruct (GetEnvTool.Keys inp) as [|k keys].
    + cbn [length Nat.ltb Nat.leb]. pose proof (length_readAll h
        (GetEnvTool.IncludeSensitive inp) envs). lia.
    + change (Nat.ltb 0 (length (k :: keys))) with true. cbv iota.
      pose proof (length_readKeys h envs (GetEnvTool.IncludeSensitive inp)
                    (k :: keys)). lia.
Qed.

(** Keys that are a string, not a list, and the whole environment. *)
Lemma get_env_flags_are_honest_witness :
  Tool.get_env plainHost ["PATH=/bin"]
    (fun _ => inl "json: cannot unmarshal string into Go struct field GetEnvInput.keys of type []string")
    rawInput
  = ([], inl (ErrUnmarshal
                "json: cannot unmarshal string into Go struct field GetEnvInput.keys of type []string"))
  /\ exists out,
       Tool.get_env plainHost ["PATH=/bin"; "GH_TOKEN=ghp_0123456789"]
         (reading {| GetEnvTool.Keys := [];
                     GetEnvTool.IncludeSensitive := false |}) rawInput
       = ([], inr out)
       /\ map GetEnvTool.Redacted (GetEnvTool.Variables out) = [false; true].
Proof.
  split.
  - destruct (get_env_flags_are_honest plainHost ["PATH=/bin"]
                (fun _ => inl "json: cannot unmarshal string into Go struct field GetEnvInput.keys of type []string")
                rawInput) as (_ & H & _).
    exact (H _ eq_refl).
  - destruct (get_env_flags_are_honest plainHost
                ["PATH=/bin"; "GH_TOKEN=ghp_0123456789"]
                (reading {| GetEnvTool.Keys := [];
                            GetEnvTool.IncludeSensitive := false |}) rawInput)
      as (_ & _ & H).
    destruct (H _ eq_refl) as (out & E & _).
    exists out. split; [exact E|].
    vm_compute in E. injection E as <-. reflexivity.
Defined.

(** ** Output as the caller has it *)

Section Capped.

Lemma capOutput_long (data : list Byte.byte) :
  Z.of_nat (length data) > maxOutputBytes ->
  capOutput data
  = (string_of_list_byte (take (Z.to_nat maxOutputBytes) data), true).
Proof.
  intros H. unfold capOutput.
  destruct (Z.gtb_spec (Z.of_nat (length data)) maxOutputBytes);
    [reflexivity | lia].
Qed.

Lemma capOutput_short (data : list Byte.byte) :
  Z.of_nat (length data) <= maxOutputBytes ->
  capOutput data = (string_of_list_byte data, false).
Proof.
  intros H. unfold capOutput.
  destruct (Z.gtb_spec (Z.of_nat (length data)) maxOutputBytes);
    [lia | reflexivity].
Qed.

Lemma string_of_list_byte_app (l k : list Byte.byte) :
  string_of_list_byte (l ++ k)
  = string_of_list_byte l ++ string_of_list_byte k.
Proof.
  unfold string_of_list_byte.
  induction l as [|b l IH]; simpl; [reflexivity | now rewrite IH].
Qed.

Lemma string_of_repeat (b : Byte.byte) (n : nat) :
  string_of_list_byte (repeat b n)
  = Strings.Repeat (ascii_of_byte b) n.
Proof.
  unfold string_of_list_byte.
  induction n as [|n IH]; simpl; [reflexivity | now rewrite IH].
Qed.

Variable h : Host.
Variable envs : list string.

(** What run_command answers is what [commandAnswer] makes of the run,
    marshalled. *)
Lemma run_command_answered (unmarshal : Tool.Decoder RunCommandTool.Input)
  (input : list Byte.byte) (out : RunCommandTool.Output) :
  result (Tool.run_command h envs unmarshal input) = inr out ->
  exists c o,
    In (ESpawn c) (trace (Tool.run_command h envs unmarshal input))
    /\ commandAnswer (Run h c) = inr o
    /\ out = Tool.marshalCommand o.
Proof.
  unfold Tool.run_command. destruct (unmarshal input) as [msg|inp];
    [discriminate|].
  intros Hout. apply marshalled_answered in Hout as (o & Ho & ->).
  rewrite trace_marshalled.
  destruct (launched_ok h envs _ _ _ _ _ _ o (command_launched h envs inp) Ho)
    as (c & Hc & Ha).
  exists c, o. auto.
Qed.

Lemma run_script_answered (unmarshal : Tool.Decoder RunScriptTool.Input)
  (input : list Byte.byte) (out : RunScriptTool.Output) :
  result (Tool.run_script h envs unmarshal input) = inr out ->
  exists c o shell,
    In (ESpawn c) (trace (Tool.run_script h envs unmarshal input))
    /\ scriptAnswer shell (Run h c) = inr o
    /\ out = Tool.marshalScript o.
Proof.
  unfold Tool.run_script. destruct (unmarshal input) as [msg|inp];
    [discriminate|].
  intros Hout. apply marshalled_answered in Hout as (o & Ho & ->).
  rewrite trace_marshalled.
  destruct (launched_ok h envs _ _ _ _ _ _ o (script_launched h envs inp) Ho)
    as (c & Hc & Ha).
  exists c, o. eauto.
Qed.

End Capped.

(** C6, as the code has it: a stream longer than the budget of 1 MiB is
    cut to exactly its first 1,048,576 bytes and flagged; a shorter one is
    kept whole and unflagged; the two streams of a run are capped one by
    one and the result's flag is the disjunction of the two.  The answer
    carries each capped stream as JSON encodes it: as it is when it is
    valid UTF-8, and otherwise with U+FFFD for every byte that is not part
    of a character, such as those of a character cut at the budget. *)
Theorem output_capping (h : Host) (envs : list string)
  (commandDecoder : Tool.Decoder RunCommandTool.Input)
  (scriptDecoder : Tool.Decoder RunScriptTool.Input)
  (input : list Byte.byte) (long short : list Byte.byte) :
  Z.of_nat (length long) > maxOutputBytes ->
  Z.of_nat (length short) <= maxOutputBytes ->
  maxOutputBytes = 1048576
  /\ capOutput long
     = (string_of_list_byte (take (Z.to_nat maxOutputBytes) long), true)
  /\ list_byte_of_string (fst (capOutput long))
     = take (Z.to_nat maxOutputBytes) long
  /\ Z.of_nat (String.length (fst (capOutput long))) = maxOutputBytes
  /\ capOutput short = (string_of_list_byte short, false)
  /\ (forall out,
        result (Tool.run_command h envs commandDecoder input) = inr out ->
        exists c,
          In (ESpawn c) (trace (Tool.run_command h envs commandDecoder input))
          /\ RunCommandTool.Stdout out
             = Json.text (fst (capOutput (Exec.stdout (Run h c))))
          /\ RunCommandTool.Stderr out
             = Json.text (fst (capOutput (Exec.stderr (Run h c))))
          /\ RunCommandTool.Truncated out
             = snd (capOutput (Exec.stdout (Run h c)))
               || snd (capOutput (Exec.stderr (Run h c)))
          /\ (Utf8.ValidString (fst (capOutput (Exec.stdout (Run h c)))) = true ->
              RunCommandTool.Stdout out
              = fst (capOutput (Exec.stdout (Run h c))))
          /\ (Utf8.ValidString (fst (capOutput (Exec.stderr (Run h c)))) = true ->
              RunCommandTool.Stderr out
              = fst (capOutput (Exec.stderr (Run h c)))))
  /\ (forall out,
        result (Tool.run_script h envs scriptDecoder input) = inr out ->
        exists c,
          In (ESpawn c) (trace (Tool.run_script h envs scriptDecoder input))
          /\ RunScriptTool.Stdout out
             = Json.text (fst (capOutput (Exec.stdout (Run h c))))
          /\ RunScriptTool.Stderr out
             = Json.text (fst (capOutput (Exec.stderr (Run h c))))
          /\ RunScriptTool.Truncated out
             = snd (capOutput (Exec.stdout (Run h c)))
               || snd (capOutput (Exec.stderr (Run h c)))
          /\ (Utf8.ValidString (fst (capOutput (Exec.stdout (Run h c)))) = true ->
              RunScriptTool.Stdout out
              = fst (capOutput (Exec.stdout (Run h c))))
          /\ (Utf8.ValidString (fst (capOutput (Exec.stderr (Run h c)))) = true ->
              RunScriptTool.Stderr out
              = fst (capOutput (Exec.stderr (Run h c))))).
Proof.
  intros Hlong Hshort.
  split; [reflexivity|]. split; [now apply capOutput_long|].
  rewrite (capOutput_long long Hlong). cbn [fst].
  split; [apply list_byte_of_string_of_list_byte|].
  split.
  { rewrite length_string_of_list_byte, length_take_le; unfold maxOutputBytes in *; lia. }
  split; [now apply capOutput_short|].
  split.
  - intros out Hout.
    destruct (run_command_answered h envs _ _ out Hout) as (c & o & Hc & Ha & ->).
    exists c. split; [exact Hc|].
    unfold commandAnswer in Ha. destruct (result (exitStatus "command" (Run h c)));
      [discriminate|]. injection Ha as <-.
    cbn [Tool.marshalCommand RunCommandTool.Stdout RunCommandTool.Stderr
         RunCommandTool.Truncated].
    repeat split; try reflexivity; intros Hv; now apply text_valid.
  - intros out Hout.
    destruct (run_script_answered h envs _ _ out Hout)
      as (c & o & shell & Hc & Ha & ->).
    exists c. split; [exact Hc|].
    unfold scriptAnswer in Ha. destruct (result (exitStatus "script" (Run h c)));
      [discriminate|]. injection Ha as <-.
    cbn [Tool.marshalScript RunScriptTool.Stdout RunScriptTool.Stderr
         RunScriptTool.Truncated].
    repeat split; try reflexivity; intros Hv; now apply text_valid.
Qed.

(** One byte more than the budget, and no byte at all. *)
Lemma output_capping_witness :
  (Z.of_nat (length (repeat Byte.x78 (Z.to_nat 1048577))) > maxOutputBytes
   /\ Z.of_nat (length (@nil Byte.byte)) <= maxOutputBytes)
  /\ Z.of_nat
       (String.length (fst (capOutput (repeat Byte.x78 (Z.to_nat 1048577)))))
     = maxOutputBytes
  /\ snd (capOutput (repeat Byte.x78 (Z.to_nat 1048577))) = true
  /\ capOutput [] = ("", false).
Proof.
  assert (H1 : Z.of_nat (length (repeat Byte.x78 (Z.to_nat 1048577)))
               > maxOutputBytes).
  { rewrite repeat_length, Z2Nat.id by lia. unfold maxOutputBytes. lia. }
  assert (H2 : Z.of_nat (length (@nil Byte.byte)) <= maxOutputBytes)
    by (unfold maxOutputBytes; simpl; lia).
  split; [auto|].
  destruct (output_capping plainHost [] (reading echoRequest)
              (reading echoScript) rawInput
              (repeat Byte.x78 (Z.to_nat 1048577)) [] H1 H2)
    as (_ & Hc & _ & Hl & Hs & _).
  split; [exact Hl|]. split; [now rewrite Hc | exact Hs].
Defined.

Section Grown.

Lemma take_repeat_snoc (b x : Byte.byte) (l : list Byte.byte) (n : nat) :
  take (S n) (repeat b n ++ x :: l) = (repeat b n ++ [x])%list.
Proof. induction n as [|n IH]; [reflexivity|]. simpl in *. now rewrite IH. Qed.

(** What is answered for an outcome that printed [n] times [a], then the
    first byte of a two-byte character, up to the budget. *)
Lemma text_cut_rune (n : nat) :
  Json.text (Strings.Repeat "a" n ++ String "195" "")
  = Strings.Repeat "a" n ++ Json.replacement.
Proof.
  rewrite text_ascii_app; [reflexivity|]. now apply ascii7_Repeat.
Qed.

Lemma take_cutAtBudget :
  take (Z.to_nat maxOutputBytes) cutAtBudget
  = (repeat Byte.x61 (Z.to_nat 1048575) ++ [Byte.xc3])%list.
Proof.
  unfold cutAtBudget. change maxOutputBytes with (Z.succ 1048575).
  rewrite Z2Nat.inj_succ by lia.
  generalize (Z.to_nat 1048575). intros n. apply take_repeat_snoc.
Qed.

Lemma capped_cutAtBudget :
  capOutput cutAtBudget
  = (Strings.Repeat "a" (Z.to_nat 1048575) ++ String "195" "", true).
Proof.
  rewrite capOutput_long.
  - rewrite take_cutAtBudget, string_of_list_byte_app, string_of_repeat.
    generalize (Z.to_nat 1048575). intros n. reflexivity.
  - unfold cutAtBudget. rewrite length_app, repeat_length, Nat2Z.inj_add.
    rewrite Z2Nat.id by lia. unfold maxOutputBytes. cbn [length]. lia.
Qed.


Lemma run_cutAtBudget :
  RunCommandTool.Execute (printingHost cutAtBudget) [] (lsRequest "" 0)
  = ([ESpawn (plainCmd "ls" ["-l"] 30000000000)],
     commandAnswer (Run (printingHost cutAtBudget)
                      (plainCmd "ls" ["-l"] 30000000000))).
Proof.
  assert (Hc : RunCommandTool.Cmd (lsRequest "" 0) <> "") by discriminate.
  assert (Hd : fst (isDenied (RunCommandTool.fullCmd (lsRequest "" 0))) = false)
    by (vm_compute; reflexivity).
  destruct (command_proceeds (printingHost cutAtBudget) [] (lsRequest "" 0) Hc Hd)
    as [(Hn & _) | [(Hn & _) | (dir & Hdir & E)]].
  - exfalso. apply Hn. reflexivity.
  - exfalso. apply Hn. reflexivity.
  - destruct Hdir as [[_ ->] | (Hn & _)]; [|exfalso; apply Hn; reflexivity].
    exact E.
Qed.

Lemma answer_cutAtBudget :
  commandAnswer (Run (printingHost cutAtBudget)
                   (plainCmd "ls" ["-l"] 30000000000))
  = inr {| RunCommandTool.ExitCode := 0;
           RunCommandTool.Stdout := fst (capOutput cutAtBudget);
           RunCommandTool.Stderr := "";
           RunCommandTool.Truncated := snd (capOutput cutAtBudget) || false;
           RunCommandTool.TimedOut := false;
           RunCommandTool.DurationMs := 1 |}.
Proof.
  unfold commandAnswer, exitStatus, printingHost, hostRunning.
  cbn [Run Exec.ctxErr Exec.err Exec.stdout Exec.stderr Exec.duration result
       ret snd fst].
  reflexivity.
Qed.

End Grown.

(** C6, as stated, fails: of 1,048,575 bytes [a] followed by a two-byte
    character and two more bytes, the stream is cut in the middle of the
    character, and the answer carries 1,048,578 bytes, two more than the
    budget; and a stream of the single byte 255, under the budget, does
    not come back as it is. *)
Lemma returned_stdout_exceeds_the_budget :
  (exists out,
     result (Tool.run_command (printingHost cutAtBudget) []
               (reading (lsRequest "" 0)) rawInput) = inr out
     /\ RunCommandTool.Truncated out = true
     /\ Z.of_nat (String.length (RunCommandTool.Stdout out)) = 1048578
     /\ Z.of_nat (String.length (RunCommandTool.Stdout out)) <> maxOutputBytes)
  /\ (exists out,
        result (Tool.run_command (printingHost [Byte.xff]) []
                  (reading (lsRequest "" 0)) rawInput) = inr out
        /\ RunCommandTool.Truncated out = false
        /\ RunCommandTool.Stdout out = Json.replacement
        /\ RunCommandTool.Stdout out <> string_of_list_byte [Byte.xff]).
Proof.
  split.
  - unfold Tool.run_command. cbn [reading rawInput].
    rewrite run_cutAtBudget, answer_cutAtBudget.
    unfold Tool.marshalled, result. cbn [fst snd].
    eexists. split; [reflexivity|].
    cbn [Tool.marshalCommand RunCommandTool.Truncated RunCommandTool.Stdout].
    rewrite capped_cutAtBudget. cbn [fst snd orb].
    split; [reflexivity|].
    rewrite text_cut_rune, length_append, length_Repeat, Nat2Z.inj_add.
    rewrite Z2Nat.id by lia. unfold maxOutputBytes.
    split; [reflexivity | discriminate].
  - eexists. split; [vm_compute; reflexivity|]. cbn.
    split; [reflexivity|]. split; [reflexivity | discriminate].
Qed.

(** ** What a call runs and how it fails *)

(** X3: a call hands at most one command to [cmd.Run], and exactly one
    when it returns a result, so that it starts at most one process; an
    input that cannot be decoded runs nothing.  run_command runs the
    executable and the arguments of the request; run_script runs the
    resolved interpreter on its flag and the script as given, whole, and
    the answer names that interpreter, as JSON encodes it, as the shell
    used.  The command is to run in the caller's directory when the
    request names none, and else in the absolute path that was found to
    be a directory. *)
Theorem one_command_per_call (h : Host) (envs : list string)
  (commandDecoder : Tool.Decoder RunCommandTool.Input)
  (scriptDecoder : Tool.Decoder RunScriptTool.Input)
  (input : list Byte.byte) :
  ((length (spawns (trace (Tool.run_command h envs commandDecoder input)))
    <= 1)%nat
   /\ (forall out,
         result (Tool.run_command h envs commandDecoder input) = inr out ->
         length (spawns (trace (Tool.run_command h envs commandDecoder input)))
         = 1%nat)
   /\ (forall c,
         In c (spawns (trace (Tool.run_command h envs commandDecoder input))) ->
         exists rc,
           commandDecoder input = inr rc
           /\ Exec.Path c = RunCommandTool.Cmd rc
           /\ Exec.Args c = RunCommandTool.Args rc
           /\ (RunCommandTool.Cwd rc = "" /\ Exec.Dir c = ""
               \/ RunCommandTool.Cwd rc <> ""
                  /\ Abs h (RunCommandTool.Cwd rc) = inr (Exec.Dir c)
                  /\ IsDir h (Exec.Dir c) = true)))
  /\ ((length (spawns (trace (Tool.run_script h envs scriptDecoder input)))
       <= 1)%nat
      /\ (forall out,
            result (Tool.run_script h envs scriptDecoder input) = inr out ->
            length (spawns (trace (Tool.run_script h envs scriptDecoder input)))
            = 1%nat
            /\ forall c,
                 In c (spawns (trace (Tool.run_script h envs scriptDecoder
                                        input))) ->
                 RunScriptTool.ShellUsed out = Json.text (Exec.Path c))
      /\ (forall c,
            In c (spawns (trace (Tool.run_script h envs scriptDecoder input))) ->
            exists rs,
              scriptDecoder input = inr rs
              /\ (Exec.Path c, Exec.Args c)
                 = (fst (resolveShell h (RunScriptTool.Shell rs)),
                    [snd (resolveShell h (RunScriptTool.Shell rs));
                     RunScriptTool.Script rs])
              /\ (RunScriptTool.Cwd rs = "" /\ Exec.Dir c = ""
                  \/ RunScriptTool.Cwd rs <> ""
                     /\ Abs h (RunScriptTool.Cwd rs) = inr (Exec.Dir c)
                     /\ IsDir h (Exec.Dir c) = true))).
Proof.
  unfold Tool.run_command, Tool.run_script. split.
  - destruct (commandDecoder input) as [msg|rc].
    { split; [simpl; lia|]. split; [discriminate | intros c []]. }
    rewrite trace_marshalled.
    destruct (execute_runs_once h envs rc
                {| RunScriptTool.Script := ""; RunScriptTool.Shell := "";
                   RunScriptTool.Cwd := ""; RunScriptTool.EnvOverrides := ∅;
                   RunScriptTool.TimeoutMs := 0 |})
      as [(Hle & Hone & Hc) _].
    split; [exact Hle|]. split.
    + intros out Hout. apply marshalled_answered in Hout as (o & Ho & _). eauto.
    + intros c Hin. exists rc. split; [reflexivity | now apply Hc].
  - destruct (scriptDecoder input) as [msg|rs].
    { split; [simpl; lia|]. split; [discriminate | intros c []]. }
    rewrite trace_marshalled.
    destruct (execute_runs_once h envs
                {| RunCommandTool.Cmd := ""; RunCommandTool.Args := [];
                   RunCommandTool.Cwd := ""; RunCommandTool.EnvOverrides := ∅;
                   RunCommandTool.TimeoutMs := 0 |} rs)
      as [_ (Hle & Hone & Hc)].
    split; [exact Hle|]. split.
    + intros out Hout. apply marshalled_answered in Hout as (o & Ho & ->).
      destruct (Hone o Ho) as [Hlen Hshell]. split; [exact Hlen|].
      intros c Hin. cbn [Tool.marshalScript RunScriptTool.ShellUsed].
      now rewrite (Hshell c Hin).
    + intros c Hin. exists rs. split; [reflexivity | now apply Hc].
Qed.

(** A script run in [/work]. *)
Lemma one_command_per_call_witness :
  (result (Tool.run_script strictHost [] (reading (pwdScript "/work")) rawInput)
   = inr {| RunScriptTool.ExitCode := 0; RunScriptTool.Stdout := "";
            RunScriptTool.Stderr := ""; RunScriptTool.Truncated := false;
            RunScriptTool.TimedOut := false; RunScriptTool.DurationMs := 0;
            RunScriptTool.ShellUsed := "/bin/sh" |})
  /\ length (spawns (trace (Tool.run_script strictHost []
                              (reading (pwdScript "/work")) rawInput)))
     = 1%nat
  /\ spawns (trace (Tool.run_script strictHost []
                      (reading (pwdScript "/work")) rawInput))
     = [{| Exec.Path := "/bin/sh"; Exec.Args := ["-c"; "pwd"];
           Exec.Dir := "/work"; Exec.Env := None;
           Exec.Timeout := 1000000000 |}].
Proof.
  assert (H1 : result (Tool.run_script strictHost []
                         (reading (pwdScript "/work")) rawInput)
               = inr {| RunScriptTool.ExitCode := 0; RunScriptTool.Stdout := "";
                        RunScriptTool.Stderr := "";
                        RunScriptTool.Truncated := false;
                        RunScriptTool.TimedOut := false;
                        RunScriptTool.DurationMs := 0;
                        RunScriptTool.ShellUsed := "/bin/sh" |})
    by (vm_compute; reflexivity).
  split; [exact H1|].
  destruct (one_command_per_call strictHost [] (reading (lsRequest "" 0))
              (reading (pwdScript "/work")) rawInput)
    as (_ & _ & S & _).
  split; [exact (proj1 (S _ H1)) | vm_compute; reflexivity].
Defined.

(** X17: run_command fails for six reasons only: an input that cannot be
    decoded, no command, a denied command line, a working directory that
    cannot be made absolute or is not a directory, and a command that
    could not be run while the deadline had not passed; run_script
    likewise, with a denied line being one of the script's trimmed lines
    that is neither blank nor a comment.  A non-zero exit status or a
    time-out is never an error. *)
Theorem calls_fail_only_for (h : Host) (envs : list string)
  (commandDecoder : Tool.Decoder RunCommandTool.Input)
  (scriptDecoder : Tool.Decoder RunScriptTool.Input)
  (input : list Byte.byte) (e : error) :
  (result (Tool.run_command h envs commandDecoder input) = inl e ->
   (exists msg, e = ErrUnmarshal msg /\ commandDecoder input = inl msg)
   \/ exists rc,
        commandDecoder input = inr rc
        /\ ((e = ErrCmdRequired /\ RunCommandTool.Cmd rc = "")
            \/ (exists pattern,
                  e = ErrCommandBlocked pattern
                  /\ isDenied (RunCommandTool.fullCmd rc) = (true, pattern))
            \/ (exists msg, e = ErrInvalidCwd msg
                            /\ Abs h (RunCommandTool.Cwd rc) = inl msg)
            \/ (e = ErrCwdNotDir (RunCommandTool.Cwd rc)
                /\ exists absPath,
                     Abs h (RunCommandTool.Cwd rc) = inr absPath
                     /\ IsDir h absPath = false)
            \/ (exists msg c,
                  e = ErrFailedToRun "command" msg
                  /\ spawns (trace (Tool.run_command h envs commandDecoder
                                      input)) = [c]
                  /\ Exec.err (Run h c) = Exec.OtherError msg
                  /\ Exec.ctxErr (Run h c) <> Exec.DeadlineExceeded)))
  /\ (result (Tool.run_script h envs scriptDecoder input) = inl e ->
      (exists msg, e = ErrUnmarshal msg /\ scriptDecoder input = inl msg)
      \/ exists rs,
           scriptDecoder input = inr rs
           /\ ((e = ErrScriptRequired /\ RunScriptTool.Script rs = "")
               \/ (exists pattern raw,
                     e = ErrScriptBlocked pattern (Strings.TrimSpace raw)
                     /\ In raw (Strings.Split (RunScriptTool.Script rs) "010")
                     /\ RunScriptTool.skipped (Strings.TrimSpace raw) = false
                     /\ isDenied (Strings.TrimSpace raw) = (true, pattern))
               \/ (exists msg, e = ErrInvalidCwd msg
                               /\ Abs h (RunScriptTool.Cwd rs) = inl msg)
               \/ (e = ErrCwdNotDir (RunScriptTool.Cwd rs)
                   /\ exists absPath,
                        Abs h (RunScriptTool.Cwd rs) = inr absPath
                        /\ IsDir h absPath = false)
               \/ (exists msg c,
                     e = ErrFailedToRun "script" msg
                     /\ spawns (trace (Tool.run_script h envs scriptDecoder
                                         input)) = [c]
                     /\ Exec.err (Run h c) = Exec.OtherError msg
                     /\ Exec.ctxErr (Run h c) <> Exec.DeadlineExceeded))).
Proof.
  unfold Tool.run_command, Tool.run_script. split.
  - destruct (commandDecoder input) as [msg|rc].
    { intros E. injection E as <-. left. eauto. }
    intros E. apply marshalled_failed in E. right. exists rc.
    split; [reflexivity|]. rewrite trace_marshalled.
    exact (proj1 (execute_fails_for h envs rc
                    {| RunScriptTool.Script := ""; RunScriptTool.Shell := "";
                       RunScriptTool.Cwd := ""; RunScriptTool.EnvOverrides := ∅;
                       RunScriptTool.TimeoutMs := 0 |} e) E).
  - destruct (scriptDecoder input) as [msg|rs].
    { intros E. injection E as <-. left. eauto. }
    intros E. apply marshalled_failed in E. right. exists rs.
    split; [reflexivity|]. rewrite trace_marshalled.
    exact (proj2 (execute_fails_for h envs
                    {| RunCommandTool.Cmd := ""; RunCommandTool.Args := [];
                       RunCommandTool.Cwd := ""; RunCommandTool.EnvOverrides := ∅;
                       RunCommandTool.TimeoutMs := 0 |} rs e) E).
Qed.

(** A time limit that is no 64-bit integer, and a command that is not
    found. *)
Lemma calls_fail_only_for_witness :
  result (Tool.run_command plainHost []
            (fun _ => inl "json: cannot unmarshal number 9223372036854775808 into Go struct field RunCommandInput.timeout_ms of type int64")
            rawInput)
  = inl (ErrUnmarshal "json: cannot unmarshal number 9223372036854775808 into Go struct field RunCommandInput.timeout_ms of type int64")
  /\ result (Tool.run_command (brokenHost Exec.NoErr) []
               (reading echoRequest) rawInput)
     = inl (ErrFailedToRun "command" "exec: not found")
  /\ exists c,
       spawns (trace (Tool.run_command (brokenHost Exec.NoErr) []
                        (reading echoRequest) rawInput)) = [c]
       /\ Exec.err (Run (brokenHost Exec.NoErr) c)
          = Exec.OtherError "exec: not found".
Proof.
  split; [reflexivity|].
  assert (H1 : result (Tool.run_command (brokenHost Exec.NoErr) []
                         (reading echoRequest) rawInput)
               = inl (ErrFailedToRun "command" "exec: not found"))
    by (vm_compute; reflexivity).
  split; [exact H1|].
  destruct (calls_fail_only_for (brokenHost Exec.NoErr) []
              (reading echoRequest) (reading echoScript) rawInput
              (ErrFailedToRun "command" "exec: not found")) as [C _].
  destruct (C H1) as [(msg & E & _) | (rc & Hrc & H)]; [discriminate|].
  destruct H as [[E _] | [(p & E & _) | [(msg & E & _) | [[E _] | H]]]];
    try discriminate.
  destruct H as (msg & c & E & Hs & He & _). injection E as <-.
  exists c. auto.
Defined.

(** ** A variable written, then a command run *)

(** X16: a variable written by an accepted set_env call is what the
    command of a later run_command or run_script passes on to its
    process, unless the request overrides that very variable, in which
    case the process reads the override.  [PWD] is the exception: for a
    request with a working directory and no overrides os/exec sets it to
    that directory.  The names of the environment are taken to be
    distinct and the override keys to be names of variables. *)
Theorem set_env_reaches_later_commands (h : Host) (envs : list string)
  (setDecoder : Tool.Decoder SetEnvTool.Input)
  (commandDecoder : Tool.Decoder RunCommandTool.Input)
  (scriptDecoder : Tool.Decoder RunScriptTool.Input)
  (setInput runInput : list Byte.byte)
  (key val : string) (out : SetEnvTool.Output) :
  let set := Tool.set_env h envs setDecoder setInput in
  rangeSound h ->
  NoDup (envKeys envs) ->
  setDecoder setInput
  = inr {| SetEnvTool.Key := key; SetEnvTool.Value := val |} ->
  result (fst set) = inr out ->
  (forall rc,
     commandDecoder runInput = inr rc ->
     validNames (RunCommandTool.EnvOverrides rc) ->
     key <> "PWD" \/ RunCommandTool.Cwd rc = ""
     \/ RunCommandTool.EnvOverrides rc <> ∅ ->
     forall c,
       In c (spawns (trace (Tool.run_command h (snd set) commandDecoder
                              runInput))) ->
       Os.childGetenv (environOf h (snd set) c) key
       = Some (default val (RunCommandTool.EnvOverrides rc !! key)))
  /\ (forall rs,
        scriptDecoder runInput = inr rs ->
        validNames (RunScriptTool.EnvOverrides rs) ->
        key <> "PWD" \/ RunScriptTool.Cwd rs = ""
        \/ RunScriptTool.EnvOverrides rs <> ∅ ->
        forall c,
          In c (spawns (trace (Tool.run_script h (snd set) scriptDecoder
                                 runInput))) ->
          Os.childGetenv (environOf h (snd set) c) key
          = Some (default val (RunScriptTool.EnvOverrides rs !! key))).
Proof.
  intros set Hrange Hnd Hs Hok. subst set.
  unfold Tool.set_env in *. rewrite Hs in *. cbn [fst snd] in *.
  apply marshalled_answered in Hok as (o & Hok & _).
  split.
  - intros rc Hrc Hvalid Hcase c Hc.
    unfold Tool.run_command in Hc. rewrite Hrc, trace_marshalled in Hc.
    exact (proj1 (execute_passes_on h envs key val o rc
                    {| RunScriptTool.Script := ""; RunScriptTool.Shell := "";
                       RunScriptTool.Cwd := ""; RunScriptTool.EnvOverrides := ∅;
                       RunScriptTool.TimeoutMs := 0 |} Hrange Hnd Hok)
             Hvalid Hcase c Hc).
  - intros rs Hrs Hvalid Hcase c Hc.
    unfold Tool.run_script in Hc. rewrite Hrs, trace_marshalled in Hc.
    exact (proj2 (execute_passes_on h envs key val o
                    {| RunCommandTool.Cmd := ""; RunCommandTool.Args := [];
                       RunCommandTool.Cwd := ""; RunCommandTool.EnvOverrides := ∅;
                       RunCommandTool.TimeoutMs := 0 |} rs Hrange Hnd Hok)
             Hvalid Hcase c Hc).
Qed.

(** [MODE] written, then [echo] run with [X] overridden. *)
Lemma set_env_reaches_later_commands_witness :
  spawns (trace (Tool.run_command plainHost ["PATH=/bin"; "MODE=fast"]
                   (reading echoRequest) rawInput))
  = [{| Exec.Path := "echo"; Exec.Args := ["hello"]; Exec.Dir := "";
        Exec.Env := Some ["PATH=/bin"; "MODE=fast"; "X=1"];
        Exec.Timeout := 30000000000 |}]
  /\ Os.childGetenv ["PATH=/bin"; "MODE=fast"; "X=1"] "MODE" = Some "fast".
Proof.
  assert (H1 : rangeSound plainHost) by (intros m; reflexivity).
  assert (H2 : NoDup (envKeys ["PATH=/bin"])).
  { apply NoDup_singleton. }
  assert (H3 : result (fst (Tool.set_env plainHost ["PATH=/bin"]
                 (reading {| SetEnvTool.Key := "MODE";
                             SetEnvTool.Value := "fast" |}) rawInput))
               = inr {| SetEnvTool.Success := true; SetEnvTool.Message := "" |})
    by (vm_compute; reflexivity).
  assert (H4 : validNames (RunCommandTool.EnvOverrides echoRequest)).
  { intros k v H. cbn [echoRequest RunCommandTool.EnvOverrides] in H.
    apply lookup_singleton_Some in H as [<- <-].
    split; [discriminate | reflexivity]. }
  assert (H5 : spawns (trace (Tool.run_command plainHost
                               ["PATH=/bin"; "MODE=fast"]
                               (reading echoRequest) rawInput))
               = [{| Exec.Path := "echo"; Exec.Args := ["hello"]; Exec.Dir := "";
                     Exec.Env := Some ["PATH=/bin"; "MODE=fast"; "X=1"];
                     Exec.Timeout := 30000000000 |}])
    by (vm_compute; reflexivity).
  assert (H6 : "MODE" <> "PWD" \/ RunCommandTool.Cwd echoRequest = ""
               \/ RunCommandTool.EnvOverrides echoRequest <> ∅)
    by (left; discriminate).
  split; [exact H5|].
  destruct (set_env_reaches_later_commands plainHost ["PATH=/bin"]
              (reading {| SetEnvTool.Key := "MODE"; SetEnvTool.Value := "fast" |})
              (reading echoRequest) (reading echoScript) rawInput rawInput
              "MODE" "fast" _ H1 H2 eq_refl H3) as [C _].
  change (snd (Tool.set_env plainHost ["PATH=/bin"]
                 (reading {| SetEnvTool.Key := "MODE";
                             SetEnvTool.Value := "fast" |}) rawInput))
    with ["PATH=/bin"; "MODE=fast"] in C.
  specialize (C echoRequest eq_refl H4 H6 _ ltac:(rewrite H5; left; reflexivity)).
  exact C.
Defined.
